(** * ARQV30 Enhanced v2.0: the market-analysis route (src/routes/analysis.py)

    A shallow embedding of the [UltraRobustAnalyzer] class and of the
    [/analyze] route, with the properties of the specification stated
    over it.

    - Documents are JSON-like values; a Python [dict] is an association
      list in insertion order.
    - Python [float] is IEEE binary64, taken from the kernel's primitive
      floats.
    - Collaborators (attachment service, web-research agent, LLM client,
      secondary inference client, data store, clock) are oracles of a
      [world]; every call is appended to a trace, and a call may raise.
    - The body of a request is the outcome of [request.get_json()], the
      parsed value or the exception the call raised: the call is inside
      the [try] of the routes that read a body.
    - The builtins of the language whose definition is a table or a
      parser of its own (case mapping, whitespace splitting, [float] and
      [int] of a string, [repr], [json.dumps]) are the fields of a
      [runtime].

    Two places of analysis.py do not parse as Python: line 50 (an [if]
    header of the persistence block, displaced under the [try] of the
    orchestrator) and lines 983-985 (a second [except] clause after the
    [elif] of the persistence block). The embedding follows the
    statements around them: the orchestrator's [try] body starts at the
    collector call, and the [elif] branch only logs. Logging calls are
    not modelled. *)

From Stdlib Require Import ZArith List String Ascii Bool Lia.
From Stdlib Require Import DecimalString.
From Stdlib Require Import Floats.PrimFloat Floats.SpecFloat Floats.FloatOps.
Import ListNotations.

Set Warnings "-inexact-float,-register-all".

Open Scope string_scope.
Open Scope Z_scope.

(** ** Values and exceptions *)

Inductive value : Type :=
| VNone
| VBool (b : bool)
| VInt (z : Z)
| VFloat (f : float)
| VStr (s : string)
| VList (l : list value)
| VDict (d : list (string * value)).

Definition dict : Type := list (string * value).

Inductive exn_class : Type :=
| ValueError
| TypeError
| AttributeError
| KeyError
| OverflowError
| OtherError.

(** An instance of (a subclass of) [Exception]; [exn_text] is [str(e)]. *)
Record exn : Type := Raised { exn_kind : exn_class; exn_text : string }.

Inductive result (A : Type) : Type :=
| Ok (a : A)
| Err (e : exn).
Arguments Ok {A} a.
Arguments Err {A} e.

Definition rbind {A B : Type} (r : result A) (k : A -> result B) : result B :=
  match r with
  | Ok a => k a
  | Err e => Err e
  end.

Notation "'let?' x ':=' r 'in' k" := (rbind r (fun x => k))
  (at level 10, x name, r at level 100, k at level 200).

Definition is_ok {A : Type} (r : result A) : bool :=
  match r with Ok _ => true | Err _ => false end.

(** ** Strings *)

Definition nl : string := String (ascii_of_nat 10) EmptyString.
Definition dquote : string := String (ascii_of_nat 34) EmptyString.

Fixpoint contains_sub (needle hay : string) : bool :=
  if String.prefix needle hay then true
  else match hay with
       | EmptyString => false
       | String _ rest => contains_sub needle rest
       end.

(** [s.replace(old, new)] for one-character [old] and [new]. *)
Fixpoint replace_char (old new : ascii) (s : string) : string :=
  match s with
  | EmptyString => EmptyString
  | String c rest =>
      String (if Ascii.eqb c old then new else c) (replace_char old new rest)
  end.

(** Strings are UTF-8 byte sequences; [len] and slicing count code points,
    that is, the bytes that are not continuation bytes (0x80..0xBF). *)
Definition is_cont (c : ascii) : bool :=
  let n := N_of_ascii c in (128 <=? n)%N && (n <? 192)%N.

Fixpoint utf8_len (s : string) : Z :=
  match s with
  | EmptyString => 0
  | String c rest => (if is_cont c then 0 else 1) + utf8_len rest
  end.

(** [s[:n]] for [0 <= n]. *)
Fixpoint utf8_take (n : Z) (s : string) : string :=
  match s with
  | EmptyString => EmptyString
  | String c rest =>
      if is_cont c then String c (utf8_take n rest)
      else if n <=? 0 then EmptyString
           else String c (utf8_take (n - 1) rest)
  end.

(** The code points of a string, each as a string of its bytes. *)
Fixpoint utf8_chars_from (cur : string) (s : string) : list string :=
  match s with
  | EmptyString => match cur with EmptyString => [] | _ => [cur] end
  | String c rest =>
      if is_cont c then utf8_chars_from (cur ++ String c EmptyString) rest
      else match cur with
           | EmptyString => utf8_chars_from (String c EmptyString) rest
           | _ => cur :: utf8_chars_from (String c EmptyString) rest
           end
  end.

Definition utf8_chars (s : string) : list string :=
  utf8_chars_from EmptyString s.

Fixpoint join (sep : string) (l : list string) : string :=
  match l with
  | [] => EmptyString
  | [x] => x
  | x :: rest => x ++ sep ++ join sep rest
  end.

Definition str_of_Z (z : Z) : string := NilZero.string_of_int (Z.to_int z).

(** The [,] format of an integer: groups of three digits from the right. *)
Fixpoint group3 (digits_rev : list ascii) (k : nat) : list ascii :=
  match digits_rev with
  | [] => []
  | c :: rest =>
      if Nat.eqb k 3 then ","%char :: c :: group3 rest 1
      else c :: group3 rest (S k)
  end.

Definition fmt_thousands (z : Z) : string :=
  (if z <? 0 then "-" else EmptyString)
    ++ string_of_list_ascii
         (rev (group3 (rev (list_ascii_of_string (str_of_Z (Z.abs z)))) 0)).

(** ** Numbers *)

(** The float nearest to an integer (ties to even). *)
Definition nearest_float (z : Z) : float :=
  SF2Prim (binary_normalize prec emax z 0 false).

(** [float(z)] for an integer; [None] when the integer is too large for a
    float (OverflowError). *)
Definition float_of_Z (z : Z) : option float :=
  if Z.abs z <? 2 ^ 1024 then
    let f := nearest_float z in
    if PrimFloat.is_infinity f then None else Some f
  else None.

(** [min(a, b)] on floats: [b] only when [b < a]. *)
Definition py_min (a b : float) : float :=
  if PrimFloat.ltb b a then b else a.

(** [int(f)] for a float: truncation towards zero. *)
Definition trunc_float (f : float) : result Z :=
  match Prim2SF f with
  | S754_zero _ => Ok 0
  | S754_finite s m e =>
      let a := if 0 <=? e then Z.pos m * 2 ^ e
               else Z.quot (Z.pos m) (2 ^ (- e)) in
      Ok (if s then - a else a)
  | S754_infinity _ =>
      Err (Raised OverflowError "cannot convert float infinity to integer")
  | S754_nan =>
      Err (Raised ValueError "cannot convert float NaN to integer")
  end.

Definition float_of_bool (b : bool) : float := if b then 1%float else 0%float.

(** ** Dictionaries *)

Fixpoint lookup (k : string) (d : dict) : option value :=
  match d with
  | [] => None
  | (k', v) :: rest => if String.eqb k k' then Some v else lookup k rest
  end.

(** [d[k] = v]: an existing key keeps its place. *)
Fixpoint dict_set (k : string) (v : value) (d : dict) : dict :=
  match d with
  | [] => [(k, v)]
  | (k', v') :: rest =>
      if String.eqb k k' then (k, v) :: rest else (k', v') :: dict_set k v rest
  end.

Definition has_key (k : string) (d : dict) : bool :=
  match lookup k d with Some _ => true | None => false end.

(** [d.get(k, dflt)] *)
Definition get_default (d : dict) (k : string) (dflt : value) : value :=
  match lookup k d with Some v => v | None => dflt end.

(** [d.get(k)] *)
Definition get (d : dict) (k : string) : value := get_default d k VNone.

(** Truth value of an object. *)
Definition truthy (v : value) : bool :=
  match v with
  | VNone => false
  | VBool b => b
  | VInt z => negb (z =? 0)
  | VFloat f => negb (PrimFloat.eqb f 0)
  | VStr s => negb (String.eqb s EmptyString)
  | VList l => match l with [] => false | _ => true end
  | VDict d => match d with [] => false | _ => true end
  end.

(** [k in d and d[k]] *)
Definition present_and_truthy (k : string) (d : dict) : bool :=
  match lookup k d with Some v => truthy v | None => false end.

Definition type_name (v : value) : string :=
  match v with
  | VNone => "NoneType"
  | VBool _ => "bool"
  | VInt _ => "int"
  | VFloat _ => "float"
  | VStr _ => "str"
  | VList _ => "list"
  | VDict _ => "dict"
  end.

Definition no_attribute (v : value) (attr : string) : exn :=
  Raised AttributeError
    ("'" ++ type_name v ++ "' object has no attribute '" ++ attr ++ "'").

(** [v.get(k, dflt)] on an arbitrary object: only a dict has [get]. *)
Definition obj_get (v : value) (k : string) (dflt : value) : result value :=
  match v with
  | VDict d => Ok (get_default d k dflt)
  | _ => Err (no_attribute v "get")
  end.

(** [len(v)] *)
Definition py_len (v : value) : result Z :=
  match v with
  | VStr s => Ok (utf8_len s)
  | VList l => Ok (Z.of_nat (List.length l))
  | VDict d => Ok (Z.of_nat (List.length d))
  | _ => Err (Raised TypeError
                ("object of type '" ++ type_name v ++ "' has no len()"))
  end.

(** The elements an iteration over [v] yields. *)
Definition py_iter (v : value) : result (list value) :=
  match v with
  | VList l => Ok l
  | VStr s => Ok (map VStr (utf8_chars s))
  | VDict d => Ok (map (fun kv => VStr (fst kv)) d)
  | _ => Err (Raised TypeError
                ("'" ++ type_name v ++ "' object is not iterable"))
  end.

(** [v[k]] for a string [k] *)
Definition obj_getitem (v : value) (k : string) : result value :=
  match v with
  | VDict d =>
      match lookup k d with
      | Some x => Ok x
      | None => Err (Raised KeyError ("'" ++ k ++ "'"))
      end
  | VList _ =>
      Err (Raised TypeError "list indices must be integers or slices, not str")
  | VStr _ =>
      Err (Raised TypeError "string indices must be integers, not 'str'")
  | _ => Err (Raised TypeError
                ("'" ++ type_name v ++ "' object is not subscriptable"))
  end.

(** [v[k] = x] for a string [k] *)
Definition obj_setitem (v : value) (k : string) (x : value) : result value :=
  match v with
  | VDict d => Ok (VDict (dict_set k x d))
  | VList _ =>
      Err (Raised TypeError "list indices must be integers or slices, not str")
  | _ => Err (Raised TypeError
                ("'" ++ type_name v
                   ++ "' object does not support item assignment"))
  end.

(** [v.copy()] *)
Definition obj_copy (v : value) : result value :=
  match v with
  | VDict _ | VList _ => Ok v
  | _ => Err (no_attribute v "copy")
  end.

(** [sep.join(v)] *)
Definition py_join (sep : string) (v : value) : result string :=
  let? items := py_iter v in
  let? strs :=
    (fix go (l : list value) : result (list string) :=
       match l with
       | [] => Ok []
       | VStr s :: rest => let? r := go rest in Ok (s :: r)
       | x :: _ =>
           Err (Raised TypeError
                  ("sequence item: expected str instance, " ++ type_name x
                     ++ " found"))
       end) items in
  Ok (join sep strs).

(** [d[k] += n] on an integer entry. *)
Definition dict_add (k : string) (n : Z) (d : dict) : dict :=
  match lookup k d with
  | Some (VInt z) => dict_set k (VInt (z + n)) d
  | _ => d
  end.

Fixpoint enumerate_from {A : Type} (i : Z) (l : list A) : list (Z * A) :=
  match l with
  | [] => []
  | x :: rest => (i, x) :: enumerate_from (i + 1) rest
  end.

(** ** The language runtime

    Builtins whose definition is a table or a parser of the interpreter:
    they are left abstract, and every statement below holds for all of
    them. *)
Record runtime : Type := {
  (** [s.lower()], [s.upper()] *)
  str_lower : string -> string;
  str_upper : string -> string;
  (** [s.split()] *)
  str_split : string -> list string;
  (** [float(s)] and [int(s)] of a string; [None] is ValueError *)
  float_of_str : string -> option float;
  int_of_str : string -> option Z;
  (** [str(v)] of a float, a list or a dict *)
  repr_value : value -> string;
  (** [json.dumps(v, ensure_ascii=False)] *)
  json_dumps : value -> string;
  (** [f"{int(t // 60)}m {int(t % 60)}s"] of an elapsed time *)
  fmt_elapsed : float -> string
}.

(** [str(v)], also what an f-string field without format expands to. *)
Definition py_str (rt : runtime) (v : value) : string :=
  match v with
  | VStr s => s
  | VNone => "None"
  | VBool true => "True"
  | VBool false => "False"
  | VInt z => str_of_Z z
  | _ => repr_value rt v
  end.

(** [v.lower()] on an arbitrary object. *)
Definition str_lower_of (rt : runtime) (v : value) : result string :=
  match v with
  | VStr s => Ok (str_lower rt s)
  | _ => Err (no_attribute v "lower")
  end.

(** [v * c] for a float constant [c]. *)
Definition py_mul_const (v : value) (c : float) : result float :=
  match v with
  | VInt z =>
      match float_of_Z z with
      | Some f => Ok (PrimFloat.mul f c)
      | None => Err (Raised OverflowError "int too large to convert to float")
      end
  | VBool b => Ok (PrimFloat.mul (float_of_bool b) c)
  | VFloat f => Ok (PrimFloat.mul f c)
  | VStr _ | VList _ =>
      Err (Raised TypeError "can't multiply sequence by non-int of type 'float'")
  | VNone | VDict _ =>
      Err (Raised TypeError
             ("unsupported operand type(s) for *: '" ++ type_name v
                ++ "' and 'float'"))
  end.

(** [int(v)] *)
Definition py_int (rt : runtime) (v : value) : result Z :=
  match v with
  | VInt z => Ok z
  | VBool b => Ok (if b then 1 else 0)
  | VFloat f => trunc_float f
  | VStr s =>
      match int_of_str rt s with
      | Some z => Ok z
      | None => Err (Raised ValueError
                       ("invalid literal for int() with base 10: '" ++ s ++ "'"))
      end
  | VNone | VList _ | VDict _ =>
      Err (Raised TypeError
             ("int() argument must be a string, a bytes-like object or a "
                ++ "real number, not '" ++ type_name v ++ "'"))
  end.

(** [f"{int(v * c):,}"] and [f"{int(v):,}"] *)
Definition money (v : value) (c : float) : result string :=
  let? x := py_mul_const v c in
  let? z := trunc_float x in
  Ok (fmt_thousands z).

Definition money_int (rt : runtime) (v : value) : result string :=
  let? z := py_int rt v in
  Ok (fmt_thousands z).

(** [f"{len(v)}"] *)
Definition len_str (v : value) : result string :=
  let? n := py_len v in
  Ok (str_of_Z n).
(** ** Collaborators and effects *)

(** A call to a collaborator, or a read of the clock. The web-research
    call always passes [max_pages=20, depth=4, aggressive_mode=True]. *)
Inductive event : Type :=
| EvGetSessionAttachments (session_id : value)
| EvWebIsAvailable
| EvNavigateAndResearch (query : string) (context : value)
| EvSleep (seconds : Z)
| EvGemini (data : dict) (search_context : value)
| EvHuggingFaceNew
| EvHuggingFaceIsAvailable
| EvHuggingFaceAnalyze (data : dict)
| EvDbCreateAnalysis (record : dict)
| EvTime
| EvUtcNow.

Definition trace : Type := list event.

(** The environment of one request. Every oracle reads the trace of the
    calls made so far, so a collaborator may answer differently from one
    call to the next. *)
Record world : Type := {
  (** [session.get('session_id')] of the framework's session *)
  flask_session_id : value;
  (** [attachment_service.get_session_attachments(session_id)] *)
  get_session_attachments : trace -> value -> result value;
  (** [websailor_agent.is_available()] *)
  websailor_is_available : trace -> result value;
  (** [websailor_agent.navigate_and_research(query, context=..., ...)] *)
  navigate_and_research : trace -> string -> value -> result value;
  (** truth value of the module-level [gemini_client] *)
  gemini_client_present : bool;
  (** [gemini_client.generate_ultra_detailed_analysis(data, search_context=...)] *)
  generate_ultra_detailed_analysis : trace -> dict -> value -> result value;
  (** the import of [HuggingFaceClient] and its constructor *)
  huggingface_new : trace -> result unit;
  huggingface_is_available : trace -> result value;
  (** [huggingface_client.analyze_market_strategy(data)] *)
  analyze_market_strategy : trace -> dict -> result value;
  (** [db_manager.available], [db_manager.create_analysis(record)] *)
  db_available : bool;
  create_analysis : trace -> dict -> result value;
  (** [time.time()], [datetime.utcnow().isoformat()] *)
  time_time : trace -> float;
  utcnow_isoformat : trace -> string
}.

(** Computations that call collaborators: the trace is threaded through,
    and it is kept when an exception is raised. *)
Definition M (A : Type) : Type := trace -> trace * result A.

Definition ret {A : Type} (a : A) : M A := fun t => (t, Ok a).

Definition raise {A : Type} (e : exn) : M A := fun t => (t, Err e).

Definition lift {A : Type} (r : result A) : M A := fun t => (t, r).

Definition bind {A B : Type} (m : M A) (k : A -> M B) : M B :=
  fun t =>
    match m t with
    | (t', Ok a) => k a t'
    | (t', Err e) => (t', Err e)
    end.

(** [try: m  except Exception as e: h e] *)
Definition try_catch {A : Type} (m : M A) (h : exn -> M A) : M A :=
  fun t =>
    match m t with
    | (t', Ok a) => (t', Ok a)
    | (t', Err e) => h e t'
    end.

Definition call {A : Type} (ev : event) (oracle : trace -> result A) : M A :=
  fun t => ((t ++ [ev])%list, oracle t).

Notation "x <- m ;; k" := (bind m (fun x => k))
  (at level 61, m at next level, right associativity).
Notation "m ;;; k" := (bind m (fun _ => k))
  (at level 61, right associativity).

(** [for x in l: state = body x state] *)
Fixpoint for_each {A S : Type} (l : list A) (body : A -> S -> M S) (s : S)
  : M S :=
  match l with
  | [] => ret s
  | x :: rest => s' <- body x s ;; for_each rest body s'
  end.

Fixpoint for_each_pure {A S : Type} (l : list A) (body : A -> S -> result S)
    (s : S) : result S :=
  match l with
  | [] => Ok s
  | x :: rest => let? s' := body x s in for_each_pure rest body s'
  end.

(** ** The analyzer: local generators (class [UltraRobustAnalyzer])

    The configuration attributes set by [__init__] ([max_analysis_time],
    [deep_research_enabled], [multi_ai_enabled], [real_data_only],
    [cache_disabled]) are read by no method and are left out. *)

Section Analyzer.

Variable rt : runtime.
Variable w : world.

Definition _generate_ultra_comprehensive_real_queries (data : dict)
  : list string :=
  let segmento := get_default data "segmento" (VStr EmptyString) in
  let produto := get_default data "produto" (VStr EmptyString) in
  let queries := [
      "dados reais mercado " ++ py_str rt segmento ++ " Brasil 2024 estatísticas crescimento";
      "principais empresas " ++ py_str rt segmento ++ " brasileiras líderes market share";
      "consumidor " ++ py_str rt segmento ++ " pesquisa comportamento dados demográficos";
      "preços " ++ py_str rt segmento ++ " Brasil ticket médio benchmarks setor";
      py_str rt produto ++ " demanda Brasil dados consumo estatísticas";
      "vendas " ++ py_str rt produto ++ " estratégias cases sucesso brasileiros";
      py_str rt produto ++ " investimentos startups funding venture capital";
      "oportunidades " ++ py_str rt segmento ++ " mercado brasileiro gaps nichos";
      "inovações " ++ py_str rt segmento ++ " tecnologias emergentes Brasil";
      "regulamentações " ++ py_str rt segmento ++ " mudanças legais impactos Brasil"
 ] in
  firstn 12 queries.

Definition _analyze_attachment_content (content : string) (content_type : value)
  : value :=
  VDict [
    ("content_length", VInt (utf8_len content));
    ("word_count", VInt (Z.of_nat (List.length (str_split rt content))));
    ("type", content_type);
    ("key_concepts", VList (map VStr (firstn 10 (str_split rt content))))].

Definition health_market_intelligence : value :=
  VDict [
    ("market_size", VStr "R$ 280 bilhões (mercado de saúde brasileiro)");
    ("growth_rate", VStr "12-18% ao ano (pós-pandemia)");
    ("key_trends", VList [
      VStr "Telemedicina";
      VStr "IA em diagnósticos";
      VStr "Prontuário eletrônico";
      VStr "Healthtechs";
      VStr "Medicina preventiva"]);
    ("opportunities", VList [
      VStr "Telemedicina rural";
      VStr "IA diagnóstica";
      VStr "Gestão hospitalar digital"]);
    ("threats", VList [
      VStr "Regulamentação CFM";
      VStr "Concorrência internacional";
      VStr "Custos tecnológicos"]);
    ("market_maturity", VStr "Crescimento acelerado");
    ("entry_barriers", VStr "Altas (regulamentação)");
    ("success_factors", VList [
      VStr "Conformidade regulatória";
      VStr "Tecnologia avançada";
      VStr "Rede médica"])].
Definition digital_market_intelligence : value :=
  VDict [
    ("market_size", VStr "R$ 185 bilhões (e-commerce brasileiro 2024)");
    ("growth_rate", VStr "27% ao ano");
    ("key_trends", VList [
      VStr "Mobile commerce";
      VStr "PIX";
      VStr "Social commerce";
      VStr "Live commerce";
      VStr "Marketplace"]);
    ("opportunities", VList [
      VStr "Interior brasileiro";
      VStr "B2B digital";
      VStr "Omnichannel"]);
    ("threats", VList [
      VStr "Regulamentação tributária";
      VStr "Logística";
      VStr "Concorrência global"]);
    ("market_maturity", VStr "Crescimento rápido");
    ("entry_barriers", VStr "Médias");
    ("success_factors", VList [
      VStr "Logística eficiente";
      VStr "Marketing digital";
      VStr "UX superior"])].
Definition generic_market_intelligence : value :=
  VDict [
    ("market_size", VStr "Mercado em expansão no Brasil");
    ("growth_rate", VStr "15-25% ao ano (média setores digitais)");
    ("key_trends", VList [
      VStr "Digitalização";
      VStr "Automação";
      VStr "Personalização";
      VStr "IA";
      VStr "Sustentabilidade"]);
    ("opportunities", VList [
      VStr "Nichos inexplorados";
      VStr "Novas tecnologias";
      VStr "Mudanças comportamentais"]);
    ("threats", VList [
      VStr "Regulamentações";
      VStr "Concorrência internacional";
      VStr "Mudanças econômicas"]);
    ("market_maturity", VStr "Crescimento");
    ("entry_barriers", VStr "Médias");
    ("success_factors", VList [
      VStr "Inovação";
      VStr "Qualidade";
      VStr "Atendimento";
      VStr "Preço competitivo"])].
Definition _gather_ultra_real_market_intelligence (data : dict) : result value :=
  let? segmento := str_lower_of rt (get_default data "segmento" (VStr EmptyString)) in
  if contains_sub "medicina" segmento || contains_sub "saúde" segmento then
    Ok health_market_intelligence
  else if contains_sub "digital" segmento || contains_sub "online" segmento then
    Ok digital_market_intelligence
  else
    Ok generic_market_intelligence.

Definition _perform_deep_real_competitor_analysis (data : dict) : value :=
  VDict [
    ("direct_competitors", VList [
      VDict [
        ("nome", VStr ("Líder do mercado " ++ py_str rt (get_default data "segmento" (VStr "brasileiro"))));
        ("market_share", VStr "28-35%");
        ("strengths", VList [
          VStr "Marca consolidada";
          VStr "Rede de distribuição nacional";
          VStr "Capital abundante"]);
        ("weaknesses", VList [
          VStr "Inovação lenta";
          VStr "Atendimento impessoal";
          VStr "Preços elevados"]);
        ("strategy", VStr "Liderança por diferenciação e marca")];
      VDict [
        ("nome", VStr ("Challenger " ++ py_str rt (get_default data "segmento" (VStr "brasileiro"))));
        ("market_share", VStr "15-22%");
        ("strengths", VList [
          VStr "Preço competitivo";
          VStr "Agilidade";
          VStr "Inovação tecnológica"]);
        ("weaknesses", VList [
          VStr "Marca em construção";
          VStr "Recursos limitados";
          VStr "Cobertura regional"]);
        ("strategy", VStr "Liderança por custo e inovação")]]);
    ("indirect_competitors", VList [
      VStr "Soluções alternativas";
      VStr "Produtos substitutos";
      VStr "DIY/Faça você mesmo"]);
    ("competitive_gaps", VList [
      VStr "Atendimento personalizado premium";
      VStr "Soluções híbridas online/offline";
      VStr "Integração com tecnologias emergentes";
      VStr "Foco em nichos específicos"]);
    ("market_positioning", VStr "Oportunidade para posicionamento premium com foco em inovação e atendimento");
    ("competitive_advantages", VList [
      VStr "Tecnologia mais avançada";
      VStr "Atendimento superior personalizado";
      VStr "Flexibilidade de soluções";
      VStr "Agilidade de implementação"])].
Definition _analyze_real_market_trends (data : dict) : result value :=
  let? segmento := str_lower_of rt (get_default data "segmento" (VStr EmptyString)) in
  let '(emerging_trends, declining_trends) :=
    if contains_sub "medicina" segmento || contains_sub "saúde" segmento then
      (VList [
        VStr "Telemedicina permanente (regulamentada pelo CFM)";
        VStr "IA em diagnósticos médicos";
        VStr "Wearables para monitoramento contínuo";
        VStr "Medicina personalizada baseada em genética"],
       VList [
        VStr "Consultas presenciais exclusivas";
        VStr "Prontuários físicos"])
    else if contains_sub "digital" segmento || contains_sub "online" segmento then
      (VList [
        VStr "Social commerce e live commerce";
        VStr "PIX como padrão de pagamento";
        VStr "IA para personalização de experiência";
        VStr "Sustentabilidade em e-commerce"],
       VList [
        VStr "E-commerce desktop-only";
        VStr "Pagamentos tradicionais exclusivos"])
    else
      (VList [
        VStr "Inteligência Artificial aplicada ao negócio";
        VStr "Sustentabilidade e ESG como diferencial";
        VStr "Experiência do cliente omnichannel";
        VStr "Automação de processos críticos"],
       VList [
        VStr "Soluções puramente offline";
        VStr "Modelos de negócio tradicionais sem inovação"]) in
  Ok (VDict [
      ("emerging_trends", emerging_trends);
      ("declining_trends", declining_trends);
      ("future_predictions", VList [
        VStr ("Crescimento de 35-50% no segmento " ++ py_str rt (get_default data "segmento" (VStr "digital")) ++ " nos próximos 2 anos");
        VStr "Consolidação do mercado com fusões e aquisições";
        VStr "Entrada de players internacionais via parcerias locais";
        VStr "Regulamentação mais específica do setor"]);
      ("impact_analysis", VStr "Tendências favorecem empresas inovadoras, ágeis e com foco no cliente");
      ("adoption_timeline", VDict [
        ("short_term", VStr "IA básica, automação simples, pagamentos digitais");
        ("medium_term", VStr "Integração completa omnichannel, personalização avançada");
        ("long_term", VStr "Transformação digital completa, novos modelos de negócio")])]).
Definition _generate_ultra_exclusive_real_insights
    (comprehensive_data ai_analyses : dict) : result value :=
  let? s1 := len_str (get_default comprehensive_data "sources" (VList [])) in
  Ok (VList [
    VStr ("🔍 Análise baseada em " ++ s1 ++ " fontes REAIS verificadas de mercado");
    VStr ("📊 Processamento de " ++ py_str rt (get_default comprehensive_data "total_content_length" (VInt 0)) ++ " caracteres de dados REAIS");
    VStr ("🧠 Análise com " ++ str_of_Z (Z.of_nat (List.length ai_analyses)) ++ " sistemas de IA diferentes para máxima precisão REAL");
    VStr ("🚀 Mercado apresenta oportunidades REAIS de crescimento acelerado nos próximos 18-24 meses");
    VStr "💡 Diferenciação pela inovação tecnológica será o principal fator de sucesso REAL";
    VStr "🎯 Personalização da experiência do cliente é crítica para retenção REAL";
    VStr "📈 Investimento em marketing digital deve representar 18-28% da receita para competitividade REAL";
    VStr "🔄 Automação de processos pode reduzir custos operacionais em até 35% comprovadamente";
    VStr "🌐 Presença omnichannel é essencial para competitividade no mercado brasileiro REAL";
    VStr "⚡ Velocidade de implementação será vantagem competitiva decisiva nos próximos 12 meses";
    VStr "🛡️ Construção de marca forte é investimento de longo prazo essencial no Brasil";
    VStr "📱 Mobile-first approach é obrigatório para alcançar público-alvo brasileiro";
    VStr "🤝 Parcerias estratégicas podem acelerar crescimento em 45-60% comprovadamente";
    VStr "📊 Métricas de performance devem ser monitoradas semanalmente para otimização REAL";
    VStr "🎨 Design e UX superiores podem justificar premium de até 25% no mercado brasileiro";
    VStr ("🔥 " ++ py_str rt (get_default comprehensive_data "real_data_sources" (VInt 0)) ++ " fontes REAIS analisadas garantem precisão máxima");
    VStr "💰 ROI médio de 300-500% é alcançável com implementação correta das estratégias";
    VStr "🎯 Segmentação ultra-específica aumenta conversão em 40-70% comprovadamente";
    VStr "🚀 Automação de vendas pode aumentar produtividade em 200-400% no primeiro ano";
    VStr "📈 Dados REAIS indicam oportunidade de crescimento 3x superior à média do mercado"]).
Definition _create_complete_real_implementation_plan (data : dict)
  : result value :=
  let segmento := get_default data "segmento" (VStr "Negócios") in
  let objetivo_receita := get_default data "objetivo_receita" (VInt 100000) in
  let? s1 := money objetivo_receita 0.15%float in
  let? s2 := money objetivo_receita 0.25%float in
  let? s3 := money objetivo_receita 0.2%float in
  let? s4 := money objetivo_receita 0.35%float in
  let? s5 := money objetivo_receita 0.45%float in
  Ok (VDict [
    ("fase_1_fundacao_real", VDict [
      ("duracao", VStr "45 dias");
      ("objetivos", VList [
        VStr "Estruturação completa baseada em dados REAIS";
        VStr "Definição de processos otimizados";
        VStr "Setup tecnológico avançado"]);
      ("atividades", VList [
        VStr ("Análise detalhada da situação atual em " ++ py_str rt segmento);
        VStr "Definição de objetivos SMART baseados em benchmarks REAIS";
        VStr "Estruturação da equipe com perfis específicos";
        VStr "Setup de ferramentas e sistemas integrados"]);
      ("investimento_estimado", VStr ("R$ " ++ s1 ++ " - R$ " ++ s2));
      ("resultados_esperados", VList [
        VStr "Base sólida estabelecida com dados REAIS";
        VStr "Processos definidos e otimizados"])]);
    ("fase_2_lancamento_real", VDict [
      ("duracao", VStr "75 dias");
      ("objetivos", VList [
        VStr "Lançamento estratégico no mercado";
        VStr "Primeiras vendas com margem otimizada";
        VStr "Ajustes baseados em dados REAIS"]);
      ("atividades", VList [
        VStr "Desenvolvimento de materiais de marketing baseados em pesquisa REAL";
        VStr "Lançamento de campanhas digitais segmentadas";
        VStr "Início das operações comerciais otimizadas";
        VStr "Monitoramento e otimização contínua com dados REAIS"]);
      ("investimento_estimado", VStr ("R$ " ++ s3 ++ " - R$ " ++ s4));
      ("resultados_esperados", VList [
        VStr "Primeiras vendas realizadas com margem superior a 40%";
        VStr "Feedback do mercado coletado e analisado"])]);
    ("fase_3_crescimento_real", VDict [
      ("duracao", VStr "120 dias");
      ("objetivos", VList [
        VStr "Escalonamento baseado em dados REAIS";
        VStr "Otimização contínua";
        VStr "Expansão estratégica"]);
      ("atividades", VList [
        VStr "Otimização de campanhas baseada em dados REAIS";
        VStr "Expansão de canais com ROI comprovado";
        VStr "Automação de processos críticos";
        VStr "Análise de resultados e ajustes estratégicos"]);
      ("investimento_estimado", VStr ("R$ " ++ s2 ++ " - R$ " ++ s5));
      ("resultados_esperados", VList [
        VStr "Crescimento sustentável de 25-40% ao mês";
        VStr "ROI positivo e crescente"])])]).
Definition _create_advanced_real_success_metrics (data : dict) : result value :=
  let objetivo_receita := get_default data "objetivo_receita" (VInt 100000) in
  let orcamento_marketing := get_default data "orcamento_marketing" (VInt 20000) in
  let? s1 := money_int rt objetivo_receita in
  let? s2 := money_int rt (get_default data "preco" (VInt 2500)) in
  let? s3 := money orcamento_marketing 0.25%float in
  let? s4 := money orcamento_marketing 0.15%float in
  let? s5 := money orcamento_marketing 0.35%float in
  let? s6 := money objetivo_receita 1.5%float in
  let? s7 := money objetivo_receita 0.8%float in
  let? s8 := money objetivo_receita 2.0%float in
  Ok (VDict [
    ("kpis_financeiros_reais", VDict [
      ("receita_mensal", VDict [
        ("meta", VStr ("R$ " ++ s1));
        ("atual", VStr "R$ 0");
        ("crescimento_esperado", VStr "35-50%/mês baseado em dados REAIS")]);
      ("margem_lucro", VDict [
        ("meta", VStr "45-55%");
        ("atual", VStr "0%");
        ("benchmark_setor", VStr "30-40% (dados REAIS do setor)")]);
      ("roi_marketing", VDict [
        ("meta", VStr "400-600%");
        ("atual", VStr "0%");
        ("benchmark_setor", VStr "250-450% (dados REAIS)")]);
      ("ticket_medio", VDict [
        ("meta", VStr ("R$ " ++ s2));
        ("atual", VStr "R$ 0");
        ("crescimento_esperado", VStr "20-30%/trimestre")])]);
    ("kpis_operacionais_reais", VDict [
      ("taxa_conversao", VDict [
        ("meta", VStr "6-8%");
        ("atual", VStr "0%");
        ("benchmark_setor", VStr "3-6% (dados REAIS)")]);
      ("custo_aquisicao", VDict [
        ("meta", VStr ("R$ " ++ s3));
        ("atual", VStr "R$ 0");
        ("benchmark_setor", VStr ("R$ " ++ s4 ++ " - R$ " ++ s5))]);
      ("lifetime_value", VDict [
        ("meta", VStr ("R$ " ++ s6));
        ("atual", VStr "R$ 0");
        ("benchmark_setor", VStr ("R$ " ++ s7 ++ " - R$ " ++ s8))]);
      ("churn_rate", VDict [
        ("meta", VStr "3-5%");
        ("atual", VStr "0%");
        ("benchmark_setor", VStr "8-12% (dados REAIS)")])]);
    ("kpis_marketing_reais", VDict [
      ("reach_mensal", VDict [
        ("meta", VStr "150.000-250.000");
        ("atual", VStr "0");
        ("crescimento_esperado", VStr "60-80%/mês")]);
      ("engagement_rate", VDict [
        ("meta", VStr "10-15%");
        ("atual", VStr "0%");
        ("benchmark_setor", VStr "4-8% (dados REAIS)")]);
      ("leads_qualificados", VDict [
        ("meta", VStr "800-1200/mês");
        ("atual", VStr "0");
        ("crescimento_esperado", VStr "120-150%/mês")]);
      ("share_of_voice", VDict [
        ("meta", VStr "18-25%");
        ("atual", VStr "0%");
        ("benchmark_setor", VStr "6-15% (dados REAIS)")])])]).
Definition _create_real_365_day_timeline (data : dict) : result value :=
  let objetivo_receita := get_default data "objetivo_receita" (VInt 100000) in
  let? s1 := money objetivo_receita 0.6%float in
  let? s2 := money objetivo_receita 0.3%float in
  let? s3 := money objetivo_receita 0.8%float in
  let? s4 := money objetivo_receita 1.2%float in
  let? s5 := money objetivo_receita 1.0%float in
  let? s6 := money objetivo_receita 2.5%float in
  let? s7 := money objetivo_receita 4.0%float in
  Ok (VDict [
    ("trimestre_1_real", VDict [
      ("foco", VStr "Fundação e Estruturação REAL");
      ("marcos", VList [
        VStr "Setup completo baseado em dados REAIS";
        VStr "Primeira venda com margem superior a 40%";
        VStr "Equipe formada e treinada"]);
      ("investimento", VStr ("R$ " ++ s1));
      ("receita_esperada", VStr ("R$ " ++ s2))]);
    ("trimestre_2_real", VDict [
      ("foco", VStr "Crescimento e Otimização REAL");
      ("marcos", VList [
        VStr "200+ clientes ativos";
        VStr "ROI positivo sustentável";
        VStr "Processos automatizados funcionando"]);
      ("investimento", VStr ("R$ " ++ s3));
      ("receita_esperada", VStr ("R$ " ++ s4))]);
    ("trimestre_3_real", VDict [
      ("foco", VStr "Escalonamento e Expansão REAL");
      ("marcos", VList [
        VStr "800+ clientes ativos";
        VStr "Novos produtos/serviços lançados";
        VStr "Expansão geográfica iniciada"]);
      ("investimento", VStr ("R$ " ++ s5));
      ("receita_esperada", VStr ("R$ " ++ s6))]);
    ("trimestre_4_real", VDict [
      ("foco", VStr "Consolidação e Inovação REAL");
      ("marcos", VList [
        VStr "1500+ clientes ativos";
        VStr "Liderança regional estabelecida";
        VStr "Novos mercados penetrados"]);
      ("investimento", VStr ("R$ " ++ s4));
      ("receita_esperada", VStr ("R$ " ++ s7))])]).
Definition _create_real_monitoring_system (data : dict) : result value :=
  let? s1 := money (get_default data "orcamento_marketing" (VInt 20000)) 0.4%float in
  Ok (VDict [
    ("dashboards_reais", VList [
      VStr "Dashboard Financeiro REAL (atualização diária automática)";
      VStr "Dashboard de Marketing REAL (atualização em tempo real)";
      VStr "Dashboard Operacional REAL (atualização semanal)";
      VStr "Dashboard Estratégico REAL (atualização mensal)"]);
    ("alertas_reais", VList [
      VStr "ROI abaixo de 300% - Alerta crítico REAL";
      VStr "Taxa de conversão abaixo de 4% - Alerta médio REAL";
      VStr ("Custo de aquisição acima de R$ " ++ s1 ++ " - Alerta alto REAL");
      VStr "Churn rate acima de 8% - Alerta crítico REAL"]);
    ("relatorios_reais", VList [
      VStr "Relatório semanal de performance com dados REAIS";
      VStr "Relatório mensal de resultados e otimizações";
      VStr "Relatório trimestral estratégico com projeções";
      VStr "Relatório anual de crescimento e expansão"]);
    ("otimizacoes_reais", VList [
      VStr "A/B testing contínuo em campanhas com dados REAIS";
      VStr "Otimização de funil de vendas baseada em comportamento REAL";
      VStr "Melhoria contínua de processos com métricas REAIS";
      VStr "Análise preditiva de tendências com IA"])]).
Definition _generate_basic_real_gemini_analysis (data : dict) : dict :=
  [
    ("avatar_ultra_detalhado", VDict [
      ("nome_ficticio", VStr ("Profissional " ++ py_str rt (get_default data "segmento" (VStr "Brasileiro")) ++ " Real"));
      ("perfil_demografico", VDict [
        ("idade", VStr "28-48 anos - faixa de maior poder aquisitivo REAL");
        ("renda", VStr "R$ 8.000 - R$ 35.000 - classe média alta brasileira REAL");
        ("escolaridade", VStr "Superior completo - 78% têm graduação (dados REAIS)");
        ("localizacao", VStr "São Paulo, Rio de Janeiro, Minas Gerais, Sul (dados REAIS)")]);
      ("dores_viscerais", VList [
        VStr ("Trabalhar excessivamente em " ++ py_str rt (get_default data "segmento" (VStr "negócios")) ++ " sem ver crescimento proporcional");
        VStr "Sentir-se sempre correndo atrás da concorrência brasileira";
        VStr "Ver competidores menores crescendo mais rapidamente";
        VStr "Não conseguir se desconectar do trabalho nem nos finais de semana"]);
      ("desejos_secretos", VList [
        VStr ("Ser reconhecido como autoridade no mercado brasileiro de " ++ py_str rt (get_default data "segmento" (VStr "negócios")));
        VStr "Ter um negócio que funcione sem presença constante";
        VStr "Ganhar dinheiro de forma passiva com sistemas REAIS";
        VStr "Ter liberdade total de horários e localização"])]);
    ("escopo_posicionamento", VDict [
      ("posicionamento_mercado", VStr ("Solução premium REAL para profissionais de " ++ py_str rt (get_default data "segmento" (VStr "negócios")) ++ " no Brasil"));
      ("proposta_valor_unica", VStr "Transforme seu negócio com metodologia comprovada e dados REAIS do mercado brasileiro");
      ("diferenciais_competitivos", VList [
        VStr "Metodologia baseada em dados REAIS do mercado brasileiro";
        VStr "Suporte personalizado com especialistas do setor";
        VStr "Resultados mensuráveis e garantidos"])])].
Definition _generate_basic_real_analysis (data : dict) : dict :=
  [
    ("avatar_ultra_detalhado", VDict [
      ("nome_ficticio", VStr ("Empreendedor " ++ py_str rt (get_default data "segmento" (VStr "Brasileiro")) ++ " Real"));
      ("perfil_demografico", VDict [
        ("idade", VStr "30-50 anos - faixa de maior maturidade profissional REAL");
        ("renda", VStr "R$ 10.000 - R$ 40.000 - classe média alta consolidada REAL");
        ("escolaridade", VStr "Superior completo + pós-graduação (dados REAIS)");
        ("localizacao", VStr "Grandes centros urbanos brasileiros (dados REAIS)")]);
      ("dores_viscerais", VList [
        VStr ("Trabalhar excessivamente em " ++ py_str rt (get_default data "segmento" (VStr "negócios")) ++ " sem ver crescimento proporcional nos resultados");
        VStr "Sentir-se sempre correndo atrás da concorrência, nunca conseguindo ficar à frente";
        VStr "Ver competidores menores crescendo mais rapidamente com menos recursos";
        VStr "Não conseguir se desconectar do trabalho, mesmo nos momentos de descanso";
        VStr "Viver com medo constante de que tudo pode desmoronar a qualquer momento"]);
      ("desejos_secretos", VList [
        VStr ("Ser reconhecido como uma autoridade respeitada no mercado brasileiro de " ++ py_str rt (get_default data "segmento" (VStr "negócios")));
        VStr "Ter um negócio que funcione perfeitamente sem sua presença constante";
        VStr "Ganhar dinheiro de forma passiva através de sistemas automatizados REAIS";
        VStr "Ser convidado para palestrar em grandes eventos do setor";
        VStr "Ter liberdade total de horários, localização e decisões estratégicas"])]);
    ("escopo_posicionamento", VDict [
      ("posicionamento_mercado", VStr ("Solução premium REAL para profissionais de " ++ py_str rt (get_default data "segmento" (VStr "negócios")) ++ " que querem resultados rápidos e sustentáveis"));
      ("proposta_valor_unica", VStr "Transforme seu negócio com metodologia comprovada, dados REAIS e suporte especializado");
      ("diferenciais_competitivos", VList [
        VStr "Metodologia exclusiva baseada em dados REAIS do mercado brasileiro";
        VStr "Suporte personalizado e contínuo de especialistas do setor";
        VStr "Resultados mensuráveis e garantidos com métricas REAIS"])]);
    ("estrategia_palavras_chave", VDict [
      ("palavras_primarias", VList [
        (get_default data "segmento" (VStr "negócio"));
        VStr "estratégia";
        VStr "marketing";
        VStr "crescimento";
        VStr "Brasil";
        VStr "brasileiro";
        VStr "mercado";
        VStr "dados";
        VStr "resultados"]);
      ("palavras_secundarias", VList [
        VStr "vendas";
        VStr "digital";
        VStr "online";
        VStr "consultoria";
        VStr "ROI";
        VStr "automação";
        VStr "otimização";
        VStr "conversão";
        VStr "leads"]);
      ("palavras_cauda_longa", VList [
        VStr ("como crescer no mercado brasileiro de " ++ py_str rt (get_default data "segmento" (VStr "negócios")));
        VStr "estratégias de marketing digital com dados reais";
        VStr ("consultoria especializada em " ++ py_str rt (get_default data "segmento" (VStr "crescimento")) ++ " no Brasil")])])].
Definition _perform_cross_ai_real_analysis (ai_analyses : dict) : value :=
  VDict [
    ("consensus_points_real", VList [
      VStr "Mercado brasileiro em crescimento acelerado com oportunidades REAIS";
      VStr "Necessidade crítica de diferenciação clara e baseada em dados";
      VStr "Importância fundamental do marketing digital com ROI mensurável"]);
    ("divergent_points_real", VList [
      VStr "Estratégias de precificação variam entre modelos premium e acessível";
      VStr "Prioridades de implementação diferem entre crescimento rápido vs. sustentável"]);
    ("confidence_score_real", VFloat 92.5%float);
    ("recommendation_real", VStr "Focar em pontos de consenso REAIS para máxima assertividade e resultados mensuráveis")].
Definition emergency_insights (data : dict) (error : string) : value :=
  VList [
    VStr "⚠️ Análise gerada em modo de emergência REAL";
    VStr ("🔧 Erro detectado: " ++ error);
    VStr "🔄 Recomenda-se executar nova análise com APIs configuradas";
    VStr "📊 Sistema detectou necessidade de análise mais profunda REAL";
    VStr "✅ Dados básicos REAIS de mercado foram preservados";
    VStr ("🇧🇷 Mercado brasileiro de " ++ py_str rt (get_default data "segmento" (VStr "negócios")) ++ " apresenta oportunidades REAIS");
    VStr "💰 ROI de 300-500% é alcançável com implementação correta"].

(** *** Data collector *)

Definition initial_comprehensive_data : dict := [
  ("attachments", VDict []);
  ("web_research", VDict []);
  ("deep_search", VDict []);
  ("market_intelligence", VDict []);
  ("competitor_analysis", VDict []);
  ("trend_analysis", VDict []);
  ("sources", VList []);
  ("research_iterations", VInt 0);
  ("total_content_length", VInt 0);
  ("real_data_sources", VInt 0);
  ("cache_hits", VInt 0)].

(** The key under which [attachment_analysis] files a content type. Keys
    of documents are strings here: a content type that is not a string is
    filed under its text. *)
Definition dict_key (v : value) : result string :=
  match v with
  | VStr s => Ok s
  | VList _ | VDict _ =>
      Err (Raised TypeError ("unhashable type: '" ++ type_name v ++ "'"))
  | _ => Ok (py_str rt v)
  end.

(** [content + "\n\n"] *)
Definition add_blank_line (content : value) : result string :=
  match content with
  | VStr c => Ok (c ++ nl ++ nl)
  | VList _ =>
      Err (Raised TypeError
             ("can only concatenate list (not " ++ dquote ++ "str" ++ dquote
                ++ ") to list"))
  | _ => Err (Raised TypeError
                ("unsupported operand type(s) for +: '" ++ type_name content
                   ++ "' and 'str'"))
  end.

(** One turn of [for att in attachments]; the state is
    [(combined_content, attachment_analysis)]. *)
Definition attachment_step (att : value) (st : string * dict)
  : result (string * dict) :=
  let '(combined_content, attachment_analysis) := st in
  let? extracted := obj_get att "extracted_content" VNone in
  if truthy extracted then
    let content := extracted in
    let? piece := add_blank_line content in
    let combined_content := combined_content ++ piece in
    let? content_type := obj_get att "content_type" (VStr "geral") in
    let? key := dict_key content_type in
    let attachment_analysis :=
      if has_key key attachment_analysis then attachment_analysis
      else dict_set key (VList []) attachment_analysis in
    let? filename := obj_get att "filename" VNone in
    let entry := VDict [
      ("filename", filename);
      ("content", content);
      ("analysis",
       _analyze_attachment_content (py_str rt content) content_type)] in
    let entries :=
      match lookup key attachment_analysis with
      | Some (VList l) => (l ++ [entry])%list
      | _ => [entry]
      end in
    Ok (combined_content, dict_set key (VList entries) attachment_analysis)
  else Ok st.

Definition process_attachments (attachments : value) (comprehensive_data : dict)
  : result dict :=
  let? atts := py_iter attachments in
  let? st := for_each_pure atts attachment_step (EmptyString, []) in
  let '(combined_content, attachment_analysis) := st in
  let? count := py_len attachments in
  let comprehensive_data :=
    dict_set "attachments"
      (VDict [
         ("count", VInt count);
         ("combined_content", VStr (utf8_take 20000 combined_content));
         ("types_analysis", VDict attachment_analysis);
         ("total_length", VInt (utf8_len combined_content))])
      comprehensive_data in
  let comprehensive_data :=
    dict_add "total_content_length" (utf8_len combined_content)
      comprehensive_data in
  Ok (dict_add "real_data_sources" count comprehensive_data).

Definition research_context (data : dict) : value :=
  VDict [
    ("segmento", get data "segmento");
    ("produto", get data "produto");
    ("publico", get data "publico")].

(** What one turn of the query loop does with the collaborator's answer. *)
Definition record_web_result (i : Z) (web_result : value)
    (comprehensive_data : dict) : result dict :=
  let? web_research :=
    obj_setitem (get comprehensive_data "web_research")
      ("query_" ++ str_of_Z (i + 1)) web_result in
  let comprehensive_data :=
    dict_set "web_research" web_research comprehensive_data in
  let? sources := obj_get web_result "sources" (VList []) in
  let? new_sources := py_iter sources in
  let old_sources :=
    match get comprehensive_data "sources" with
    | VList l => l
    | _ => []
    end in
  let comprehensive_data :=
    dict_set "sources" (VList (old_sources ++ new_sources)%list)
      comprehensive_data in
  let comprehensive_data :=
    dict_add "research_iterations" 1 comprehensive_data in
  let? n_sources := py_len sources in
  let comprehensive_data :=
    dict_add "real_data_sources" n_sources comprehensive_data in
  let? research_summary := obj_get web_result "research_summary" (VDict []) in
  let? research_content :=
    obj_get research_summary "combined_content" (VStr EmptyString) in
  let? n_content := py_len research_content in
  Ok (dict_add "total_content_length" n_content comprehensive_data).

(** One turn of [for i, query in enumerate(queries)]. *)
Definition web_research_step (data : dict) (iq : Z * string)
    (comprehensive_data : dict) : M dict :=
  let '(i, query) := iq in
  let context := research_context data in
  web_result <- call (EvNavigateAndResearch query context)
                  (fun t => navigate_and_research w t query context) ;;
  comprehensive_data <- lift (record_web_result i web_result comprehensive_data) ;;
  call (EvSleep 2) (fun _ => Ok tt) ;;;
  ret comprehensive_data.

(** 1. Attachments of the session. *)
Definition attachments_phase (session_id : value) (comprehensive_data : dict)
  : M dict :=
  if truthy session_id then
    attachments <- call (EvGetSessionAttachments session_id)
                     (fun t => get_session_attachments w t session_id) ;;
    if truthy attachments then
      lift (process_attachments attachments comprehensive_data)
    else ret comprehensive_data
  else ret comprehensive_data.

(** 2. Web research. *)
Definition web_research_phase (data comprehensive_data : dict) : M dict :=
  available <- call EvWebIsAvailable (websailor_is_available w) ;;
  if truthy available then
    let queries := _generate_ultra_comprehensive_real_queries data in
    for_each (enumerate_from 0 queries) (web_research_step data)
      comprehensive_data
  else ret comprehensive_data.

(** 3. to 5. Market intelligence, competitors, trends. *)
Definition local_heuristics (data comprehensive_data : dict) : result dict :=
  let? market_intelligence := _gather_ultra_real_market_intelligence data in
  let comprehensive_data :=
    dict_set "market_intelligence" market_intelligence comprehensive_data in
  let comprehensive_data :=
    dict_set "competitor_analysis"
      (_perform_deep_real_competitor_analysis data) comprehensive_data in
  let? trend_analysis := _analyze_real_market_trends data in
  Ok (dict_set "trend_analysis" trend_analysis comprehensive_data).

Definition _collect_ultra_comprehensive_real_data (data : dict)
    (session_id : value) : M dict :=
  let comprehensive_data := initial_comprehensive_data in
  comprehensive_data <- attachments_phase session_id comprehensive_data ;;
  comprehensive_data <- web_research_phase data comprehensive_data ;;
  lift (local_heuristics data comprehensive_data).

(** *** Multi-source synthesizer *)

(** One turn of [for key, web_result in ...["web_research"].items()]. *)
Definition search_context_step (kv : string * value) (search_context : string)
  : result string :=
  let '(key, web_result) := kv in
  let? web_summary := obj_get web_result "research_summary" (VDict []) in
  let? combined := obj_get web_summary "combined_content" (VStr EmptyString) in
  let search_context :=
    search_context ++ "PESQUISA REAL " ++ str_upper rt key ++ ":" ++ nl
      ++ py_str rt combined ++ nl ++ nl in
  let? insights := obj_get web_summary "key_insights" (VList []) in
  if truthy insights then
    let? joined := py_join nl insights in
    Ok (search_context ++ "INSIGHTS REAIS " ++ str_upper rt key ++ ":" ++ nl
          ++ joined ++ nl ++ nl)
  else Ok search_context.

Definition build_search_context (comprehensive_data : dict) : result string :=
  let web_research := get comprehensive_data "web_research" in
  if truthy web_research then
    match web_research with
    | VDict items => for_each_pure items search_context_step EmptyString
    | _ => Err (no_attribute web_research "items")
    end
  else Ok EmptyString.

(** [search_context[:20000] if search_context else None] *)
Definition search_context_arg (search_context : string) : value :=
  if String.eqb search_context EmptyString then VNone
  else VStr (utf8_take 20000 search_context).

(** 1. The primary LLM; the local basic analysis stands in for it when
    anything in the [try] raises. *)
Definition primary_analysis (data comprehensive_data ai_analyses : dict)
  : M dict :=
  if gemini_client_present w then
    try_catch
      (search_context <- lift (build_search_context comprehensive_data) ;;
       let arg := search_context_arg search_context in
       gemini_analysis <- call (EvGemini data arg)
                            (fun t => generate_ultra_detailed_analysis w t data arg) ;;
       ret (dict_set "gemini_ultra_real" gemini_analysis ai_analyses))
      (fun _ =>
         ret (dict_set "gemini_ultra_real"
                (VDict (_generate_basic_real_gemini_analysis data))
                ai_analyses))
  else ret ai_analyses.

(** 2. The secondary inference client; its failure is skipped. *)
Definition secondary_analysis (data ai_analyses : dict) : M dict :=
  try_catch
    (call EvHuggingFaceNew (huggingface_new w) ;;;
     available <- call EvHuggingFaceIsAvailable (huggingface_is_available w) ;;
     if truthy available then
       hf_analysis <- call (EvHuggingFaceAnalyze data)
                        (fun t => analyze_market_strategy w t data) ;;
       if truthy hf_analysis then
         ret (dict_set "huggingface_ultra_real"
                (VDict [("analysis", hf_analysis)]) ai_analyses)
       else ret ai_analyses
     else ret ai_analyses)
    (fun _ => ret ai_analyses).

(** 3. Cross analysis, when there are two entries or more. *)
Definition cross_analysis (ai_analyses : dict) : dict :=
  if 1 <? Z.of_nat (List.length ai_analyses) then
    dict_set "cross_validation_real"
      (_perform_cross_ai_real_analysis ai_analyses) ai_analyses
  else ai_analyses.

Definition _run_multi_ai_ultra_real_analysis (data comprehensive_data : dict)
  : M dict :=
  ai_analyses <- primary_analysis data comprehensive_data [] ;;
  ai_analyses <- secondary_analysis data ai_analyses ;;
  ret (cross_analysis ai_analyses).

(** *** Consolidator *)

(** [if comprehensive_data.get(k): ultra_analysis[k'] = comprehensive_data[k]] *)
Definition attach_if_present (comprehensive_data : dict) (k k' : string)
    (ultra_analysis : value) : result value :=
  if truthy (get comprehensive_data k) then
    obj_setitem ultra_analysis k' (get comprehensive_data k)
  else Ok ultra_analysis.

(** The base of the consolidated document: the primary LLM's entry, or
    the local basic analysis when that entry is absent or empty. *)
Definition main_analysis_of (data ai_analyses : dict) : value :=
  let main_analysis := get_default ai_analyses "gemini_ultra_real" (VDict []) in
  if truthy main_analysis then main_analysis
  else VDict (_generate_basic_real_analysis data).

Definition _consolidate_ultra_real_analysis
    (data comprehensive_data ai_analyses : dict) : result dict :=
  let main_analysis := main_analysis_of data ai_analyses in
  let? ultra_analysis := obj_copy main_analysis in
  let? ultra_analysis :=
    attach_if_present comprehensive_data "web_research"
      "pesquisa_web_real_detalhada" ultra_analysis in
  let? ultra_analysis :=
    attach_if_present comprehensive_data "market_intelligence"
      "inteligencia_mercado_real_ultra" ultra_analysis in
  let? ultra_analysis :=
    attach_if_present comprehensive_data "competitor_analysis"
      "analise_concorrencia_real_ultra" ultra_analysis in
  let? ultra_analysis :=
    attach_if_present comprehensive_data "trend_analysis"
      "analise_tendencias_real_ultra" ultra_analysis in
  let? insights :=
    _generate_ultra_exclusive_real_insights comprehensive_data ai_analyses in
  let? ultra_analysis :=
    obj_setitem ultra_analysis "insights_exclusivos_real_ultra" insights in
  let? plan := _create_complete_real_implementation_plan data in
  let? ultra_analysis :=
    obj_setitem ultra_analysis "plano_implementacao_real_completo" plan in
  let? metrics := _create_advanced_real_success_metrics data in
  let? ultra_analysis :=
    obj_setitem ultra_analysis "metricas_sucesso_real_avancadas" metrics in
  let? timeline := _create_real_365_day_timeline data in
  let? ultra_analysis :=
    obj_setitem ultra_analysis "cronograma_real_365_dias" timeline in
  let? monitoring := _create_real_monitoring_system data in
  let? ultra_analysis :=
    obj_setitem ultra_analysis "sistema_monitoramento_real" monitoring in
  (* an object that took an item assignment under a string key is a dict *)
  match ultra_analysis with
  | VDict d => Ok d
  | _ => Err (Raised TypeError "list indices must be integers or slices, not str")
  end.

(** *** Scorer *)

Definition required_sections : list string := [
  "avatar_ultra_detalhado"; "escopo"; "estrategia_palavras_chave";
  "insights_exclusivos_ultra"; "plano_implementacao_completo";
  "metricas_sucesso_avancadas"].

Definition sections_to_check : list string := [
  "avatar_ultra_detalhado"; "escopo"; "estrategia_palavras_chave";
  "insights_exclusivos_ultra"; "plano_implementacao_completo";
  "metricas_sucesso_avancadas"; "cronograma_365_dias"; "sistema_monitoramento";
  "inteligencia_mercado_ultra"; "analise_concorrencia_ultra"].

(** The score after [for section in required_sections]. *)
Definition section_points (analysis : dict) : float :=
  fold_left
    (fun score section =>
       if present_and_truthy section analysis then PrimFloat.add score 6.67
       else score)
    required_sections 0%float.

Definition insight_points (n : Z) (score : float) : float :=
  if 15 <=? n then PrimFloat.add score 30
  else if 10 <=? n then PrimFloat.add score 20
  else if 5 <=? n then PrimFloat.add score 10
  else score.

Definition _calculate_ultra_quality_score (analysis : dict) : result float :=
  let score := section_points analysis in
  let max_score := 100%float in
  let insights := get_default analysis "insights_exclusivos_ultra" (VList []) in
  let? n := py_len insights in
  let score := insight_points n score in
  let score :=
    if has_key "pesquisa_web_detalhada" analysis then PrimFloat.add score 15
    else score in
  let score :=
    if has_key "inteligencia_mercado_ultra" analysis then PrimFloat.add score 15
    else score in
  Ok (py_min score max_score).

Definition completed_sections (analysis : dict) : Z :=
  fold_left
    (fun n section => if present_and_truthy section analysis then n + 1 else n)
    sections_to_check 0.

Definition _calculate_completeness_score (analysis : dict) : float :=
  PrimFloat.mul
    (PrimFloat.div (nearest_float (completed_sections analysis))
       (nearest_float (Z.of_nat (List.length sections_to_check))))
    100.

(** *** Fallback generator *)

Definition emergency_metadata (error generated_at : string) : value :=
  VDict [
    ("processing_time_seconds", VInt 0);
    ("analysis_engine", VStr "Emergency Fallback Ultra REAL");
    ("generated_at", VStr generated_at);
    ("quality_score", VFloat 35);
    ("completeness_score", VFloat 25);
    ("error", VStr error);
    ("recommendation",
     VStr "Execute nova análise com configuração completa das APIs REAIS");
    ("real_data_guarantee", VBool false);
    ("emergency_mode", VBool true)].

(** The fallback document, given the time it is generated at. *)
Definition emergency_document (data : dict) (error generated_at : string)
  : dict :=
  let basic_analysis := _generate_basic_real_analysis data in
  let basic_analysis :=
    dict_set "insights_exclusivos_real_ultra" (emergency_insights data error)
      basic_analysis in
  dict_set "metadata_ultra_detalhado" (emergency_metadata error generated_at)
    basic_analysis.

Definition _generate_emergency_ultra_real_fallback (data : dict)
    (error : string) : M dict :=
  generated_at <- call EvUtcNow (fun t => Ok (utcnow_isoformat w t)) ;;
  ret (emergency_document data error generated_at).

(** *** Orchestrator *)

Definition analysis_metadata (processing_time : float)
    (data_sources_used ai_models_used : Z) (generated_at : string)
    (quality_score completeness_score : float)
    (research_iterations total_content_analyzed : value)
    (unique_insights_generated : Z) : value :=
  VDict [
    ("processing_time_seconds", VFloat processing_time);
    ("processing_time_formatted", VStr (fmt_elapsed rt processing_time));
    ("analysis_engine", VStr "ARQV30 Enhanced Ultra-Robust REAL v2.0");
    ("data_sources_used", VInt data_sources_used);
    ("ai_models_used", VInt ai_models_used);
    ("generated_at", VStr generated_at);
    ("quality_score", VFloat quality_score);
    ("completeness_score", VFloat completeness_score);
    ("depth_level", VStr "ULTRA_PROFUNDO_REAL");
    ("research_iterations", research_iterations);
    ("total_content_analyzed", total_content_analyzed);
    ("unique_insights_generated", VInt unique_insights_generated);
    ("real_data_guarantee", VBool true);
    ("cache_used", VBool false);
    ("simulation_free", VBool true)].

(** The body of the [try] of [generate_ultra_comprehensive_analysis]. The
    entries of the metadata are evaluated in the order they are written. *)
Definition analysis_pipeline (data : dict) (session_id : value)
    (start_time : float) : M dict :=
  comprehensive_data <- _collect_ultra_comprehensive_real_data data session_id ;;
  multi_ai_analysis <- _run_multi_ai_ultra_real_analysis data comprehensive_data ;;
  final_analysis <-
    lift (_consolidate_ultra_real_analysis data comprehensive_data
            multi_ai_analysis) ;;
  end_time <- call EvTime (fun t => Ok (time_time w t)) ;;
  let processing_time := PrimFloat.sub end_time start_time in
  data_sources_used <-
    lift (py_len (get_default comprehensive_data "sources" (VList []))) ;;
  generated_at <- call EvUtcNow (fun t => Ok (utcnow_isoformat w t)) ;;
  quality_score <- lift (_calculate_ultra_quality_score final_analysis) ;;
  let completeness_score := _calculate_completeness_score final_analysis in
  unique_insights_generated <-
    lift (py_len (get_default final_analysis "insights_exclusivos_ultra"
                    (VList []))) ;;
  ret (dict_set "metadata_ultra_detalhado"
         (analysis_metadata processing_time data_sources_used
            (Z.of_nat (List.length multi_ai_analysis)) generated_at
            quality_score completeness_score
            (get_default comprehensive_data "research_iterations" (VInt 0))
            (get_default comprehensive_data "total_content_length" (VInt 0))
            unique_insights_generated)
         final_analysis).

Definition generate_ultra_comprehensive_analysis (data : dict)
    (session_id : value) : M dict :=
  start_time <- call EvTime (fun t => Ok (time_time w t)) ;;
  try_catch
    (analysis_pipeline data session_id start_time)
    (fun e => _generate_emergency_ultra_real_fallback data (exn_text e)).

End Analyzer.

(** ** The [/analyze] route *)

Record response : Type := { status : Z; body : value }.

Section Route.

Variable rt : runtime.
Variable w : world.

Definition numeric_fields : list string :=
  ["preco"; "objetivo_receita"; "orcamento_marketing"].

(** [float(str(v).replace(',', '.'))], and [0.0] when it raises. [str] of
    a value never raises, so only the ValueError of [float] reaches the
    handler. *)
Definition float_or_zero (v : value) : float :=
  match float_of_str rt (replace_char ","%char "."%char (py_str rt v)) with
  | Some f => f
  | None => 0%float
  end.

(** One turn of [for field in ['preco', ...]]. *)
Definition normalize_field (data : dict) (field : string) : dict :=
  if present_and_truthy field data then
    dict_set (field ++ "_float") (VFloat (float_or_zero (get data field))) data
  else data.

Definition normalize_numeric_fields (data : dict) : dict :=
  fold_left normalize_field numeric_fields data.

Definition missing_body : response :=
  {| status := 400;
     body := VDict [
       ("error", VStr "Dados não fornecidos");
       ("message", VStr "Envie os dados da análise no corpo da requisição")] |}.

Definition missing_segmento : response :=
  {| status := 400;
     body := VDict [
       ("error", VStr "Segmento obrigatório");
       ("message",
        VStr ("O campo " ++ dquote ++ "segmento" ++ dquote
                ++ " é obrigatório para a análise"))] |}.

(** The record handed to [db_manager.create_analysis]. *)
Definition analysis_record (data result : dict) : dict :=
  let dumps k := VStr (json_dumps rt (get_default result k (VDict []))) in [
  ("segmento", get data "segmento");
  ("produto", get data "produto");
  ("descricao", get_default data "dados_adicionais" (VStr EmptyString));
  ("preco", get data "preco_float");
  ("publico", get data "publico");
  ("concorrentes", get data "concorrentes");
  ("dados_adicionais", get data "dados_adicionais");
  ("objetivo_receita", get data "objetivo_receita_float");
  ("orcamento_marketing", get data "orcamento_marketing_float");
  ("prazo_lancamento", get data "prazo_lancamento");
  ("comprehensive_analysis", VStr (json_dumps rt (VDict result)));
  ("avatar_data", dumps "avatar_ultra_detalhado");
  ("positioning_data", dumps "escopo");
  ("competition_data", dumps "analise_concorrencia_detalhada");
  ("marketing_data", dumps "estrategia_palavras_chave");
  ("metrics_data", dumps "metricas_performance_detalhadas");
  ("status", VStr "completed")].

(** The persistence block: a failure of the data store is swallowed. *)
Definition save_analysis (data result : dict) : M dict :=
  if truthy (VDict result) && negb (has_key "error" result) then
    try_catch
      (let record := analysis_record data result in
       analysis_record <- call (EvDbCreateAnalysis record)
                            (fun t => create_analysis w t record) ;;
       if truthy analysis_record then
         id <- lift (obj_getitem analysis_record "id") ;;
         ret (dict_set "database_id" id result)
       else ret result)
      (fun _ => ret result)
  else ret result.

(** What the route does once the request is validated. *)
Definition run_analysis (data : dict) : M response :=
  let data := normalize_numeric_fields data in
  let session_id :=
    if truthy (get data "session_id") then get data "session_id"
    else flask_session_id w in
  result <- generate_ultra_comprehensive_analysis rt w data session_id ;;
  result <- save_analysis data result ;;
  ret {| status := 200; body := VDict result |}.

Definition internal_error (e : exn) : M response :=
  timestamp <- call EvUtcNow (fun t => Ok (utcnow_isoformat w t)) ;;
  ret {| status := 500;
         body := VDict [
           ("error", VStr "Erro interno na análise");
           ("message", VStr (exn_text e));
           ("timestamp", VStr timestamp)] |}.

(** [analyze_market]. [get_json] is the outcome of [request.get_json()],
    the first statement of the route's [try]: the parsed body, or the
    exception it raises for a body that is absent or is not JSON, which
    the route's handler answers like any other. *)
Definition analyze_market (get_json : result value) : M response :=
  try_catch
    (request_json <- lift get_json ;;
     if negb (truthy request_json) then ret missing_body
     else
       segmento <- lift (obj_get request_json "segmento" VNone) ;;
       if negb (truthy segmento) then ret missing_segmento
       else
         match request_json with
         | VDict data => run_analysis data
         | _ => raise (no_attribute request_json "get")
         end)
    internal_error.

End Route.

(** ** A sample runtime and sample worlds

    Used to run the embedding on concrete requests. The sample runtime
    covers ASCII case mapping, splitting at ASCII blanks and plain decimal
    numerals; it leaves [repr], [json.dumps] and the elapsed-time format as
    placeholders. *)

Module Sample.

Definition ascii_lower (c : ascii) : ascii :=
  let n := N_of_ascii c in
  if (65 <=? n)%N && (n <=? 90)%N then ascii_of_N (n + 32) else c.

Definition ascii_upper (c : ascii) : ascii :=
  let n := N_of_ascii c in
  if (97 <=? n)%N && (n <=? 122)%N then ascii_of_N (n - 32) else c.

Fixpoint map_string (f : ascii -> ascii) (s : string) : string :=
  match s with
  | EmptyString => EmptyString
  | String c rest => String (f c) (map_string f rest)
  end.

Definition is_blank (c : ascii) : bool :=
  let n := N_of_ascii c in ((9 <=? n)%N && (n <=? 13)%N) || (n =? 32)%N.

Fixpoint split_blanks (cur : string) (s : string) : list string :=
  match s with
  | EmptyString => match cur with EmptyString => [] | _ => [cur] end
  | String c rest =>
      if is_blank c then
        match cur with
        | EmptyString => split_blanks EmptyString rest
        | _ => cur :: split_blanks EmptyString rest
        end
      else split_blanks (cur ++ String c EmptyString) rest
  end.

Definition digit_of (c : ascii) : option Z :=
  let n := N_of_ascii c in
  if (48 <=? n)%N && (n <=? 57)%N then Some (Z.of_N (n - 48)) else None.

(** The digits of [s] read as a number, from the accumulator [acc]. *)
Fixpoint digits (acc : Z) (s : string) : option Z :=
  match s with
  | EmptyString => Some acc
  | String c rest =>
      match digit_of c with
      | Some d => digits (10 * acc + d) rest
      | None => None
      end
  end.

Definition unsigned_int (s : string) : option Z :=
  match s with
  | EmptyString => None
  | _ => digits 0 s
  end.

Definition signed (parse : string -> option Z) (s : string) : option (bool * Z) :=
  match s with
  | String "-"%char rest => option_map (fun z => (true, z)) (parse rest)
  | String "+"%char rest => option_map (fun z => (false, z)) (parse rest)
  | _ => option_map (fun z => (false, z)) (parse s)
  end.

Definition parse_int (s : string) : option Z :=
  option_map (fun sz : bool * Z => if fst sz then - snd sz else snd sz)
    (signed unsigned_int s).

(** [(integer part, fraction part)] of [ddd.ddd]; the point is optional. *)
Fixpoint split_point (int_part : string) (s : string) : string * option string :=
  match s with
  | EmptyString => (int_part, None)
  | String c rest =>
      if Ascii.eqb c "."%char then (int_part, Some rest)
      else split_point (int_part ++ String c EmptyString) rest
  end.

(** A plain decimal numeral [[+-]ddd[.ddd]] with at most 15 digits: the
    quotient of two floats that are exact, which is rounded once. *)
Definition parse_decimal (s : string) : option float :=
  let unsigned (u : string) : option Z :=
    let '(int_part, frac) := split_point EmptyString u in
    let frac_part := match frac with Some f => f | None => EmptyString end in
    let all := int_part ++ frac_part in
    if (Nat.leb 1 (String.length all) && Nat.leb (String.length all) 15)%bool
    then digits 0 all else None in
  let scale (u : string) : Z :=
    match snd (split_point EmptyString u) with
    | Some f => 10 ^ Z.of_nat (String.length f)
    | None => 1
    end in
  let body := match s with
              | String "-"%char rest | String "+"%char rest => rest
              | _ => s
              end in
  match signed unsigned s with
  | Some (neg, m) =>
      let f := PrimFloat.div (nearest_float m) (nearest_float (scale body)) in
      Some (if neg then PrimFloat.opp f else f)
  | None => None
  end.

Definition rt0 : runtime := {|
  str_lower := map_string ascii_lower;
  str_upper := map_string ascii_upper;
  str_split := split_blanks EmptyString;
  float_of_str := parse_decimal;
  int_of_str := parse_int;
  repr_value := fun _ => "<repr>";
  json_dumps := fun _ => "<json>";
  fmt_elapsed := fun _ => "0m 0s"
|}.

Definition unavailable {A : Type} (what : string) : result A :=
  Err (Raised OtherError what).

(** No collaborator is configured: no LLM client, web research reports
    itself unavailable, the other services raise. *)
Definition w_offline : world := {|
  flask_session_id := VNone;
  get_session_attachments := fun _ _ => unavailable "attachment service down";
  websailor_is_available := fun _ => Ok (VBool false);
  navigate_and_research := fun _ _ _ => unavailable "web research down";
  gemini_client_present := false;
  generate_ultra_detailed_analysis := fun _ _ _ => unavailable "no LLM client";
  huggingface_new := fun _ => unavailable "No module named 'services.huggingface_client'";
  huggingface_is_available := fun _ => Ok (VBool false);
  analyze_market_strategy := fun _ _ => unavailable "inference down";
  db_available := false;
  create_analysis := fun _ _ => unavailable "database down";
  time_time := fun _ => 0%float;
  utcnow_isoformat := fun _ => "2024-01-01T00:00:00"
|}.

(** Web research reports itself available and every query times out. *)
Definition w_web_timeout : world := {|
  flask_session_id := VNone;
  get_session_attachments := fun _ _ => Ok (VList []);
  websailor_is_available := fun _ => Ok (VBool true);
  navigate_and_research := fun _ _ _ => unavailable "web research timed out";
  gemini_client_present := false;
  generate_ultra_detailed_analysis := fun _ _ _ => unavailable "no LLM client";
  huggingface_new := fun _ => unavailable "No module named 'services.huggingface_client'";
  huggingface_is_available := fun _ => Ok (VBool false);
  analyze_market_strategy := fun _ _ => unavailable "inference down";
  db_available := false;
  create_analysis := fun _ _ => unavailable "database down";
  time_time := fun _ => 0%float;
  utcnow_isoformat := fun _ => "2024-01-01T00:00:00"
|}.

(** The LLM client is configured and its call raises. *)
Definition w_llm_raises : world := {|
  flask_session_id := VNone;
  get_session_attachments := fun _ _ => Ok (VList []);
  websailor_is_available := fun _ => Ok (VBool false);
  navigate_and_research := fun _ _ _ => unavailable "web research down";
  gemini_client_present := true;
  generate_ultra_detailed_analysis := fun _ _ _ => unavailable "quota exceeded";
  huggingface_new := fun _ => unavailable "No module named 'services.huggingface_client'";
  huggingface_is_available := fun _ => Ok (VBool false);
  analyze_market_strategy := fun _ _ => unavailable "inference down";
  db_available := true;
  create_analysis := fun _ _ => Ok (VDict [("id", VInt 1)]);
  time_time := fun _ => 0%float;
  utcnow_isoformat := fun _ => "2024-01-01T00:00:00"
|}.

Definition request_saude : dict := [("segmento", VStr "saúde digital")].

Definition request_moda : dict :=
  [("segmento", VStr "moda"); ("objetivo_receita", VStr "50000,50")].

End Sample.

(** ** Specification vocabulary *)

(** [m] extends the trace only by events that satisfy [P], and whenever
    it returns a value, the value satisfies [Q]. *)
Definition emits {A : Type} (P : event -> bool) (Q : A -> Prop) (m : M A)
  : Prop :=
  forall t, exists l,
    fst (m t) = (t ++ l)%list /\ forallb P l = true /\
    forall a, snd (m t) = Ok a -> Q a.

(** [m] never raises: it returns a value that satisfies [Q], after events
    that satisfy [P]. *)
Definition returns {A : Type} (P : event -> bool) (Q : A -> Prop) (m : M A)
  : Prop :=
  forall t, exists l a,
    m t = ((t ++ l)%list, Ok a) /\ forallb P l = true /\ Q a.

Definition any_event (ev : event) : bool := true.

Definition is_navigate (ev : event) : bool :=
  match ev with EvNavigateAndResearch _ _ => true | _ => false end.

Definition not_navigate (ev : event) : bool := negb (is_navigate ev).

Definition keys (d : dict) : list string := map fst d.

(** What [attach_if_present] does to a document that is a dict. *)
Definition attach_dict (comprehensive_data : dict) (k k' : string) (d : dict)
  : dict :=
  if truthy (get comprehensive_data k) then
    dict_set k' (get comprehensive_data k) d
  else d.

(** 0 <= f <= 100 on floats. *)
Definition in_0_100 (f : float) : Prop :=
  PrimFloat.leb 0 f = true /\ PrimFloat.leb f 100 = true.

(** ** The other routes

    Each of these handlers makes at most one call to a collaborator (the
    attachment service, the deep-search service, the data store), so a
    collaborator is a function of the arguments of its call, and a handler
    returns the calls it made with its response. Query-string and form
    values are strings. *)

Inductive service_call : Type :=
| CallProcessAttachment (filename : string) (session_id : string)
| CallDeepSearch (query : value) (context : value)
| CallListAnalyses (limit offset : Z)
| CallGetAnalysis (analysis_id : Z)
| CallGetStats.

Record services : Type := {
  (** [attachment_service.process_attachment(file, session_id)], by the
      file's name *)
  attachment_process : string -> string -> result value;
  (** [deep_search_service.perform_deep_search(query, context)] *)
  deep_search : value -> value -> result value;
  (** [db_manager.list_analyses(limit, offset)] *)
  db_list_analyses : Z -> Z -> result value;
  (** [db_manager.get_analysis(analysis_id)] *)
  db_get_analysis : Z -> result value;
  (** [db_manager.get_stats()] *)
  db_get_stats : result value;
  (** [datetime.utcnow().isoformat()] *)
  now_isoformat : string
}.

(** [request.files] (field name to file name) and [request.form]. *)
Record upload_request : Type := {
  files : list (string * string);
  form : list (string * string)
}.

Fixpoint assoc (k : string) (l : list (string * string)) : option string :=
  match l with
  | [] => None
  | (k', v) :: rest => if String.eqb k k' then Some v else assoc k rest
  end.

Section OtherRoutes.

Variable rt : runtime.
Variable sv : services.

Definition upload_failure (error : string) : value :=
  VDict [("success", VBool false); ("error", VStr error)].

Definition upload_attachment (rq : upload_request)
  : list service_call * response :=
  match assoc "file" (files rq) with
  | None =>
      ([], {| status := 400; body := upload_failure "Nenhum arquivo enviado" |})
  | Some filename =>
      let session_id :=
        match assoc "session_id" (form rq) with
        | Some s => s
        | None => "default_session"
        end in
      if String.eqb filename EmptyString then
        ([], {| status := 400; body := upload_failure "Nome de arquivo vazio" |})
      else
        let calls := [CallProcessAttachment filename session_id] in
        let internal (e : exn) :=
          {| status := 500;
             body := upload_failure ("Erro interno: " ++ exn_text e) |} in
        match attachment_process sv filename session_id with
        | Ok result =>
            match obj_get result "success" VNone with
            | Ok success =>
                if truthy success then
                  (calls, {| status := 200; body := result |})
                else (calls, {| status := 400; body := result |})
            | Err e => (calls, internal e)
            end
        | Err e => (calls, internal e)
        end
  end.

Definition deep_search_error (e : exn) : response :=
  {| status := 500;
     body := VDict [("error", VStr "Erro na busca profunda");
                    ("message", VStr (exn_text e))] |}.

Definition missing_query : response :=
  {| status := 400;
     body := VDict [("error", VStr "Query obrigatória");
                    ("message", VStr "Forneça uma query para busca")] |}.

(** [perform_deep_search]. [get_json] is the outcome of
    [request.get_json()], the first statement of the route's [try]: the
    parsed body, or the exception it raises. *)
Definition perform_deep_search (get_json : result value)
  : list service_call * response :=
  match get_json with
  | Err e => ([], deep_search_error e)
  | Ok request_json =>
      if negb (truthy request_json) then ([], missing_query)
      else
        match obj_get request_json "query" VNone with
        | Err e => ([], deep_search_error e)
        | Ok query =>
            if negb (truthy query) then ([], missing_query)
            else
              match obj_get request_json "context" (VDict []) with
              | Err e => ([], deep_search_error e)
              | Ok context =>
                  let calls := [CallDeepSearch query context] in
                  match deep_search sv query context with
                  | Ok result =>
                      (calls,
                       {| status := 200;
                          body := VDict [("query", query);
                                         ("context", context);
                                         ("result", result);
                                         ("timestamp",
                                          VStr (now_isoformat sv))] |})
                  | Err e => (calls, deep_search_error e)
                  end
              end
        end
  end.

(** [int(request.args.get(name, dflt))] *)
Definition int_arg (args : list (string * string)) (name : string) (dflt : Z)
  : result Z :=
  match assoc name args with
  | Some s => py_int rt (VStr s)
  | None => Ok dflt
  end.

(** [segmento.lower() in a.get('nicho', '').lower()] *)
Definition nicho_matches (segmento : string) (a : value) : result bool :=
  let? nicho := obj_get a "nicho" (VStr EmptyString) in
  let? lowered := str_lower_of rt nicho in
  Ok (contains_sub (str_lower rt segmento) lowered).

(** [[a for a in analyses if ...]] *)
Fixpoint filter_analyses (segmento : string) (analyses : list value)
  : result (list value) :=
  match analyses with
  | [] => Ok []
  | a :: rest =>
      let? keep := nicho_matches segmento a in
      let? kept := filter_analyses segmento rest in
      Ok (if keep then a :: kept else kept)
  end.

Definition list_error (e : exn) : response :=
  {| status := 500;
     body := VDict [("error", VStr "Erro ao listar análises");
                    ("message", VStr (exn_text e))] |}.

(** What [list_analyses] does with the store's answer. *)
Definition listing (args : list (string * string)) (limit offset : Z)
    (analyses : value) : result response :=
  let? analyses :=
    match assoc "segmento" args with
    | Some segmento =>
        if String.eqb segmento EmptyString then Ok analyses
        else
          let? items := py_iter analyses in
          let? kept := filter_analyses segmento items in
          Ok (VList kept)
    | None => Ok analyses
    end in
  let? count := py_len analyses in
  Ok {| status := 200;
        body := VDict [("analyses", analyses);
                       ("count", VInt count);
                       ("limit", VInt limit);
                       ("offset", VInt offset)] |}.

Definition list_analyses (args : list (string * string))
  : list service_call * response :=
  match int_arg args "limit" 20 with
  | Err e => ([], list_error e)
  | Ok requested =>
      let limit := Z.min requested 100 in
      match int_arg args "offset" 0 with
      | Err e => ([], list_error e)
      | Ok offset =>
          let calls := [CallListAnalyses limit offset] in
          match db_list_analyses sv limit offset with
          | Err e => (calls, list_error e)
          | Ok analyses =>
              match listing args limit offset analyses with
              | Ok r => (calls, r)
              | Err e => (calls, list_error e)
              end
          end
      end
  end.

(** [get_analysis]; the route converter hands it an integer. *)
Definition get_analysis (analysis_id : Z) : list service_call * response :=
  let calls := [CallGetAnalysis analysis_id] in
  match db_get_analysis sv analysis_id with
  | Ok analysis =>
      if negb (truthy analysis) then
        (calls,
         {| status := 404;
            body := VDict [
              ("error", VStr "Análise não encontrada");
              ("message",
               VStr ("Análise com ID " ++ str_of_Z analysis_id
                       ++ " não existe"))] |})
      else (calls, {| status := 200; body := analysis |})
  | Err e =>
      (calls,
       {| status := 500;
          body := VDict [("error", VStr "Erro ao obter análise");
                         ("message", VStr (exn_text e))] |})
  end.

Definition get_analysis_stats : list service_call * response :=
  match db_get_stats sv with
  | Ok stats => ([CallGetStats], {| status := 200; body := stats |})
  | Err e =>
      ([CallGetStats],
       {| status := 500;
          body := VDict [("error", VStr "Erro ao obter estatísticas");
                         ("message", VStr (exn_text e))] |})
  end.

End OtherRoutes.

(** A sample data store with three analyses, and services that answer. *)
Module SampleStore.

Definition stored : list value := [
  VDict [("id", VInt 1); ("nicho", VStr "Moda feminina")];
  VDict [("id", VInt 2); ("nicho", VStr "Saude digital")];
  VDict [("id", VInt 3); ("nicho", VStr "moda praia")]].

Definition sv0 : services := {|
  attachment_process := fun filename _ =>
    Ok (VDict [("success", VBool true); ("filename", VStr filename)]);
  deep_search := fun query _ => Ok (VStr "resultado");
  db_list_analyses := fun limit offset =>
    Ok (VList (firstn (Z.to_nat limit) (skipn (Z.to_nat offset) stored)));
  db_get_analysis := fun analysis_id =>
    Ok (nth (Z.to_nat (analysis_id - 1)) stored VNone);
  db_get_stats := Ok (VDict [("total", VInt 3)]);
  now_isoformat := "2024-01-01T00:00:00"
|}.

End SampleStore.

(** How many web-research queries a list of events holds. *)
Definition count_navigate (l : trace) : nat :=
  List.length (filter is_navigate l).

(** [m] issues at most [n] web-research queries. *)
Definition queries_at_most {A : Type} (n : nat) (m : M A) : Prop :=
  forall t, exists l,
    fst (m t) = (t ++ l)%list /\ (count_navigate l <= n)%nat.

(** A JSON number (a bool is an int to the interpreter). *)
Definition is_number (v : value) : bool :=
  match v with
  | VInt _ | VFloat _ | VBool _ => true
  | _ => false
  end.

(** The exception a collaborator's call raised, when the call [ev] was
    made after the events [t]. *)
Definition error_of {A : Type} (r : result A) : option exn :=
  match r with
  | Ok _ => None
  | Err e => Some e
  end.

Definition raised_by (w : world) (ev : event) (t : trace) : option exn :=
  match ev with
  | EvGetSessionAttachments session_id =>
      error_of (get_session_attachments w t session_id)
  | EvWebIsAvailable => error_of (websailor_is_available w t)
  | EvNavigateAndResearch query context =>
      error_of (navigate_and_research w t query context)
  | _ => None
  end.

(** [m] has no handler for its collaborators: a call that raises is the
    last event, and its exception is the outcome. *)
Definition ends_at_failure {A : Type} (w : world) (m : M A) : Prop :=
  forall t, exists l,
    fst (m t) = (t ++ l)%list /\
    forall l1 ev l2 e,
      l = (l1 ++ ev :: l2)%list ->
      raised_by w ev (t ++ l1)%list = Some e ->
      l2 = [] /\ snd (m t) = Err e.

(** Sample worlds whose collaborators fail part of the way. *)
Module SampleFaults.

(** Web research is available; its third query times out. *)
Definition w_third_query_fails : world := {|
  flask_session_id := VNone;
  get_session_attachments := fun _ _ => Ok (VList []);
  websailor_is_available := fun _ => Ok (VBool true);
  navigate_and_research := fun t _ _ =>
    if Nat.eqb (count_navigate t) 2
    then Sample.unavailable "web research timed out"
    else Ok (VDict []);
  gemini_client_present := false;
  generate_ultra_detailed_analysis := fun _ _ _ =>
    Sample.unavailable "no LLM client";
  huggingface_new := fun _ =>
    Sample.unavailable "No module named 'services.huggingface_client'";
  huggingface_is_available := fun _ => Ok (VBool false);
  analyze_market_strategy := fun _ _ => Sample.unavailable "inference down";
  db_available := false;
  create_analysis := fun _ _ => Sample.unavailable "database down";
  time_time := fun _ => 0%float;
  utcnow_isoformat := fun _ => "2024-01-01T00:00:00"
|}.

End SampleFaults.



(** What one attachment adds to the combined text: its extracted
    content, when that is a non-empty string, followed by a blank line. *)
Definition extracted_text (att : value) : string :=
  match att with
  | VDict d =>
      match get d "extracted_content" with
      | VStr (String _ _ as content) => content ++ nl ++ nl
      | _ => EmptyString
      end
  | _ => EmptyString
  end.

(** The text the attachment loop builds from the attachments it is
    handed. *)
Definition combined_text (atts : list value) : string :=
  String.concat EmptyString (map extracted_text atts).

(** Three attachments: a text, an image without extracted text, and a
    short text; [long_text] has 25000 characters. *)
Module SampleAttachments.

Definition long_text : string :=
  String.concat EmptyString (List.repeat "0123456789" 2500).

Definition three_attachments (text : string) : list value := [
  VDict [("filename", VStr "a.txt"); ("extracted_content", VStr text)];
  VDict [("filename", VStr "b.png")];
  VDict [("filename", VStr "c.txt"); ("extracted_content", VStr "fim")]].

End SampleAttachments.

(** * Properties *)

(** ** Dictionaries *)

Lemma lookup_dict_set (k k' : string) (v : value) (d : dict) :
  lookup k (dict_set k' v d)
  = if String.eqb k k' then Some v else lookup k d.
Proof.
  induction d as [|[k0 v0] d IH]; simpl.
  - reflexivity.
  - destruct (String.eqb k' k0) eqn:E1; simpl.
    + apply String.eqb_eq in E1; subst k0.
      destruct (String.eqb k k'); reflexivity.
    + rewrite IH. destruct (String.eqb k k0) eqn:E2; [|reflexivity].
      apply String.eqb_eq in E2; subst k0.
      rewrite String.eqb_sym in E1. now rewrite E1.
Qed.

Lemma lookup_dict_set_same (k : string) (v : value) (d : dict) :
  lookup k (dict_set k v d) = Some v.
Proof. now rewrite lookup_dict_set, String.eqb_refl. Qed.

Lemma keys_dict_set_present (k : string) (v : value) (d : dict) :
  has_key k d = true -> keys (dict_set k v d) = keys d.
Proof.
  unfold has_key, keys. induction d as [|[k0 v0] d IH]; simpl.
  - discriminate.
  - destruct (String.eqb k k0) eqn:E; simpl.
    + apply String.eqb_eq in E. now subst.
    + intros H. now rewrite IH.
Qed.

Lemma has_key_dict_set (k k' : string) (v : value) (d : dict) :
  has_key k (dict_set k' v d) = String.eqb k k' || has_key k d.
Proof.
  unfold has_key. rewrite lookup_dict_set.
  now destruct (String.eqb k k').
Qed.

Lemma keys_dict_add (k : string) (n : Z) (d : dict) :
  keys (dict_add k n d) = keys d.
Proof.
  unfold dict_add. destruct (lookup k d) as [[]|] eqn:E; try reflexivity.
  apply keys_dict_set_present. unfold has_key. now rewrite E.
Qed.

Lemma has_key_keys (k : string) (d d' : dict) :
  keys d = keys d' -> has_key k d = has_key k d'.
Proof.
  unfold has_key, keys. revert d'.
  induction d as [|[k0 v0] d IH]; intros [|[k1 v1] d']; simpl;
    try discriminate; [reflexivity|].
  intros H. injection H as -> H.
  destruct (String.eqb k k1); [reflexivity|]. now apply IH.
Qed.

(** ** The result and effect monads *)

Lemma rbind_ok {A B : Type} (r : result A) (k : A -> result B) (b : B) :
  rbind r k = Ok b -> exists a, r = Ok a /\ k a = Ok b.
Proof. destruct r; simpl; [eauto | discriminate]. Qed.

Lemma rbind_err {A B : Type} (r : result A) (k : A -> result B) (e : exn) :
  r = Err e -> rbind r k = Err e.
Proof. now intros ->. Qed.

Lemma try_catch_ok {A : Type} (m : M A) (h : exn -> M A) t t' a :
  m t = (t', Ok a) -> try_catch m h t = (t', Ok a).
Proof. unfold try_catch. now intros ->. Qed.

Lemma try_catch_err {A : Type} (m : M A) (h : exn -> M A) t t' e :
  m t = (t', Err e) -> try_catch m h t = h e t'.
Proof. unfold try_catch. now intros ->. Qed.

Lemma bind_ok {A B : Type} (m : M A) (k : A -> M B) t t' a :
  m t = (t', Ok a) -> bind m k t = k a t'.
Proof. unfold bind. now intros ->. Qed.

Lemma bind_err {A B : Type} (m : M A) (k : A -> M B) t t' e :
  m t = (t', Err e) -> bind m k t = (t', Err e).
Proof. unfold bind. now intros ->. Qed.

Lemma returns_emits {A : Type} P (Q : A -> Prop) (m : M A) :
  returns P Q m -> emits P Q m.
Proof.
  intros H t. destruct (H t) as (l & a & E & Hl & Ha).
  exists l. rewrite E. simpl. repeat split; auto.
  intros a' [= <-]. exact Ha.
Qed.

Lemma emits_weaken {A : Type} (P P' : event -> bool) (Q Q' : A -> Prop) m :
  (forall ev, P ev = true -> P' ev = true) ->
  (forall a, Q a -> Q' a) ->
  emits P Q m -> emits P' Q' m.
Proof.
  intros HP HQ H t. destruct (H t) as (l & E & Hl & Ha).
  exists l. repeat split; auto.
  rewrite forallb_forall in *. auto.
Qed.

Lemma returns_weaken {A : Type} (P P' : event -> bool) (Q Q' : A -> Prop) m :
  (forall ev, P ev = true -> P' ev = true) ->
  (forall a, Q a -> Q' a) ->
  returns P Q m -> returns P' Q' m.
Proof.
  intros HP HQ H t. destruct (H t) as (l & a & E & Hl & Ha).
  exists l, a. repeat split; auto.
  rewrite forallb_forall in *. auto.
Qed.

Lemma emits_ret {A : Type} P (Q : A -> Prop) (a : A) :
  Q a -> emits P Q (ret a).
Proof.
  intros H t. exists []. simpl. rewrite app_nil_r.
  repeat split; auto. now intros a' [= <-].
Qed.

Lemma returns_ret {A : Type} P (Q : A -> Prop) (a : A) :
  Q a -> returns P Q (ret a).
Proof.
  intros H t. exists [], a. unfold ret. now rewrite app_nil_r.
Qed.

Lemma emits_raise {A : Type} P (Q : A -> Prop) (e : exn) :
  emits P Q (raise e).
Proof.
  intros t. exists []. simpl. rewrite app_nil_r.
  repeat split; auto. discriminate.
Qed.

Lemma emits_lift {A : Type} P (Q : A -> Prop) (r : result A) :
  (forall a, r = Ok a -> Q a) -> emits P Q (lift r).
Proof.
  intros H t. exists []. simpl. rewrite app_nil_r. repeat split; auto.
Qed.

Lemma emits_call {A : Type} (P : event -> bool) (Q : A -> Prop) ev oracle :
  P ev = true ->
  (forall t a, oracle t = Ok a -> Q a) ->
  emits P Q (call ev oracle).
Proof.
  intros HP H t. exists [ev]. simpl. rewrite HP. repeat split; eauto.
Qed.

Lemma returns_call {A : Type} (P : event -> bool) (Q : A -> Prop) ev oracle :
  P ev = true ->
  (forall t, exists a, oracle t = Ok a /\ Q a) ->
  returns P Q (call ev oracle).
Proof.
  intros HP H t. destruct (H t) as (a & E & Ha).
  exists [ev], a. unfold call. rewrite E. simpl. now rewrite HP.
Qed.

Lemma emits_bind {A B : Type} P (Q : A -> Prop) (R : B -> Prop) m k :
  emits P Q m ->
  (forall a, Q a -> emits P R (k a)) ->
  emits P R (bind m k).
Proof.
  intros Hm Hk t. destruct (Hm t) as (l & E & Hl & Ha).
  unfold bind. destruct (m t) as [t' [a|e]]; simpl in *; subst t'.
  - destruct (Hk a (Ha a eq_refl) (t ++ l)%list) as (l' & E' & Hl' & Hb).
    exists (l ++ l')%list. rewrite E', app_assoc, forallb_app, Hl, Hl'.
    auto.
  - exists l. repeat split; auto. discriminate.
Qed.

Lemma returns_bind {A B : Type} P (Q : A -> Prop) (R : B -> Prop) m k :
  returns P Q m ->
  (forall a, Q a -> returns P R (k a)) ->
  returns P R (bind m k).
Proof.
  intros Hm Hk t. destruct (Hm t) as (l & a & E & Hl & Ha).
  destruct (Hk a Ha (t ++ l)%list) as (l' & b & E' & Hl' & Hb).
  exists (l ++ l')%list, b. unfold bind.
  rewrite E, E', app_assoc, forallb_app, Hl, Hl'. auto.
Qed.

Lemma emits_try_catch {A : Type} P (Q : A -> Prop) m h :
  emits P Q m ->
  (forall e, emits P Q (h e)) ->
  emits P Q (try_catch m h).
Proof.
  intros Hm Hh t. destruct (Hm t) as (l & E & Hl & Ha).
  unfold try_catch. destruct (m t) as [t' [a|e]]; simpl in *; subst t'.
  - exists l. repeat split; auto.
  - destruct (Hh e (t ++ l)%list) as (l' & E' & Hl' & Hb).
    exists (l ++ l')%list. rewrite E', app_assoc, forallb_app, Hl, Hl'.
    auto.
Qed.

Lemma returns_try_catch {A : Type} P (Q : A -> Prop) m h :
  emits P Q m ->
  (forall e, returns P Q (h e)) ->
  returns P Q (try_catch m h).
Proof.
  intros Hm Hh t. destruct (Hm t) as (l & E & Hl & Ha).
  unfold try_catch. destruct (m t) as [t' [a|e]]; simpl in *; subst t'.
  - exists l, a. auto.
  - destruct (Hh e (t ++ l)%list) as (l' & b & E' & Hl' & Hb).
    exists (l ++ l')%list, b. rewrite E', app_assoc, forallb_app, Hl, Hl'.
    auto.
Qed.

Lemma emits_for_each {A S : Type} P (I : S -> Prop) (l : list A) body :
  (forall x s, I s -> emits P I (body x s)) ->
  forall s, I s -> emits P I (for_each l body s).
Proof.
  intros Hb. induction l as [|x l IH]; intros s Hs; simpl.
  - now apply emits_ret.
  - eapply emits_bind; [now apply Hb|]. intros s' Hs'. now apply IH.
Qed.

Lemma for_each_pure_inv {A S : Type} (I : S -> Prop) (l : list A) body :
  (forall x s s', I s -> body x s = Ok s' -> I s') ->
  forall s s', I s -> for_each_pure l body s = Ok s' -> I s'.
Proof.
  intros Hb. induction l as [|x l IH]; intros s s' Hs; simpl.
  - now intros [= <-].
  - intros H. apply rbind_ok in H as (s1 & E1 & E2). eauto.
Qed.

(** A turn of a loop that raises ends the loop: the turns after it do
    not run. *)
Lemma for_each_aborts {A S : Type} (done rest : list A) body x
    (s s1 : S) t t1 t2 e :
  for_each done body s t = (t1, Ok s1) ->
  body x s1 t1 = (t2, Err e) ->
  for_each (done ++ x :: rest) body s t = (t2, Err e).
Proof.
  revert s t. induction done as [|y done IH]; intros s t; simpl.
  - unfold ret. intros [= <- <-] H. unfold bind. now rewrite H.
  - unfold bind. destruct (body y s t) as [t' [s'|e']].
    + apply IH.
    + discriminate.
Qed.

(** ** Request validation (claim C5) *)

(** C5, as the code has it. A request whose parsed body is empty, or is
    a mapping whose [segmento] is missing or empty, is answered with
    status 400 and an error message, and the trace is left as it was: no
    collaborator is called (not even the clock is read). A request whose
    body cannot be parsed ([request.get_json()] raises, as it does for a
    body that is absent), or whose body is a non-empty value that is not
    a mapping, is answered with status 500 and the text of the exception;
    the route reads the clock for the timestamp and calls no
    collaborator. *)
Theorem analyze_market_rejects_missing_segmento
    (rt : runtime) (w : world) (get_json : result value) (t : trace) :
  (forall request_json,
     get_json = Ok request_json ->
     truthy request_json = false \/
     (exists data, request_json = VDict data /\
                   truthy (get data "segmento") = false) ->
     exists r,
       analyze_market rt w get_json t = (t, Ok r) /\
       status r = 400 /\
       (r = missing_body \/ r = missing_segmento) /\
       (exists msg, obj_get (body r) "message" VNone = Ok (VStr msg))) /\
  (forall e,
     get_json = Err e \/
     (exists request_json,
        get_json = Ok request_json /\ truthy request_json = true /\
        (forall data, request_json <> VDict data) /\
        e = no_attribute request_json "get") ->
     analyze_market rt w get_json t
     = ((t ++ [EvUtcNow])%list,
        Ok {| status := 500;
              body := VDict [
                ("error", VStr "Erro interno na análise");
                ("message", VStr (exn_text e));
                ("timestamp", VStr (utcnow_isoformat w t))] |})).
Proof.
  split.
  - intros request_json -> [H | (data & -> & H)].
    + exists missing_body. unfold analyze_market, try_catch, bind, lift.
      rewrite H. simpl. split; [reflexivity|]. split; [reflexivity|].
      split; [now left|]. eexists. reflexivity.
    + unfold analyze_market, try_catch, bind, lift.
      destruct (truthy (VDict data)) eqn:E; simpl.
      * exists missing_segmento. unfold get in H. rewrite H. simpl.
        split; [reflexivity|]. split; [reflexivity|].
        split; [now right|]. eexists. reflexivity.
      * exists missing_body. split; [reflexivity|]. split; [reflexivity|].
        split; [now left|]. eexists. reflexivity.
  - intros e [-> | (request_json & -> & H & N & ->)].
    + reflexivity.
    + unfold analyze_market, try_catch, bind, lift. rewrite H. cbn [negb].
      destruct request_json; try reflexivity.
      now elim (N d).
Qed.

Lemma analyze_market_rejects_missing_segmento_witness :
  exists r,
    analyze_market Sample.rt0 Sample.w_offline
      (Ok (VDict [("produto", VStr "curso"); ("segmento", VStr EmptyString)])) []
    = ([], Ok r) /\
    status r = 400 /\
    (r = missing_body \/ r = missing_segmento) /\
    (exists msg, obj_get (body r) "message" VNone = Ok (VStr msg)).
Proof.
  apply (proj1 (analyze_market_rejects_missing_segmento Sample.rt0
                  Sample.w_offline
                  (Ok (VDict [("produto", VStr "curso");
                              ("segmento", VStr EmptyString)])) [])
           _ eq_refl).
  right. eexists. split; reflexivity.
Defined.

(** C5, as the claim states it, fails for a request without a body:
    [request.get_json()] raises inside the route's [try], and the handler
    answers 500, not 400. *)
Lemma absent_body_is_internal_error :
  analyze_market Sample.rt0 Sample.w_offline
    (Err (Raised OtherError
            "400 Bad Request: Failed to decode JSON object")) []
  = ([EvUtcNow],
     Ok {| status := 500;
           body := VDict [
             ("error", VStr "Erro interno na análise");
             ("message",
              VStr "400 Bad Request: Failed to decode JSON object");
             ("timestamp", VStr "2024-01-01T00:00:00")] |}).
Proof. reflexivity. Qed.

(** A body that is not a mapping and is not empty (a JSON array, say) has
    no [get]: the AttributeError reaches the route's handler, which
    answers 500. *)
Remark non_mapping_body_is_internal_error :
  analyze_market Sample.rt0 Sample.w_offline (Ok (VList [VInt 1])) []
  = ([EvUtcNow],
     Ok {| status := 500;
           body := VDict [
             ("error", VStr "Erro interno na análise");
             ("message", VStr "'list' object has no attribute 'get'");
             ("timestamp", VStr "2024-01-01T00:00:00")] |}).
Proof. reflexivity. Qed.

(** ** Market-intelligence lookup (claim C10) *)

(** C10. The market-intelligence lookup is a function of the request's
    [segmento] alone and calls nothing. For a [segmento] that is a string
    (or absent, which reads as the empty string): when its lower-cased
    text contains "medicina" or "saúde" the health record is returned,
    whose market size is "R$ 280 bilhões (mercado de saúde brasileiro)",
    whether or not it also contains "digital" or "online"; when it
    contains none of the four keywords the generic record is returned.
    "saúde digital" falls in the health branch. *)
Theorem market_intelligence_by_segment (rt : runtime) (data : dict) (s : string) :
  get_default data "segmento" (VStr EmptyString) = VStr s ->
  (contains_sub "medicina" (str_lower rt s)
     || contains_sub "saúde" (str_lower rt s) = true ->
   _gather_ultra_real_market_intelligence rt data
     = Ok health_market_intelligence /\
   obj_get health_market_intelligence "market_size" VNone
     = Ok (VStr "R$ 280 bilhões (mercado de saúde brasileiro)")) /\
  (contains_sub "medicina" (str_lower rt s) = false ->
   contains_sub "saúde" (str_lower rt s) = false ->
   contains_sub "digital" (str_lower rt s) = false ->
   contains_sub "online" (str_lower rt s) = false ->
   _gather_ultra_real_market_intelligence rt data
     = Ok generic_market_intelligence) /\
  (str_lower rt s = "saúde digital" ->
   _gather_ultra_real_market_intelligence rt data
     = Ok health_market_intelligence) /\
  (forall data' : dict,
     get_default data' "segmento" (VStr EmptyString) = VStr s ->
     _gather_ultra_real_market_intelligence rt data'
       = _gather_ultra_real_market_intelligence rt data).
Proof.
  intros Hs. unfold _gather_ultra_real_market_intelligence.
  rewrite Hs. simpl. split; [|split; [|split]].
  - intros ->. now split.
  - intros -> -> -> ->. reflexivity.
  - now intros ->.
  - intros data' ->. reflexivity.
Qed.

Lemma market_intelligence_by_segment_witness :
  _gather_ultra_real_market_intelligence Sample.rt0 Sample.request_saude
    = Ok health_market_intelligence /\
  _gather_ultra_real_market_intelligence Sample.rt0 [("segmento", VStr "moda")]
    = Ok generic_market_intelligence.
Proof.
  split.
  - apply (market_intelligence_by_segment Sample.rt0 Sample.request_saude
             "saúde digital" eq_refl).
    reflexivity.
  - apply (market_intelligence_by_segment Sample.rt0 [("segmento", VStr "moda")]
             "moda" eq_refl); reflexivity.
Defined.

(** ** Scores (claim C6) *)

Lemma completed_sections_bounds (analysis : dict) :
  0 <= completed_sections analysis <= 10.
Proof.
  unfold completed_sections.
  assert (G : forall (l : list string) (n0 : Z),
             n0 <= fold_left
                     (fun n section =>
                        if present_and_truthy section analysis then n + 1
                        else n) l n0
                <= n0 + Z.of_nat (List.length l)).
  { induction l as [|x l IH]; intros n0; simpl List.length; simpl fold_left.
    - lia.
    - destruct (present_and_truthy x analysis).
      + specialize (IH (n0 + 1)). lia.
      + specialize (IH n0). lia. }
  specialize (G sections_to_check 0).
  change (Z.of_nat (List.length sections_to_check)) with 10 in G. lia.
Qed.

Lemma completeness_in_range (analysis : dict) :
  in_0_100 (_calculate_completeness_score analysis).
Proof.
  unfold _calculate_completeness_score.
  pose proof (completed_sections_bounds analysis) as B.
  remember (completed_sections analysis) as n eqn:E. clear E.
  assert (C : exists k : nat, n = Z.of_nat k /\ (k <= 10)%nat)
    by (exists (Z.to_nat n); lia).
  destruct C as (k & -> & Hk). unfold in_0_100.
  do 11 (destruct k as [|k]; [vm_compute; split; reflexivity|]).
  lia.
Qed.

Lemma quality_in_range (analysis : dict) (n : Z) :
  in_0_100
    (py_min
       (let score := insight_points n (section_points analysis) in
        let score :=
          if has_key "pesquisa_web_detalhada" analysis
          then PrimFloat.add score 15 else score in
        if has_key "inteligencia_mercado_ultra" analysis
        then PrimFloat.add score 15 else score)
       100).
Proof.
  unfold section_points, required_sections, insight_points, in_0_100.
  cbv zeta. simpl fold_left.
  repeat match goal with
         | |- context [if ?b then _ else _] => destruct b
         end;
    vm_compute; split; reflexivity.
Qed.

(** C6, as the code has it. The completeness score of every dictionary
    lies in [0,100]. The quality scorer takes [len] of the entry
    [insights_exclusivos_ultra]: when that entry is absent or is a
    string, a list or a dictionary, the scorer returns a score in
    [0,100]; when it is anything else the scorer raises TypeError and
    returns no score. *)
Theorem scores_in_range (analysis : dict) :
  in_0_100 (_calculate_completeness_score analysis) /\
  (is_ok (py_len (get_default analysis "insights_exclusivos_ultra" (VList [])))
     = true ->
   exists score,
     _calculate_ultra_quality_score analysis = Ok score /\ in_0_100 score) /\
  (forall e,
     py_len (get_default analysis "insights_exclusivos_ultra" (VList []))
       = Err e ->
     _calculate_ultra_quality_score analysis = Err e) /\
  (forall score,
     _calculate_ultra_quality_score analysis = Ok score -> in_0_100 score).
Proof.
  split; [apply completeness_in_range|].
  unfold _calculate_ultra_quality_score. cbv zeta.
  destruct (py_len (get_default analysis "insights_exclusivos_ultra" (VList [])))
    as [n|e] eqn:E; simpl.
  - split; [|split].
    + intros _. eexists. split; [reflexivity|].
      apply (quality_in_range analysis n).
    + intros; discriminate.
    + intros sc [= <-]. apply (quality_in_range analysis n).
  - split; [|split].
    + intros; discriminate.
    + now intros e' [= <-].
    + intros; discriminate.
Qed.

Lemma scores_in_range_witness :
  exists score,
    _calculate_ultra_quality_score
      [("avatar_ultra_detalhado", VStr "x");
       ("insights_exclusivos_ultra", VList [VStr "a"; VStr "b"; VStr "c";
                                            VStr "d"; VStr "e"]);
       ("pesquisa_web_detalhada", VDict [])] = Ok score /\
    in_0_100 score.
Proof.
  apply (scores_in_range
           [("avatar_ultra_detalhado", VStr "x");
            ("insights_exclusivos_ultra", VList [VStr "a"; VStr "b"; VStr "c";
                                                 VStr "d"; VStr "e"]);
            ("pesquisa_web_detalhada", VDict [])]).
  reflexivity.
Defined.

(** C6, as the claim states it, fails at the document
    [{"insights_exclusivos_ultra": 5}]: the scorer raises and returns no
    quality score. *)
Lemma quality_score_raises_on_unsized_insights :
  _calculate_ultra_quality_score [("insights_exclusivos_ultra", VInt 5)]
  = Err (Raised TypeError "object of type 'int' has no len()").
Proof. reflexivity. Qed.

(** ** The route on a validated request *)

Lemma lookup_dict_set_neq (k k' : string) (v : value) (d : dict) :
  String.eqb k k' = false -> lookup k (dict_set k' v d) = lookup k d.
Proof. intros H. now rewrite lookup_dict_set, H. Qed.

Lemma lookup_dict_add_neq (k k' : string) (n : Z) (d : dict) :
  String.eqb k k' = false -> lookup k (dict_add k' n d) = lookup k d.
Proof.
  intros H. unfold dict_add.
  destruct (lookup k' d) as [[]|]; try reflexivity.
  now apply lookup_dict_set_neq.
Qed.

Lemma lookup_attach_dict_neq (cd : dict) (k0 k k' : string) (d : dict) :
  String.eqb k k' = false -> lookup k (attach_dict cd k0 k' d) = lookup k d.
Proof.
  intros H. unfold attach_dict. destruct (truthy (get cd k0)); [|reflexivity].
  now apply lookup_dict_set_neq.
Qed.

Lemma fallback_returns (rt : runtime) (w : world) (data : dict) (error : string)
    (t : trace) :
  _generate_emergency_ultra_real_fallback rt w data error t
  = ((t ++ [EvUtcNow])%list,
     Ok (emergency_document rt data error (utcnow_isoformat w t))).
Proof. reflexivity. Qed.

(** The orchestrator: the fallback document exactly when the pipeline
    raises. *)
Lemma generate_unfold (rt : runtime) (w : world) (data : dict) (sid : value)
    (t : trace) :
  generate_ultra_comprehensive_analysis rt w data sid t
  = match analysis_pipeline rt w data sid (time_time w t) (t ++ [EvTime])%list with
    | (t', Ok doc) => (t', Ok doc)
    | (t', Err e) =>
        ((t' ++ [EvUtcNow])%list,
         Ok (emergency_document rt data (exn_text e) (utcnow_isoformat w t')))
    end.
Proof.
  unfold generate_ultra_comprehensive_analysis, bind, call, try_catch.
  destruct (analysis_pipeline rt w data sid (time_time w t) (t ++ [EvTime])%list)
    as [t' [doc|e]]; reflexivity.
Qed.

Lemma save_analysis_returns (P : event -> bool) (rt : runtime) (w : world)
    (data result : dict) :
  (forall record, P (EvDbCreateAnalysis record) = true) ->
  returns P
    (fun r => forall k, String.eqb k "database_id" = false ->
                        lookup k r = lookup k result)
    (save_analysis rt w data result).
Proof.
  intros HP. unfold save_analysis.
  destruct (truthy (VDict result) && negb (has_key "error" result)).
  - apply returns_try_catch.
    + eapply emits_bind.
      * apply emits_call with (Q := fun _ => True); auto.
      * intros record _. destruct (truthy record).
        -- eapply emits_bind.
           ++ apply emits_lift with (Q := fun _ => True). auto.
           ++ intros id _. apply emits_ret. intros k Hk.
              now apply lookup_dict_set_neq.
        -- now apply emits_ret.
    + intros e. now apply returns_ret.
  - now apply returns_ret.
Qed.

(** Once validated, a request is always answered with status 200: the
    orchestrator and the persistence block swallow every exception. *)
Lemma run_analysis_unfold (rt : runtime) (w : world) (data : dict) (t : trace) :
  let data' := normalize_numeric_fields rt data in
  let sid := if truthy (get data' "session_id") then get data' "session_id"
             else flask_session_id w in
  forall t1 doc,
    generate_ultra_comprehensive_analysis rt w data' sid t = (t1, Ok doc) ->
    exists t2 doc',
      run_analysis rt w data t
      = (t2, Ok {| status := 200; body := VDict doc' |}) /\
      (forall k, String.eqb k "database_id" = false ->
                 lookup k doc' = lookup k doc).
Proof.
  intros data' sid t1 doc E.
  destruct (save_analysis_returns any_event rt w data' doc (fun _ => eq_refl) t1)
    as (l & doc' & E' & _ & H).
  exists (t1 ++ l)%list, doc'. split; [|exact H].
  unfold run_analysis. fold data'. fold sid.
  unfold bind. rewrite E, E'. reflexivity.
Qed.

Lemma generate_never_raises (rt : runtime) (w : world) (data : dict)
    (sid : value) (t : trace) :
  exists t1 doc,
    generate_ultra_comprehensive_analysis rt w data sid t = (t1, Ok doc).
Proof.
  rewrite generate_unfold.
  destruct (analysis_pipeline rt w data sid (time_time w t) (t ++ [EvTime])%list)
    as [t' [doc|e]]; eauto.
Qed.

Lemma analyze_market_validated (rt : runtime) (w : world) (data : dict)
    (t : trace) :
  truthy (get data "segmento") = true ->
  analyze_market rt w (Ok (VDict data)) t = run_analysis rt w data t.
Proof.
  intros H.
  assert (N : truthy (VDict data) = true).
  { destruct data; [discriminate H | reflexivity]. }
  unfold get in H.
  destruct (generate_never_raises rt w (normalize_numeric_fields rt data)
              (if truthy (get (normalize_numeric_fields rt data) "session_id")
               then get (normalize_numeric_fields rt data) "session_id"
               else flask_session_id w) t) as (t1 & doc & E).
  destruct (run_analysis_unfold rt w data t t1 doc E) as (t2 & doc' & R & _).
  unfold analyze_market, try_catch, bind, lift. cbn beta iota.
  rewrite N. cbn [negb obj_get]. rewrite H. cbn [negb].
  rewrite R. reflexivity.
Qed.

(** ** Numeric fields (claims C7 and C3) *)

Lemma lookup_normalize_field_neq (rt : runtime) (data : dict) (field k : string) :
  String.eqb k (field ++ "_float") = false ->
  lookup k (normalize_field rt data field) = lookup k data.
Proof.
  intros H. unfold normalize_field.
  destruct (present_and_truthy field data); [|reflexivity].
  now apply lookup_dict_set_neq.
Qed.

Lemma lookup_normalize_field (rt : runtime) (data : dict) (field : string) :
  lookup (field ++ "_float") (normalize_field rt data field)
  = if present_and_truthy field data
    then Some (VFloat (float_or_zero rt (get data field)))
    else lookup (field ++ "_float") data.
Proof.
  unfold normalize_field.
  destruct (present_and_truthy field data); [|reflexivity].
  apply lookup_dict_set_same.
Qed.

Lemma present_and_truthy_normalize_field (rt : runtime) (data : dict)
    (field k : string) :
  String.eqb k (field ++ "_float") = false ->
  present_and_truthy k (normalize_field rt data field)
  = present_and_truthy k data /\
  get (normalize_field rt data field) k = get data k.
Proof.
  intros H. unfold present_and_truthy, get, get_default.
  now rewrite lookup_normalize_field_neq.
Qed.

(** What the loop over the numeric fields leaves under [<field>_float]. *)
Lemma lookup_normalized (rt : runtime) (data : dict) (field : string) :
  In field numeric_fields ->
  lookup (field ++ "_float") (normalize_numeric_fields rt data)
  = if present_and_truthy field data
    then Some (VFloat (float_or_zero rt (get data field)))
    else lookup (field ++ "_float") data.
Proof.
  unfold normalize_numeric_fields, numeric_fields. cbn [fold_left].
  intros [<- | [<- | [<- | []]]].
  - rewrite !lookup_normalize_field_neq by reflexivity.
    apply lookup_normalize_field.
  - rewrite lookup_normalize_field_neq by reflexivity.
    rewrite lookup_normalize_field.
    destruct (present_and_truthy_normalize_field rt data "preco"
                "objetivo_receita" eq_refl) as [-> ->].
    now rewrite lookup_normalize_field_neq by reflexivity.
  - rewrite lookup_normalize_field.
    destruct (present_and_truthy_normalize_field rt
                (normalize_field rt data "preco") "objetivo_receita"
                "orcamento_marketing" eq_refl) as [-> ->].
    destruct (present_and_truthy_normalize_field rt data "preco"
                "orcamento_marketing" eq_refl) as [-> ->].
    now rewrite !lookup_normalize_field_neq by reflexivity.
Qed.

Lemma lookup_normalized_other (rt : runtime) (data : dict) (k : string) :
  String.eqb k "preco_float" = false ->
  String.eqb k "objetivo_receita_float" = false ->
  String.eqb k "orcamento_marketing_float" = false ->
  lookup k (normalize_numeric_fields rt data) = lookup k data.
Proof.
  intros H1 H2 H3.
  unfold normalize_numeric_fields, numeric_fields. cbn [fold_left].
  now rewrite !lookup_normalize_field_neq.
Qed.

Lemma validated_request_is_answered (rt : runtime) (w : world) (data : dict)
    (t : trace) :
  truthy (get data "segmento") = true ->
  exists t' doc,
    analyze_market rt w (Ok (VDict data)) t
    = (t', Ok {| status := 200; body := VDict doc |}).
Proof.
  intros H. rewrite (analyze_market_validated rt w data t H).
  destruct (generate_never_raises rt w (normalize_numeric_fields rt data)
              (if truthy (get (normalize_numeric_fields rt data) "session_id")
               then get (normalize_numeric_fields rt data) "session_id"
               else flask_session_id w) t) as (t1 & doc & E).
  destruct (run_analysis_unfold rt w data t t1 doc E) as (t2 & doc' & R & _).
  eauto.
Qed.


(** ** The consolidator *)

Lemma attach_if_present_dict (cd : dict) (k k' : string) (d : dict) :
  attach_if_present cd k k' (VDict d) = Ok (VDict (attach_dict cd k k' d)).
Proof.
  unfold attach_if_present, attach_dict.
  now destruct (truthy (get cd k)).
Qed.

Lemma attach_if_present_list (cd : dict) (k k' : string) (l : list value)
    (u : value) :
  attach_if_present cd k k' (VList l) = Ok u -> u = VList l.
Proof.
  unfold attach_if_present.
  destruct (truthy (get cd k)); simpl; [discriminate | now intros [= <-]].
Qed.

(** The consolidated document, when the consolidator returns one: the
    base with the research sections that are not empty, then the five
    generated sections. *)
Lemma consolidate_ok (rt : runtime) (data cd ai doc : dict) :
  _consolidate_ultra_real_analysis rt data cd ai = Ok doc ->
  exists base insights plan metrics timeline monitoring,
    main_analysis_of rt data ai = VDict base /\
    _generate_ultra_exclusive_real_insights rt cd ai = Ok insights /\
    _create_complete_real_implementation_plan rt data = Ok plan /\
    _create_advanced_real_success_metrics rt data = Ok metrics /\
    _create_real_365_day_timeline data = Ok timeline /\
    _create_real_monitoring_system data = Ok monitoring /\
    doc =
      dict_set "sistema_monitoramento_real" monitoring
        (dict_set "cronograma_real_365_dias" timeline
           (dict_set "metricas_sucesso_real_avancadas" metrics
              (dict_set "plano_implementacao_real_completo" plan
                 (dict_set "insights_exclusivos_real_ultra" insights
                    (attach_dict cd "trend_analysis"
                       "analise_tendencias_real_ultra"
                       (attach_dict cd "competitor_analysis"
                          "analise_concorrencia_real_ultra"
                          (attach_dict cd "market_intelligence"
                             "inteligencia_mercado_real_ultra"
                             (attach_dict cd "web_research"
                                "pesquisa_web_real_detalhada" base)))))))).
Proof.
  unfold _consolidate_ultra_real_analysis. cbv zeta. intros H.
  apply rbind_ok in H as (u0 & E0 & H).
  destruct (main_analysis_of rt data ai) as [| | | | |l|base];
    try discriminate E0; injection E0 as <-.
  - exfalso.
    apply rbind_ok in H as (u1 & E1 & H).
    apply attach_if_present_list in E1 as ->.
    apply rbind_ok in H as (u2 & E2 & H).
    apply attach_if_present_list in E2 as ->.
    apply rbind_ok in H as (u3 & E3 & H).
    apply attach_if_present_list in E3 as ->.
    apply rbind_ok in H as (u4 & E4 & H).
    apply attach_if_present_list in E4 as ->.
    apply rbind_ok in H as (ins & _ & H).
    apply rbind_ok in H as (u5 & E5 & _). discriminate E5.
  - do 4 (rewrite attach_if_present_dict in H; cbn [rbind] in H).
    apply rbind_ok in H as (insights & Ei & H). cbn [obj_setitem rbind] in H.
    apply rbind_ok in H as (plan & Ep & H). cbn [obj_setitem rbind] in H.
    apply rbind_ok in H as (metrics & Em & H). cbn [obj_setitem rbind] in H.
    apply rbind_ok in H as (timeline & Et & H). cbn [obj_setitem rbind] in H.
    apply rbind_ok in H as (monitoring & Eo & H). cbn [obj_setitem rbind] in H.
    injection H as <-.
    exists base, insights, plan, metrics, timeline, monitoring.
    repeat split; assumption.
Qed.

Lemma insights_are_twenty (rt : runtime) (cd ai : dict) (insights : value) :
  _generate_ultra_exclusive_real_insights rt cd ai = Ok insights ->
  exists l, insights = VList l /\ List.length l = 20%nat.
Proof.
  unfold _generate_ultra_exclusive_real_insights. intros H.
  apply rbind_ok in H as (s1 & _ & H). injection H as <-.
  eexists. split; reflexivity.
Qed.

(** ** The orchestrator's [try] body *)

Lemma pipeline_ok (rt : runtime) (w : world) (data : dict) (sid : value)
    (start : float) (t t' : trace) (doc : dict) :
  analysis_pipeline rt w data sid start t = (t', Ok doc) ->
  exists t1 cd t2 ai final n_sources quality n_insights generated_at elapsed,
    _collect_ultra_comprehensive_real_data rt w data sid t = (t1, Ok cd) /\
    _run_multi_ai_ultra_real_analysis rt w data cd t1 = (t2, Ok ai) /\
    _consolidate_ultra_real_analysis rt data cd ai = Ok final /\
    _calculate_ultra_quality_score final = Ok quality /\
    py_len (get_default final "insights_exclusivos_ultra" (VList []))
      = Ok n_insights /\
    doc =
      dict_set "metadata_ultra_detalhado"
        (analysis_metadata rt elapsed n_sources
           (Z.of_nat (List.length ai)) generated_at quality
           (_calculate_completeness_score final)
           (get_default cd "research_iterations" (VInt 0))
           (get_default cd "total_content_length" (VInt 0))
           n_insights)
        final.
Proof.
  unfold analysis_pipeline, bind, lift, call, ret. intros H.
  destruct (_collect_ultra_comprehensive_real_data rt w data sid t)
    as [t1 [cd|e]] eqn:E1; [|discriminate].
  destruct (_run_multi_ai_ultra_real_analysis rt w data cd t1)
    as [t2 [ai|e]] eqn:E2; [|discriminate].
  destruct (_consolidate_ultra_real_analysis rt data cd ai)
    as [final|e] eqn:E3; [|discriminate].
  destruct (py_len (get_default cd "sources" (VList []))) as [n|e];
    [|discriminate].
  destruct (_calculate_ultra_quality_score final) as [q|e] eqn:E4;
    [|discriminate].
  destruct (py_len (get_default final "insights_exclusivos_ultra" (VList [])))
    as [m|e] eqn:E5; [|discriminate].
  injection H as <- <-.
  exists t1, cd, t2, ai, final, n, q, m. do 2 eexists.
  repeat split; try reflexivity; assumption.
Qed.

(** ** Uncaught exceptions (claim C1) *)

(** C1. For a validated request, when the body of the orchestrator's
    [try] (collection, synthesis, consolidation, scoring) raises [e], the
    route still answers with status 200 and the fallback document: its
    [metadata_ultra_detalhado] has [quality_score] 35.0,
    [completeness_score] 25.0, [emergency_mode] true and
    [real_data_guarantee] false, its insight list holds the line with the
    text of [e], and every key but [database_id] (which the persistence
    block may add) is as the fallback generator made it. The fallback
    generator itself always returns, and the only thing it asks of the
    environment is the time. *)
Theorem fallback_on_uncaught_exception
    (rt : runtime) (w : world) (data : dict) (t t1 : trace) (e : exn) :
  truthy (get data "segmento") = true ->
  analysis_pipeline rt w (normalize_numeric_fields rt data)
    (if truthy (get (normalize_numeric_fields rt data) "session_id")
     then get (normalize_numeric_fields rt data) "session_id"
     else flask_session_id w)
    (time_time w t) (t ++ [EvTime])%list = (t1, Err e) ->
  (exists t2 doc md insights,
     analyze_market rt w (Ok (VDict data)) t
       = (t2, Ok {| status := 200; body := VDict doc |}) /\
     lookup "metadata_ultra_detalhado" doc = Some (VDict md) /\
     lookup "quality_score" md = Some (VFloat 35) /\
     lookup "completeness_score" md = Some (VFloat 25) /\
     lookup "emergency_mode" md = Some (VBool true) /\
     lookup "real_data_guarantee" md = Some (VBool false) /\
     lookup "insights_exclusivos_real_ultra" doc = Some (VList insights) /\
     In (VStr ("🔧 Erro detectado: " ++ exn_text e)) insights /\
     forall k, String.eqb k "database_id" = false ->
       lookup k doc
       = lookup k (emergency_document rt (normalize_numeric_fields rt data)
                     (exn_text e) (utcnow_isoformat w t1))) /\
  (forall data' error t',
     _generate_emergency_ultra_real_fallback rt w data' error t'
     = ((t' ++ [EvUtcNow])%list,
        Ok (emergency_document rt data' error (utcnow_isoformat w t')))).
Proof.
  intros Hseg Hp. split; [|intros; apply fallback_returns].
  rewrite (analyze_market_validated rt w data t Hseg).
  pose proof (generate_unfold rt w (normalize_numeric_fields rt data)
                (if truthy (get (normalize_numeric_fields rt data) "session_id")
                 then get (normalize_numeric_fields rt data) "session_id"
                 else flask_session_id w) t) as G.
  rewrite Hp in G.
  destruct (run_analysis_unfold rt w data t _ _ G) as (t2 & doc & R & F).
  assert (Hm : lookup "metadata_ultra_detalhado" doc
               = Some (emergency_metadata (exn_text e) (utcnow_isoformat w t1))).
  { rewrite F by reflexivity. unfold emergency_document. cbv zeta.
    apply lookup_dict_set_same. }
  assert (Hi : lookup "insights_exclusivos_real_ultra" doc
               = Some (emergency_insights rt (normalize_numeric_fields rt data)
                         (exn_text e))).
  { rewrite F by reflexivity. unfold emergency_document. cbv zeta.
    rewrite lookup_dict_set_neq by reflexivity. apply lookup_dict_set_same. }
  unfold emergency_metadata in Hm. unfold emergency_insights in Hi.
  exists t2, doc. eexists. eexists.
  split; [exact R|]. split; [exact Hm|].
  do 4 (split; [reflexivity|]).
  split; [exact Hi|]. split; [|exact F].
  simpl. tauto.
Qed.

Lemma fallback_on_uncaught_exception_witness :
  exists t2 doc md,
    analyze_market Sample.rt0 Sample.w_web_timeout
      (Ok (VDict Sample.request_saude)) []
      = (t2, Ok {| status := 200; body := VDict doc |}) /\
    lookup "metadata_ultra_detalhado" doc = Some (VDict md) /\
    lookup "emergency_mode" md = Some (VBool true) /\
    lookup "error" md = Some (VStr "web research timed out").
Proof.
  assert (E : exists t1,
             analysis_pipeline Sample.rt0 Sample.w_web_timeout
               (normalize_numeric_fields Sample.rt0 Sample.request_saude)
               (if truthy (get (normalize_numeric_fields Sample.rt0
                                  Sample.request_saude) "session_id")
                then get (normalize_numeric_fields Sample.rt0
                            Sample.request_saude) "session_id"
                else flask_session_id Sample.w_web_timeout)
               (time_time Sample.w_web_timeout []) ([] ++ [EvTime])%list
             = (t1, Err (Raised OtherError "web research timed out"))).
  { eexists. vm_compute. reflexivity. }
  destruct E as (t1 & E).
  destruct (fallback_on_uncaught_exception Sample.rt0 Sample.w_web_timeout
              Sample.request_saude [] t1 _ eq_refl E)
    as ((t2 & doc & md & insights & R & M & _ & _ & Em & _ & _ & _ & F) & _).
  exists t2, doc, md. repeat split; try assumption.
  rewrite F in M by reflexivity. 
  unfold emergency_document in M. cbv zeta in M.
  rewrite lookup_dict_set_same in M.
  injection M as <-. reflexivity.
Defined.

(** ** Events of the pipeline *)

Lemma emits_ok {A : Type} P (Q : A -> Prop) (m : M A) t t' a :
  emits P Q m -> m t = (t', Ok a) ->
  Q a /\ exists l, t' = (t ++ l)%list /\ forallb P l = true.
Proof.
  intros H E. destruct (H t) as (l & E1 & Hl & Ha).
  rewrite E in E1, Ha. simpl in *. split; [auto | eauto].
Qed.


Ltac emits_any :=
  repeat first
    [ apply emits_ret; exact I
    | apply emits_raise
    | apply emits_lift; intros; exact I
    | apply emits_call; [solve [auto] | intros; exact I]
    | eapply emits_bind with (Q := fun _ => True); [| intros ? _]
    | apply emits_try_catch; [| intros ?]
    | apply emits_for_each; [intros ? ? _ | exact I]
    | match goal with
      | |- emits _ _ (if ?b then _ else _) => destruct b
      | |- emits _ _ (let '(_, _) := ?p in _) => destruct p
      end ].

Section Events.

Variable P : event -> bool.
Hypothesis navigate_only : forall ev, is_navigate ev = false -> P ev = true.
Variable rt : runtime.
Variable w : world.

Local Hint Extern 1 (P _ = true) => (apply navigate_only; reflexivity) : core.

Lemma attachments_phase_emits (sid : value) (cd : dict) :
  emits P (fun _ => True) (attachments_phase rt w sid cd).
Proof. unfold attachments_phase. emits_any. Qed.

Lemma run_multi_emits (data cd : dict) :
  emits P (fun _ => True) (_run_multi_ai_ultra_real_analysis rt w data cd).
Proof.
  unfold _run_multi_ai_ultra_real_analysis, primary_analysis,
    secondary_analysis.
  emits_any.
Qed.





End Events.

(** ** The data collector (claims C2 and C9) *)

Lemma process_attachments_ok (rt : runtime) (attachments : value)
    (cd cd' : dict) :
  has_key "attachments" cd = true ->
  process_attachments rt attachments cd = Ok cd' ->
  keys cd' = keys cd /\ lookup "web_research" cd' = lookup "web_research" cd.
Proof.
  intros Hk. unfold process_attachments. intros H.
  apply rbind_ok in H as (atts & _ & H).
  apply rbind_ok in H as ([combined analysis] & _ & H).
  apply rbind_ok in H as (count & _ & H).
  injection H as <-. split.
  - now rewrite !keys_dict_add, keys_dict_set_present.
  - rewrite !lookup_dict_add_neq by reflexivity.
    now rewrite lookup_dict_set_neq by reflexivity.
Qed.

Lemma attachments_phase_ok (rt : runtime) (w : world) (sid : value)
    (cd cd' : dict) (t t' : trace) :
  has_key "attachments" cd = true ->
  attachments_phase rt w sid cd t = (t', Ok cd') ->
  keys cd' = keys cd /\ lookup "web_research" cd' = lookup "web_research" cd.
Proof.
  intros Hk. unfold attachments_phase, bind, call, lift, ret.
  destruct (truthy sid); [|now intros [= _ <-]].
  destruct (get_session_attachments w t sid) as [attachments|e];
    [|discriminate].
  destruct (truthy attachments); [|now intros [= _ <-]].
  intros [= _ H]. now apply process_attachments_ok in H.
Qed.

Lemma record_web_result_ok (i : Z) (web_result : value) (cd cd' : dict) :
  has_key "web_research" cd = true ->
  has_key "sources" cd = true ->
  record_web_result i web_result cd = Ok cd' ->
  keys cd' = keys cd.
Proof.
  intros H1 H2. unfold record_web_result. intros H.
  apply rbind_ok in H as (wr & _ & H).
  apply rbind_ok in H as (sources & _ & H).
  apply rbind_ok in H as (new_sources & _ & H).
  apply rbind_ok in H as (n_sources & _ & H).
  apply rbind_ok in H as (summary & _ & H).
  apply rbind_ok in H as (content & _ & H).
  apply rbind_ok in H as (n_content & _ & H).
  injection H as <-.
  rewrite !keys_dict_add, keys_dict_set_present.
  - now apply keys_dict_set_present.
  - now rewrite has_key_dict_set, H2, orb_true_r.
Qed.

Lemma web_research_phase_keys (rt : runtime) (w : world) (data cd : dict) :
  keys cd = keys initial_comprehensive_data ->
  emits any_event (fun cd' => keys cd' = keys initial_comprehensive_data)
    (web_research_phase rt w data cd).
Proof.
  intros Hk. unfold web_research_phase.
  eapply emits_bind with (Q := fun _ => True).
  - apply emits_call; auto.
  - intros available _. destruct (truthy available).
    + apply emits_for_each; [|exact Hk].
      intros [i query] s Hs. unfold web_research_step.
      eapply emits_bind with (Q := fun _ => True).
      * apply emits_call; auto.
      * intros web_result _.
        eapply emits_bind
          with (Q := fun s' => keys s' = keys initial_comprehensive_data).
        -- apply emits_lift. intros s' E.
           apply record_web_result_ok in E.
           ++ congruence.
           ++ now rewrite (has_key_keys _ _ _ Hs).
           ++ now rewrite (has_key_keys _ _ _ Hs).
        -- intros s' Hs'. eapply emits_bind with (Q := fun _ => True).
           ++ apply emits_call; auto.
           ++ intros _ _. now apply emits_ret.
    + now apply emits_ret.
Qed.

Lemma local_heuristics_ok (rt : runtime) (data cd cd' : dict) :
  keys cd = keys initial_comprehensive_data ->
  local_heuristics rt data cd = Ok cd' ->
  keys cd' = keys cd /\ lookup "web_research" cd' = lookup "web_research" cd.
Proof.
  intros Hk. unfold local_heuristics. intros H.
  apply rbind_ok in H as (mi & _ & H).
  apply rbind_ok in H as (ta & _ & H).
  injection H as <-. split.
  - rewrite !keys_dict_set_present; try reflexivity;
      rewrite ?has_key_dict_set, (has_key_keys _ _ _ Hk); reflexivity.
  - now rewrite !lookup_dict_set_neq by reflexivity.
Qed.

(** Whenever the collector returns, the aggregate has its eleven keys. *)
Lemma collector_ok_complete (rt : runtime) (w : world) (data : dict)
    (sid : value) (t t' : trace) (cd : dict) :
  _collect_ultra_comprehensive_real_data rt w data sid t = (t', Ok cd) ->
  keys cd = keys initial_comprehensive_data.
Proof.
  unfold _collect_ultra_comprehensive_real_data, bind, lift. intros H.
  destruct (attachments_phase rt w sid initial_comprehensive_data t)
    as [t1 [cd1|e]] eqn:E1; [|discriminate].
  apply attachments_phase_ok in E1 as [K1 _]; [|reflexivity].
  destruct (web_research_phase rt w data cd1 t1) as [t2 [cd2|e]] eqn:E2;
    [|discriminate].
  apply (emits_ok _ _ _ _ _ _ (web_research_phase_keys rt w data cd1 K1))
    in E2 as [K2 _].
  injection H as _ H.
  apply local_heuristics_ok in H as [K3 _]; congruence.
Qed.



Lemma pipeline_doc_keys (rt : runtime) (w : world) (data : dict) (sid : value)
    (start : float) (t t' : trace) (doc : dict) :
  analysis_pipeline rt w data sid start t = (t', Ok doc) ->
  has_key "metadata_ultra_detalhado" doc = true /\
  has_key "insights_exclusivos_real_ultra" doc = true.
Proof.
  intros H.
  apply pipeline_ok in H
    as (t1 & cd & t2 & ai & final & n & q & m & g & el & _ & _ & C & _ & _ & ->).
  apply consolidate_ok in C as (base & i & p & me & ti & mo & _ & _ & _ & _ & _ & _ & ->).
  rewrite !has_key_dict_set. split; reflexivity.
Qed.

Lemma emergency_document_keys (rt : runtime) (data : dict)
    (error generated_at : string) :
  has_key "metadata_ultra_detalhado"
    (emergency_document rt data error generated_at) = true /\
  has_key "insights_exclusivos_real_ultra"
    (emergency_document rt data error generated_at) = true.
Proof.
  unfold emergency_document. cbv zeta. rewrite !has_key_dict_set.
  split; reflexivity.
Qed.

Lemma has_key_lookup (k : string) (d d' : dict) :
  lookup k d' = lookup k d -> has_key k d' = has_key k d.
Proof. unfold has_key. now intros ->. Qed.

(** ** Collaborator failures in the collector (claim C2) *)

Lemma ends_ret {A : Type} (w : world) (a : A) : ends_at_failure w (ret a).
Proof.
  intros t. exists []. split; [symmetry; apply app_nil_r|].
  intros l1 ev l2 e H. now destruct l1.
Qed.

Lemma ends_lift {A : Type} (w : world) (r : result A) :
  ends_at_failure w (lift r).
Proof.
  intros t. exists []. split; [symmetry; apply app_nil_r|].
  intros l1 ev l2 e H. now destruct l1.
Qed.

Lemma ends_call {A : Type} (w : world) (ev : event)
    (oracle : trace -> result A) :
  (forall t, raised_by w ev t = error_of (oracle t)) ->
  ends_at_failure w (call ev oracle).
Proof.
  intros H t. exists [ev]. split; [reflexivity|].
  intros l1 ev' l2 e D R.
  destruct l1 as [|x l1].
  - injection D as <- <-. rewrite app_nil_r, H in R. cbn [call snd].
    split; [reflexivity|]. destruct (oracle t); [discriminate R|].
    now injection R as ->.
  - injection D as _ D. now destruct l1.
Qed.

Lemma split_at_event {A : Type} (a b l1 l2 : list A) (x : A) :
  (a ++ b = l1 ++ x :: l2)%list ->
  (exists r, a = (l1 ++ x :: r)%list /\ l2 = (r ++ b)%list) \/
  (exists r, l1 = (a ++ r)%list /\ b = (r ++ x :: l2)%list).
Proof.
  revert l1. induction a as [|y a IH]; intros l1 H.
  - right. exists l1. now split.
  - destruct l1 as [|z l1].
    + injection H as -> <-. left. exists a. now split.
    + injection H as -> H. destruct (IH l1 H) as [(r & -> & ->) | (r & -> & ->)].
      * left. exists r. now split.
      * right. exists r. now split.
Qed.

Lemma ends_bind {A B : Type} (w : world) (m : M A) (k : A -> M B) :
  ends_at_failure w m ->
  (forall a, ends_at_failure w (k a)) ->
  ends_at_failure w (bind m k).
Proof.
  intros Hm Hk t. destruct (Hm t) as (lm & Em & Pm). unfold bind.
  destruct (m t) as [t1 [a|e0]]; cbn [fst snd] in *; subst t1.
  - destruct (Hk a (t ++ lm)%list) as (lk & Ek & Pk).
    exists (lm ++ lk)%list. split; [now rewrite Ek, app_assoc|].
    intros l1 ev l2 e D R.
    apply split_at_event in D as [(r & -> & ->) | (r & -> & ->)].
    + destruct (Pm l1 ev r e eq_refl R) as [_ Abs]. discriminate Abs.
    + rewrite app_assoc in R. exact (Pk r ev l2 e eq_refl R).
  - exists lm. split; [reflexivity|].
    intros l1 ev l2 e D R. destruct (Pm l1 ev l2 e D R) as [-> [= ->]].
    now split.
Qed.

Lemma ends_for_each {A S : Type} (w : world) (l : list A)
    (body : A -> S -> M S) (s : S) :
  (forall x s', ends_at_failure w (body x s')) ->
  ends_at_failure w (for_each l body s).
Proof.
  intros H. revert s. induction l as [|x l IH]; intros s; cbn [for_each].
  - apply ends_ret.
  - apply ends_bind; [apply H | intros s'; apply IH].
Qed.

Lemma collector_ends_at_failure (rt : runtime) (w : world) (data : dict)
    (sid : value) :
  ends_at_failure w (_collect_ultra_comprehensive_real_data rt w data sid).
Proof.
  unfold _collect_ultra_comprehensive_real_data.
  apply ends_bind.
  { unfold attachments_phase. destruct (truthy sid); [|apply ends_ret].
    apply ends_bind; [now apply ends_call|].
    intros a. destruct (truthy a); [apply ends_lift | apply ends_ret]. }
  intros cd. apply ends_bind.
  { unfold web_research_phase. apply ends_bind; [now apply ends_call|].
    intros v. destruct (truthy v); [|apply ends_ret].
    apply ends_for_each. intros [i q] cd'. unfold web_research_step.
    apply ends_bind; [now apply ends_call|]. intros r.
    apply ends_bind; [apply ends_lift|]. intros cd''.
    apply ends_bind; [now apply ends_call | intros _; apply ends_ret]. }
  intros cd'. apply ends_lift.
Qed.

(** C2, as the code has it. The collector has no exception handler: a
    call of the attachment collaborator, of the availability check or of
    a web-research query that raises is the last thing the collector
    does, whichever query it is; the queries after it are not issued, no
    aggregate is returned, and the exception is the collector's outcome.
    The orchestrator's [try] body raises the same exception, and its
    handler answers with the fallback document built from the
    exception's text. Whenever the collector does return, the aggregate
    has all of its eleven keys. *)
Theorem collector_propagates_collaborator_failures
    (rt : runtime) (w : world) (data : dict) (sid : value) (t : trace) :
  (forall t' r l1 ev l2 e,
     _collect_ultra_comprehensive_real_data rt w data sid t = (t', r) ->
     t' = (t ++ l1 ++ ev :: l2)%list ->
     raised_by w ev (t ++ l1)%list = Some e ->
     l2 = [] /\ r = Err e) /\
  (forall e,
     truthy sid = true ->
     get_session_attachments w t sid = Err e ->
     _collect_ultra_comprehensive_real_data rt w data sid t
     = ((t ++ [EvGetSessionAttachments sid])%list, Err e)) /\
  (forall cd v e,
     websailor_is_available w t = Ok v ->
     truthy v = true ->
     navigate_and_research w (t ++ [EvWebIsAvailable])%list
       ("dados reais mercado "
          ++ py_str rt (get_default data "segmento" (VStr EmptyString))
          ++ " Brasil 2024 estatísticas crescimento")
       (research_context data) = Err e ->
     web_research_phase rt w data cd t
     = (((t ++ [EvWebIsAvailable])
           ++ [EvNavigateAndResearch
                 ("dados reais mercado "
                    ++ py_str rt (get_default data "segmento" (VStr EmptyString))
                    ++ " Brasil 2024 estatísticas crescimento")
                 (research_context data)])%list,
        Err e)) /\
  (forall cd t1 t2 e,
     attachments_phase rt w sid initial_comprehensive_data t = (t1, Ok cd) ->
     web_research_phase rt w data cd t1 = (t2, Err e) ->
     _collect_ultra_comprehensive_real_data rt w data sid t = (t2, Err e)) /\
  (forall t' e start,
     _collect_ultra_comprehensive_real_data rt w data sid t = (t', Err e) ->
     analysis_pipeline rt w data sid start t = (t', Err e)) /\
  (forall t0 t' e,
     t = (t0 ++ [EvTime])%list ->
     _collect_ultra_comprehensive_real_data rt w data sid t = (t', Err e) ->
     generate_ultra_comprehensive_analysis rt w data sid t0
     = ((t' ++ [EvUtcNow])%list,
        Ok (emergency_document rt data (exn_text e)
              (utcnow_isoformat w t')))) /\
  (forall t' cd,
     _collect_ultra_comprehensive_real_data rt w data sid t = (t', Ok cd) ->
     keys cd = keys initial_comprehensive_data).
Proof.
  split; [|split; [|split; [|split; [|split; [|split]]]]].
  - intros t' r l1 ev l2 e E D R.
    destruct (collector_ends_at_failure rt w data sid t) as (l & El & P).
    rewrite E in El, P. cbn [fst snd] in El, P. rewrite D in El.
    apply app_inv_head in El. exact (P l1 ev l2 e (eq_sym El) R).
  - intros e Hs Ha.
    unfold _collect_ultra_comprehensive_real_data, attachments_phase.
    rewrite Hs. unfold bind, call. now rewrite Ha.
  - intros cd v e Hv Ht Hn.
    unfold web_research_phase.
    erewrite bind_ok by (unfold call; rewrite Hv; reflexivity).
    rewrite Ht. unfold _generate_ultra_comprehensive_real_queries.
    cbv zeta. cbn [firstn enumerate_from for_each].
    apply bind_err. unfold web_research_step.
    apply bind_err. unfold call. now rewrite Hn.
  - intros cd t1 t2 e Ha Hw.
    unfold _collect_ultra_comprehensive_real_data, bind. now rewrite Ha, Hw.
  - intros t' e start Hc. unfold analysis_pipeline, bind. now rewrite Hc.
  - intros t0 t' e -> Hc. rewrite generate_unfold.
    unfold analysis_pipeline, bind. now rewrite Hc.
  - intros t' cd. apply collector_ok_complete.
Qed.

Lemma collector_propagates_collaborator_failures_witness :
  snd (_collect_ultra_comprehensive_real_data Sample.rt0
         SampleFaults.w_third_query_fails Sample.request_saude VNone [])
    = Err (Raised OtherError "web research timed out") /\
  count_navigate
    (fst (_collect_ultra_comprehensive_real_data Sample.rt0
            SampleFaults.w_third_query_fails Sample.request_saude VNone []))
    = 3%nat.
Proof.
  split; [|reflexivity].
  apply (proj1 (collector_propagates_collaborator_failures Sample.rt0
                  SampleFaults.w_third_query_fails Sample.request_saude
                  VNone [])
           (fst (_collect_ultra_comprehensive_real_data Sample.rt0
                   SampleFaults.w_third_query_fails Sample.request_saude
                   VNone []))
           (snd (_collect_ultra_comprehensive_real_data Sample.rt0
                   SampleFaults.w_third_query_fails Sample.request_saude
                   VNone []))
           [EvWebIsAvailable;
            EvNavigateAndResearch
              "dados reais mercado saúde digital Brasil 2024 estatísticas crescimento"
              (research_context Sample.request_saude);
            EvSleep 2;
            EvNavigateAndResearch
              "principais empresas saúde digital brasileiras líderes market share"
              (research_context Sample.request_saude);
            EvSleep 2]
           (EvNavigateAndResearch
              "consumidor saúde digital pesquisa comportamento dados demográficos"
              (research_context Sample.request_saude))
           []
           (Raised OtherError "web research timed out")).
  - apply surjective_pairing.
  - reflexivity.
  - reflexivity.
Defined.

(** C2, as the claim states it, fails: with an attachment service that
    raises, and with a web-research agent whose first query raises, the
    collector raises; in the second case one query was issued and the
    nine after it were not. *)
Lemma collector_raises_with_failing_collaborators :
  _collect_ultra_comprehensive_real_data Sample.rt0 Sample.w_offline
    Sample.request_saude (VStr "sessao-1") []
  = ([EvGetSessionAttachments (VStr "sessao-1")],
     Err (Raised OtherError "attachment service down")) /\
  _collect_ultra_comprehensive_real_data Sample.rt0 Sample.w_web_timeout
    Sample.request_saude VNone []
  = ([EvWebIsAvailable;
      EvNavigateAndResearch
        "dados reais mercado saúde digital Brasil 2024 estatísticas crescimento"
        (research_context Sample.request_saude)],
     Err (Raised OtherError "web research timed out")) /\
  List.length (_generate_ultra_comprehensive_real_queries Sample.rt0
                 Sample.request_saude) = 10%nat.
Proof. repeat split. Qed.

(** ** The synthesizer (claims C8 and C4) *)

Lemma primary_analysis_absent (rt : runtime) (w : world) (data cd ai : dict) :
  gemini_client_present w = false ->
  primary_analysis rt w data cd ai = ret ai.
Proof. unfold primary_analysis. now intros ->. Qed.

(** When the call to the primary LLM raises, so does the [try] of the
    synthesizer, and the handler files the local template. *)
Lemma primary_analysis_substitutes (rt : runtime) (w : world)
    (data cd ai : dict) :
  gemini_client_present w = true ->
  (forall t d c, exists e, generate_ultra_detailed_analysis w t d c = Err e) ->
  returns any_event
    (fun ai' =>
       ai' = dict_set "gemini_ultra_real"
               (VDict (_generate_basic_real_gemini_analysis rt data)) ai)
    (primary_analysis rt w data cd ai).
Proof.
  intros Hp Hr t. unfold primary_analysis. rewrite Hp.
  unfold try_catch, bind, lift, call, ret.
  destruct (build_search_context rt cd) as [ctx|e].
  - destruct (Hr t data (search_context_arg ctx)) as [e ->].
    exists [EvGemini data (search_context_arg ctx)]. eexists.
    repeat split.
  - exists []. eexists. rewrite app_nil_r. repeat split.
Qed.

Lemma secondary_analysis_returns (w : world) (data ai : dict) :
  returns any_event
    (fun ai' => forall k, String.eqb k "huggingface_ultra_real" = false ->
                          lookup k ai' = lookup k ai)
    (secondary_analysis w data ai).
Proof.
  unfold secondary_analysis. apply returns_try_catch.
  - eapply emits_bind with (Q := fun _ => True);
      [apply emits_call; auto|]. intros _ _.
    eapply emits_bind with (Q := fun _ => True);
      [apply emits_call; auto|]. intros available _.
    destruct (truthy available); [|now apply emits_ret].
    eapply emits_bind with (Q := fun _ => True);
      [apply emits_call; auto|]. intros hf _.
    destruct (truthy hf); [|now apply emits_ret].
    apply emits_ret. intros k Hk. now apply lookup_dict_set_neq.
  - intros e. now apply returns_ret.
Qed.

Lemma lookup_cross_analysis (k : string) (ai : dict) :
  String.eqb k "cross_validation_real" = false ->
  lookup k (cross_analysis ai) = lookup k ai.
Proof.
  intros H. unfold cross_analysis.
  destruct (1 <? Z.of_nat (List.length ai)); [|reflexivity].
  now apply lookup_dict_set_neq.
Qed.

(** The synthesizer never raises, and the entry of the primary LLM is
    what [primary_analysis] left. *)
Lemma run_multi_returns (rt : runtime) (w : world) (data cd : dict)
    (X : option value) :
  returns any_event (fun ai => lookup "gemini_ultra_real" ai = X)
    (primary_analysis rt w data cd []) ->
  returns any_event (fun ai => lookup "gemini_ultra_real" ai = X)
    (_run_multi_ai_ultra_real_analysis rt w data cd).
Proof.
  intros H. unfold _run_multi_ai_ultra_real_analysis.
  eapply returns_bind; [exact H|]. intros ai1 H1.
  eapply returns_bind; [apply secondary_analysis_returns|]. intros ai2 H2.
  apply returns_ret. rewrite lookup_cross_analysis by reflexivity.
  now rewrite H2 by reflexivity.
Qed.

Lemma returns_ok {A : Type} P (Q : A -> Prop) (m : M A) t t' a :
  returns P Q m -> m t = (t', Ok a) -> Q a.
Proof.
  intros H E. destruct (H t) as (l & a' & E' & _ & Ha).
  rewrite E in E'. now injection E' as _ <-.
Qed.

Lemma run_multi_substitutes (rt : runtime) (w : world) (data cd : dict) :
  gemini_client_present w = true ->
  (forall t d c, exists e, generate_ultra_detailed_analysis w t d c = Err e) ->
  returns any_event
    (fun ai => lookup "gemini_ultra_real" ai
               = Some (VDict (_generate_basic_real_gemini_analysis rt data)))
    (_run_multi_ai_ultra_real_analysis rt w data cd).
Proof.
  intros Hp Hr. apply run_multi_returns.
  eapply returns_weaken;
    [| |apply (primary_analysis_substitutes rt w data cd [] Hp Hr)]; auto.
  now intros ai ->.
Qed.

Lemma run_multi_without_llm (rt : runtime) (w : world) (data cd : dict) :
  gemini_client_present w = false ->
  returns any_event (fun ai => lookup "gemini_ultra_real" ai = None)
    (_run_multi_ai_ultra_real_analysis rt w data cd).
Proof.
  intros Hp. apply run_multi_returns.
  rewrite primary_analysis_absent by exact Hp. now apply returns_ret.
Qed.

(** The keys of a consolidated document that the consolidator does not
    write are those of its base. *)
Lemma consolidated_lookup_base (rt : runtime) (data cd ai doc base : dict)
    (k : string) :
  _consolidate_ultra_real_analysis rt data cd ai = Ok doc ->
  main_analysis_of rt data ai = VDict base ->
  existsb (String.eqb k)
    ["pesquisa_web_real_detalhada"; "inteligencia_mercado_real_ultra";
     "analise_concorrencia_real_ultra"; "analise_tendencias_real_ultra";
     "insights_exclusivos_real_ultra"; "plano_implementacao_real_completo";
     "metricas_sucesso_real_avancadas"; "cronograma_real_365_dias";
     "sistema_monitoramento_real"] = false ->
  lookup k doc = lookup k base.
Proof.
  intros C B H.
  apply consolidate_ok in C
    as (base' & i & p & me & ti & mo & B' & _ & _ & _ & _ & _ & ->).
  rewrite B in B'. injection B' as <-.
  cbn [existsb] in H. repeat (apply orb_false_iff in H as [? H]).
  rewrite !lookup_dict_set_neq by assumption.
  now rewrite !lookup_attach_dict_neq by assumption.
Qed.

Lemma consolidated_insights (rt : runtime) (data cd ai doc : dict) :
  _consolidate_ultra_real_analysis rt data cd ai = Ok doc ->
  exists l,
    lookup "insights_exclusivos_real_ultra" doc = Some (VList l) /\
    List.length l = 20%nat.
Proof.
  intros C.
  apply consolidate_ok in C
    as (base & i & p & me & ti & mo & _ & I & _ & _ & _ & _ & ->).
  apply insights_are_twenty in I as (l & -> & L).
  exists l. split; [|exact L].
  rewrite !lookup_dict_set_neq by reflexivity. apply lookup_dict_set_same.
Qed.

(** The base of the consolidated document after a synthesizer whose
    primary entry is absent, or is the substituted template. *)
Lemma main_analysis_local (rt : runtime) (data ai : dict) :
  (lookup "gemini_ultra_real" ai = None ->
   main_analysis_of rt data ai = VDict (_generate_basic_real_analysis rt data)) /\
  (lookup "gemini_ultra_real" ai
     = Some (VDict (_generate_basic_real_gemini_analysis rt data)) ->
   main_analysis_of rt data ai
     = VDict (_generate_basic_real_gemini_analysis rt data)).
Proof.
  unfold main_analysis_of, get_default. split; intros ->; reflexivity.
Qed.



(** C4. When the base of the consolidated document is a local basic
    analysis, the keys the scorer reads ([insights_exclusivos_ultra],
    [plano_implementacao_completo], [metricas_sucesso_avancadas],
    [pesquisa_web_detalhada], [inteligencia_mercado_ultra]) are not in
    the document: the consolidator writes [insights_exclusivos_real_ultra]
    (twenty insights), [plano_implementacao_real_completo] and
    [metricas_sucesso_real_avancadas]. So when no primary LLM is
    configured, or its call raises, the metadata of a document the
    pipeline returns has [unique_insights_generated] 0 beside a list of
    twenty insights. *)
Theorem scorer_keys_absent_on_local_base (rt : runtime) (data : dict) :
  (forall cd ai doc,
     main_analysis_of rt data ai = VDict (_generate_basic_real_analysis rt data)
     \/ main_analysis_of rt data ai
        = VDict (_generate_basic_real_gemini_analysis rt data) ->
     _consolidate_ultra_real_analysis rt data cd ai = Ok doc ->
     lookup "insights_exclusivos_ultra" doc = None /\
     lookup "plano_implementacao_completo" doc = None /\
     lookup "metricas_sucesso_avancadas" doc = None /\
     lookup "pesquisa_web_detalhada" doc = None /\
     lookup "inteligencia_mercado_ultra" doc = None /\
     has_key "plano_implementacao_real_completo" doc = true /\
     has_key "metricas_sucesso_real_avancadas" doc = true /\
     exists l,
       lookup "insights_exclusivos_real_ultra" doc = Some (VList l) /\
       List.length l = 20%nat) /\
  (forall w sid start t t' out,
     gemini_client_present w = false \/
     (gemini_client_present w = true /\
      forall t0 d c, exists e, generate_ultra_detailed_analysis w t0 d c = Err e) ->
     analysis_pipeline rt w data sid start t = (t', Ok out) ->
     exists md l,
       lookup "metadata_ultra_detalhado" out = Some (VDict md) /\
       lookup "unique_insights_generated" md = Some (VInt 0) /\
       lookup "insights_exclusivos_real_ultra" out = Some (VList l) /\
       List.length l = 20%nat /\
       lookup "insights_exclusivos_ultra" out = None).
Proof.
  assert (A : forall cd ai doc,
             main_analysis_of rt data ai
               = VDict (_generate_basic_real_analysis rt data)
             \/ main_analysis_of rt data ai
                = VDict (_generate_basic_real_gemini_analysis rt data) ->
             _consolidate_ultra_real_analysis rt data cd ai = Ok doc ->
             lookup "insights_exclusivos_ultra" doc = None /\
             lookup "plano_implementacao_completo" doc = None /\
             lookup "metricas_sucesso_avancadas" doc = None /\
             lookup "pesquisa_web_detalhada" doc = None /\
             lookup "inteligencia_mercado_ultra" doc = None /\
             has_key "plano_implementacao_real_completo" doc = true /\
             has_key "metricas_sucesso_real_avancadas" doc = true /\
             exists l,
               lookup "insights_exclusivos_real_ultra" doc = Some (VList l) /\
               List.length l = 20%nat).
  { intros cd ai doc B C.
    pose proof (consolidated_insights rt data cd ai doc C) as I.
    assert (K : has_key "plano_implementacao_real_completo" doc = true /\
                has_key "metricas_sucesso_real_avancadas" doc = true).
    { apply consolidate_ok in C
        as (base & i & p & me & ti & mo & _ & _ & _ & _ & _ & _ & ->).
      rewrite !has_key_dict_set. split; reflexivity. }
    destruct K as [K1 K2].
    destruct B as [B | B];
      rewrite !(fun k H => consolidated_lookup_base rt data cd ai doc _ k C B H)
        by reflexivity;
      repeat split; assumption. }
  split; [exact A|].
  intros w sid start t t' out Hw H.
  apply pipeline_ok in H
    as (t1 & cd & t2 & ai & final & n & q & m & g & el
        & _ & R & C & _ & Hm & ->).
  assert (B : main_analysis_of rt data ai
                = VDict (_generate_basic_real_analysis rt data)
              \/ main_analysis_of rt data ai
                 = VDict (_generate_basic_real_gemini_analysis rt data)).
  { destruct Hw as [Hp | [Hp Hr]].
    - left. apply main_analysis_local.
      exact (returns_ok _ _ _ _ _ _ (run_multi_without_llm rt w data cd Hp) R).
    - right. apply main_analysis_local.
      exact (returns_ok _ _ _ _ _ _ (run_multi_substitutes rt w data cd Hp Hr) R). }
  destruct (A cd ai final B C) as (N & _ & _ & _ & _ & _ & _ & l & L & Len).
  unfold get_default in Hm. rewrite N in Hm. injection Hm as <-.
  assert (L' : lookup "insights_exclusivos_real_ultra"
                 (dict_set "metadata_ultra_detalhado"
                    (analysis_metadata rt el n (Z.of_nat (List.length ai)) g q
                       (_calculate_completeness_score final)
                       (get_default cd "research_iterations" (VInt 0))
                       (get_default cd "total_content_length" (VInt 0)) 0)
                    final) = Some (VList l)).
  { now rewrite lookup_dict_set_neq by reflexivity. }
  assert (N' : lookup "insights_exclusivos_ultra"
                 (dict_set "metadata_ultra_detalhado"
                    (analysis_metadata rt el n (Z.of_nat (List.length ai)) g q
                       (_calculate_completeness_score final)
                       (get_default cd "research_iterations" (VInt 0))
                       (get_default cd "total_content_length" (VInt 0)) 0)
                    final) = None).
  { now rewrite lookup_dict_set_neq by reflexivity. }
  rewrite lookup_dict_set_same. unfold analysis_metadata.
  eexists. exists l. split; [reflexivity|].
  split; [reflexivity|]. repeat split; assumption.
Qed.

Lemma scorer_keys_absent_on_local_base_witness :
  exists t' out md l,
    analysis_pipeline Sample.rt0 Sample.w_offline Sample.request_saude VNone
      0%float [] = (t', Ok out) /\
    lookup "metadata_ultra_detalhado" out = Some (VDict md) /\
    lookup "unique_insights_generated" md = Some (VInt 0) /\
    lookup "insights_exclusivos_real_ultra" out = Some (VList l) /\
    List.length l = 20%nat /\
    lookup "insights_exclusivos_ultra" out = None.
Proof.
  assert (E : exists t' out,
             analysis_pipeline Sample.rt0 Sample.w_offline Sample.request_saude
               VNone 0%float [] = (t', Ok out)).
  { eexists. eexists. vm_compute. reflexivity. }
  destruct E as (t' & out & E).
  destruct (proj2 (scorer_keys_absent_on_local_base Sample.rt0
                     Sample.request_saude)
              Sample.w_offline VNone 0%float [] t' out (or_introl eq_refl) E)
    as (md & l & H).
  exists t', out, md, l. split; [exact E | exact H].
Defined.

(** ** The scenario of claim C3 *)

Lemma normalized_request_moda (rt : runtime) :
  float_of_str rt "50000.50" = Some 50000.5%float ->
  normalize_numeric_fields rt Sample.request_moda
  = [("segmento", VStr "moda"); ("objetivo_receita", VStr "50000,50");
     ("objetivo_receita_float", VFloat 50000.5)].
Proof.
  intros H. unfold normalize_numeric_fields, numeric_fields, Sample.request_moda.
  cbn [fold_left]. unfold normalize_field, float_or_zero. cbn. rewrite H.
  reflexivity.
Qed.

(** The plan multiplies what is under [objetivo_receita]; a string there
    makes the consolidator raise. *)
Lemma plan_raises_on_text (rt : runtime) (data : dict) (s : string) :
  lookup "objetivo_receita" data = Some (VStr s) ->
  _create_complete_real_implementation_plan rt data
  = Err (Raised TypeError "can't multiply sequence by non-int of type 'float'").
Proof.
  intros H. unfold _create_complete_real_implementation_plan, get_default.
  rewrite H. reflexivity.
Qed.

(** C3, on the code. For the request
    [{segmento: "moda", objetivo_receita: "50000,50"}] the number 50000.5
    is stored under [objetivo_receita_float], but the implementation plan
    reads [objetivo_receita], which still holds the text: the plan raises
    TypeError, the orchestrator answers with the fallback document, and
    the response has no [plano_implementacao_real_completo]. Given the
    number itself under [objetivo_receita], the plan's first phase reads
    "R$ 7,500 - R$ 12,500", the integer parts of 15% and 25% of 50000.5. *)
Theorem moda_request_gets_no_plan (rt : runtime) (w : world) (t : trace) :
  float_of_str rt "50000.50" = Some 50000.5%float ->
  lookup "objetivo_receita_float"
    (normalize_numeric_fields rt Sample.request_moda)
    = Some (VFloat 50000.5) /\
  _create_complete_real_implementation_plan rt
    (normalize_numeric_fields rt Sample.request_moda)
    = Err (Raised TypeError "can't multiply sequence by non-int of type 'float'") /\
  (exists t' doc md,
     analyze_market rt w (Ok (VDict Sample.request_moda)) t
       = (t', Ok {| status := 200; body := VDict doc |}) /\
     lookup "plano_implementacao_real_completo" doc = None /\
     lookup "metadata_ultra_detalhado" doc = Some (VDict md) /\
     lookup "emergency_mode" md = Some (VBool true)) /\
  (exists plan fase_1,
     _create_complete_real_implementation_plan rt
       [("segmento", VStr "moda"); ("objetivo_receita", VFloat 50000.5)]
       = Ok plan /\
     obj_get plan "fase_1_fundacao_real" VNone = Ok fase_1 /\
     obj_get fase_1 "investimento_estimado" VNone
       = Ok (VStr "R$ 7,500 - R$ 12,500")).
Proof.
  intros H. pose proof (normalized_request_moda rt H) as N.
  split; [now rewrite N|].
  split; [rewrite N; now apply plan_raises_on_text with (s := "50000,50")|].
  split; [|eexists; eexists; repeat split].
  rewrite (analyze_market_validated rt w Sample.request_moda t eq_refl).
  pose proof (generate_unfold rt w (normalize_numeric_fields rt Sample.request_moda)
                (if truthy (get (normalize_numeric_fields rt Sample.request_moda)
                              "session_id")
                 then get (normalize_numeric_fields rt Sample.request_moda)
                        "session_id"
                 else flask_session_id w) t) as G.
  destruct (analysis_pipeline rt w
              (normalize_numeric_fields rt Sample.request_moda)
              (if truthy (get (normalize_numeric_fields rt Sample.request_moda)
                            "session_id")
               then get (normalize_numeric_fields rt Sample.request_moda)
                      "session_id"
               else flask_session_id w) (time_time w t) (t ++ [EvTime])%list)
    as [t1 [out|e]] eqn:E.
  - exfalso.
    apply pipeline_ok in E
      as (t1' & cd & t2 & ai & final & n & q & m & g & el
          & _ & _ & C & _).
    apply consolidate_ok in C as (base & i & p & me & ti & mo & _ & _ & P & _).
    rewrite N in P.
    rewrite (plan_raises_on_text rt
               [("segmento", VStr "moda"); ("objetivo_receita", VStr "50000,50");
                ("objetivo_receita_float", VFloat 50000.5)]
               "50000,50" eq_refl) in P.
    discriminate P.
  - destruct (run_analysis_unfold rt w Sample.request_moda t _ _ G)
      as (t2 & doc & R & F).
    exists t2, doc.
    exists [("processing_time_seconds", VInt 0);
            ("analysis_engine", VStr "Emergency Fallback Ultra REAL");
            ("generated_at", VStr (utcnow_isoformat w t1));
            ("quality_score", VFloat 35);
            ("completeness_score", VFloat 25);
            ("error", VStr (exn_text e));
            ("recommendation",
             VStr "Execute nova análise com configuração completa das APIs REAIS");
            ("real_data_guarantee", VBool false);
            ("emergency_mode", VBool true)].
    split; [exact R|].
    rewrite !F by reflexivity.
    unfold emergency_document. cbv zeta.
    rewrite lookup_dict_set_same.
    rewrite !lookup_dict_set_neq by reflexivity.
    split; [reflexivity|]. split; reflexivity.
Qed.

Lemma moda_request_gets_no_plan_witness :
  exists t' doc md,
    analyze_market Sample.rt0 Sample.w_llm_raises (Ok (VDict Sample.request_moda)) []
      = (t', Ok {| status := 200; body := VDict doc |}) /\
    lookup "plano_implementacao_real_completo" doc = None /\
    lookup "metadata_ultra_detalhado" doc = Some (VDict md) /\
    lookup "emergency_mode" md = Some (VBool true).
Proof.
  exact (proj1 (proj2 (proj2
           (moda_request_gets_no_plan Sample.rt0 Sample.w_llm_raises []
              eq_refl)))).
Defined.

(** * Further properties of the code *)

(** ** The listing route *)

Lemma filter_analyses_ok (rt : runtime) (segmento : string)
    (items kept : list value) :
  filter_analyses rt segmento items = Ok kept ->
  kept = filter (fun a => match nicho_matches rt segmento a with
                          | Ok true => true
                          | _ => false
                          end) items.
Proof.
  revert kept. induction items as [|a items IH]; intros kept; simpl.
  - now intros [= <-].
  - intros H. apply rbind_ok in H as (keep & E & H).
    apply rbind_ok in H as (kept' & E' & H). injection H as <-.
    rewrite E, (IH kept' E'). now destruct keep.
Qed.

(** X1. [list_analyses] asks the data store for [min(limit, 100)] analyses,
    20 when no limit is given, at the requested offset, and that is the
    only call it makes; a successful answer echoes the effective limit
    and the offset. The limit is capped from above only: a limit below
    100, negative ones included, goes to the store as it is. *)
Theorem list_analyses_caps_limit
    (rt : runtime) (sv : services) (args : list (string * string))
    (requested offset : Z) :
  int_arg rt args "limit" 20 = Ok requested ->
  int_arg rt args "offset" 0 = Ok offset ->
  fst (list_analyses rt sv args)
    = [CallListAnalyses (Z.min requested 100) offset] /\
  Z.min requested 100 <= 100 /\
  (requested <= 100 -> Z.min requested 100 = requested) /\
  (assoc "limit" args = None -> requested = 20) /\
  (status (snd (list_analyses rt sv args)) = 200 ->
   obj_get (body (snd (list_analyses rt sv args))) "limit" VNone
     = Ok (VInt (Z.min requested 100)) /\
   obj_get (body (snd (list_analyses rt sv args))) "offset" VNone
     = Ok (VInt offset)).
Proof.
  intros Hl Ho. unfold list_analyses. rewrite Hl, Ho. cbv zeta.
  split; [|split; [lia|split; [lia|split]]].
  - destruct (db_list_analyses sv (Z.min requested 100) offset) as [page|e];
      [|reflexivity].
    now destruct (listing rt args (Z.min requested 100) offset page).
  - intros Hn. unfold int_arg in Hl. rewrite Hn in Hl. now injection Hl.
  - destruct (db_list_analyses sv (Z.min requested 100) offset) as [page|e];
      [|discriminate].
    destruct (listing rt args (Z.min requested 100) offset page) as [r|e] eqn:E;
      [|discriminate].
    intros _. unfold listing in E.
    apply rbind_ok in E as (analyses & _ & E).
    apply rbind_ok in E as (count & _ & E). injection E as <-.
    split; reflexivity.
Qed.

Lemma list_analyses_caps_limit_witness :
  fst (list_analyses Sample.rt0 SampleStore.sv0 [("limit", "500")])
    = [CallListAnalyses 100 0] /\
  obj_get (body (snd (list_analyses Sample.rt0 SampleStore.sv0
                        [("limit", "500")]))) "limit" VNone
    = Ok (VInt 100).
Proof.
  pose proof (list_analyses_caps_limit Sample.rt0 SampleStore.sv0
                [("limit", "500")] 500 0 eq_refl eq_refl)
    as (H1 & _ & _ & _ & H5).
  split; [exact H1 | apply H5; reflexivity].
Defined.

(** X2. With a non-empty [segmento] filter, a successful listing holds
    exactly the analyses of the store's page whose [nicho] contains the
    filter, case-insensitively, in the store's order, and [count] is
    their number: the filter is applied after the page is cut, so [count]
    can be below the limit while further matches remain in the store. *)
Theorem list_analyses_filters_page
    (rt : runtime) (sv : services) (args : list (string * string))
    (segmento : string) :
  assoc "segmento" args = Some segmento ->
  segmento <> EmptyString ->
  status (snd (list_analyses rt sv args)) = 200 ->
  exists limit offset page items,
    fst (list_analyses rt sv args) = [CallListAnalyses limit offset] /\
    db_list_analyses sv limit offset = Ok page /\
    py_iter page = Ok items /\
    body (snd (list_analyses rt sv args))
      = VDict [
          ("analyses",
           VList (filter (fun a => match nicho_matches rt segmento a with
                                   | Ok true => true
                                   | _ => false
                                   end) items));
          ("count",
           VInt (Z.of_nat
                   (List.length
                      (filter (fun a => match nicho_matches rt segmento a with
                                        | Ok true => true
                                        | _ => false
                                        end) items))));
          ("limit", VInt limit);
          ("offset", VInt offset)] /\
    (List.length
       (filter (fun a => match nicho_matches rt segmento a with
                         | Ok true => true
                         | _ => false
                         end) items) <= List.length items)%nat.
Proof.
  intros Hs Hne. unfold list_analyses.
  destruct (int_arg rt args "limit" 20) as [requested|e]; [|discriminate].
  destruct (int_arg rt args "offset" 0) as [offset|e]; [|discriminate].
  cbv zeta.
  destruct (db_list_analyses sv (Z.min requested 100) offset) as [page|e] eqn:D;
    [|discriminate].
  destruct (listing rt args (Z.min requested 100) offset page) as [r|e] eqn:E;
    [|discriminate].
  intros _. unfold listing in E. rewrite Hs in E.
  destruct (String.eqb segmento EmptyString) eqn:Q.
  { apply String.eqb_eq in Q. contradiction. }
  apply rbind_ok in E as (analyses & A & E).
  apply rbind_ok in A as (items & I & A).
  apply rbind_ok in A as (kept & K & A). injection A as <-.
  apply filter_analyses_ok in K. subst kept.
  cbn [py_len rbind] in E. injection E as <-.
  exists (Z.min requested 100), offset, page, items.
  repeat split; try assumption. apply filter_length_le.
Qed.

Lemma list_analyses_filters_page_witness :
  body (snd (list_analyses Sample.rt0 SampleStore.sv0
               [("segmento", "MODA"); ("limit", "2")]))
  = VDict [
      ("analyses", VList [VDict [("id", VInt 1); ("nicho", VStr "Moda feminina")]]);
      ("count", VInt 1);
      ("limit", VInt 2);
      ("offset", VInt 0)].
Proof.
  destruct (list_analyses_filters_page Sample.rt0 SampleStore.sv0
              [("segmento", "MODA"); ("limit", "2")] "MODA" eq_refl
              ltac:(discriminate) eq_refl)
    as (limit & offset & page & items & C & D & I & B & _).
  injection C as <- <-.
  vm_compute in D. injection D as <-.
  vm_compute in I. injection I as <-.
  rewrite B. reflexivity.
Defined.

(** ** The upload, deep-search and fetch routes *)

(** X3. [upload_attachment] reaches the attachment service only with a
    file whose name is not empty: without a [file] part, or with an empty
    file name, it answers 400 and calls nothing. Otherwise it calls the
    service once, with the session id of the form or "default_session",
    and answers 200 exactly when the service returns a mapping whose
    [success] is true, with the service's document as the body. *)
Theorem upload_attachment_outcomes (sv : services) (rq : upload_request) :
  (assoc "file" (files rq) = None \/
   assoc "file" (files rq) = Some EmptyString ->
   fst (upload_attachment sv rq) = [] /\
   status (snd (upload_attachment sv rq)) = 400) /\
  (forall filename,
     assoc "file" (files rq) = Some filename ->
     filename <> EmptyString ->
     fst (upload_attachment sv rq)
       = [CallProcessAttachment filename
            (match assoc "session_id" (form rq) with
             | Some s => s
             | None => "default_session"
             end)] /\
     (status (snd (upload_attachment sv rq)) = 200 <->
      exists result,
        attachment_process sv filename
          (match assoc "session_id" (form rq) with
           | Some s => s
           | None => "default_session"
           end) = Ok (VDict result) /\
        truthy (get result "success") = true /\
        body (snd (upload_attachment sv rq)) = VDict result)).
Proof.
  unfold upload_attachment. split.
  - intros [H | H]; rewrite H; split; reflexivity.
  - intros filename H Hne. rewrite H.
    destruct (String.eqb filename EmptyString) eqn:Q.
    { apply String.eqb_eq in Q. contradiction. }
    cbv zeta.
    destruct (attachment_process sv filename _) as [result|e] eqn:P.
    + destruct result as [| | | | | |d]; simpl;
        try (split; [reflexivity|];
             split; [discriminate | intros (r & [=] & _)]).
      unfold get.
      destruct (truthy (get_default d "success" VNone)) eqn:T; simpl.
      * split; [reflexivity|]. split; [|reflexivity].
        intros _. exists d. repeat split; assumption.
      * split; [reflexivity|].
        split; [discriminate|]. intros (r & [= <-] & T' & _). congruence.
    + simpl. split; [reflexivity|].
      split; [discriminate | intros (r & [=] & _)].
Qed.

Lemma upload_attachment_outcomes_witness :
  fst (upload_attachment SampleStore.sv0
         {| files := [("file", "briefing.pdf")]; form := [] |})
    = [CallProcessAttachment "briefing.pdf" "default_session"] /\
  fst (upload_attachment SampleStore.sv0
         {| files := [("file", EmptyString)]; form := [("session_id", "s1")] |})
    = [].
Proof.
  split.
  - apply (upload_attachment_outcomes SampleStore.sv0
             {| files := [("file", "briefing.pdf")]; form := [] |});
      [reflexivity | discriminate].
  - apply (upload_attachment_outcomes SampleStore.sv0
             {| files := [("file", EmptyString)];
                form := [("session_id", "s1")] |}).
    right. reflexivity.
Defined.

(** X4. [perform_deep_search] calls the deep-search service only for a
    mapping with a non-empty [query]. A parsed body that is empty, or a
    mapping whose [query] is missing or empty, is answered 400 with no
    call; a body that cannot be parsed ([request.get_json()] raises, as
    it does for an absent body) or that is a non-empty value other than
    a mapping is answered 500 with the exception's text, with no call
    either. For a mapping with a query there is one call, with the query
    and the request's [context] (an empty mapping when absent); the
    answer is 200 and echoes query, context and the service's result
    when the service returns, and 500 with the exception's text when it
    raises. *)
Theorem perform_deep_search_outcomes
    (sv : services) (get_json : result value) :
  (forall request_json,
     get_json = Ok request_json ->
     truthy request_json = false \/
     (exists data, request_json = VDict data /\
                   truthy (get data "query") = false) ->
     perform_deep_search sv get_json = ([], missing_query)) /\
  (forall e,
     get_json = Err e \/
     (exists request_json,
        get_json = Ok request_json /\ truthy request_json = true /\
        (forall data, request_json <> VDict data) /\
        e = no_attribute request_json "get") ->
     perform_deep_search sv get_json = ([], deep_search_error e)) /\
  (forall data,
     get_json = Ok (VDict data) ->
     truthy (get data "query") = true ->
     fst (perform_deep_search sv get_json)
       = [CallDeepSearch (get data "query")
            (get_default data "context" (VDict []))] /\
     (forall result,
        deep_search sv (get data "query") (get_default data "context" (VDict []))
          = Ok result ->
        snd (perform_deep_search sv get_json)
        = {| status := 200;
             body := VDict [
               ("query", get data "query");
               ("context", get_default data "context" (VDict []));
               ("result", result);
               ("timestamp", VStr (now_isoformat sv))] |}) /\
     (forall e,
        deep_search sv (get data "query") (get_default data "context" (VDict []))
          = Err e ->
        snd (perform_deep_search sv get_json) = deep_search_error e)).
Proof.
  unfold perform_deep_search. split; [|split].
  - intros request_json -> [H | (data & -> & H)].
    + now rewrite H.
    + destruct (truthy (VDict data)); [|reflexivity]. cbn [negb obj_get].
      unfold get in H. now rewrite H.
  - intros e [-> | (request_json & -> & H & N & ->)]; [reflexivity|].
    rewrite H. cbn [negb].
    destruct request_json; try reflexivity. now elim (N d).
  - intros data -> H.
    assert (N : truthy (VDict data) = true).
    { destruct data; [discriminate H | reflexivity]. }
    rewrite N. cbn [negb obj_get]. unfold get in *. rewrite H. cbn [negb].
    destruct (deep_search sv (get_default data "query" VNone)
                (get_default data "context" (VDict []))) as [result|e].
    + split; [reflexivity|]. split.
      * now intros r [= <-].
      * intros; discriminate.
    + split; [reflexivity|]. split.
      * intros; discriminate.
      * now intros e' [= <-].
Qed.

Lemma perform_deep_search_outcomes_witness :
  perform_deep_search SampleStore.sv0
    (Ok (VDict [("query", VStr EmptyString)]))
    = ([], missing_query) /\
  perform_deep_search SampleStore.sv0
    (Err (Raised OtherError "415 Unsupported Media Type"))
    = ([], deep_search_error (Raised OtherError "415 Unsupported Media Type")) /\
  fst (perform_deep_search SampleStore.sv0
         (Ok (VDict [("query", VStr "mercado de moda")])))
    = [CallDeepSearch (VStr "mercado de moda") (VDict [])].
Proof.
  split; [|split].
  - apply (proj1 (perform_deep_search_outcomes SampleStore.sv0
                    (Ok (VDict [("query", VStr EmptyString)])))
             _ eq_refl).
    right. eexists. split; reflexivity.
  - apply (proj1 (proj2 (perform_deep_search_outcomes SampleStore.sv0
                           (Err (Raised OtherError
                                   "415 Unsupported Media Type"))))).
    now left.
  - apply (proj2 (proj2 (perform_deep_search_outcomes SampleStore.sv0
                           (Ok (VDict [("query", VStr "mercado de moda")]))))
             [("query", VStr "mercado de moda")] eq_refl eq_refl).
Defined.

(** X5. [get_analysis] asks the data store once for the given id; it
    answers 404 (naming the id) exactly when the store returns an empty
    value, 200 with the stored record exactly when the store returns a
    non-empty one, and 500 exactly when the store raises. *)
Theorem get_analysis_outcomes (sv : services) (analysis_id : Z) :
  fst (get_analysis sv analysis_id) = [CallGetAnalysis analysis_id] /\
  (status (snd (get_analysis sv analysis_id)) = 404 <->
   exists analysis,
     db_get_analysis sv analysis_id = Ok analysis /\ truthy analysis = false) /\
  (status (snd (get_analysis sv analysis_id)) = 200 <->
   exists analysis,
     db_get_analysis sv analysis_id = Ok analysis /\ truthy analysis = true /\
     body (snd (get_analysis sv analysis_id)) = analysis) /\
  (status (snd (get_analysis sv analysis_id)) = 500 <->
   exists e, db_get_analysis sv analysis_id = Err e) /\
  (status (snd (get_analysis sv analysis_id)) = 404 ->
   obj_get (body (snd (get_analysis sv analysis_id))) "message" VNone
   = Ok (VStr ("Análise com ID " ++ str_of_Z analysis_id ++ " não existe"))).
Proof.
  unfold get_analysis. cbv zeta.
  destruct (db_get_analysis sv analysis_id) as [analysis|e].
  - destruct (truthy analysis) eqn:T; simpl.
    + split; [reflexivity|]. split; [|split; [|split; [|discriminate]]].
      * split; [discriminate|]. intros (a & [= <-] & T'). congruence.
      * split; [|reflexivity]. intros _. exists analysis. now repeat split.
      * split; [discriminate|]. intros (e & [=]).
    + split; [reflexivity|]. split; [|split; [|split; [|reflexivity]]].
      * split; [|reflexivity]. intros _. exists analysis. now split.
      * split; [discriminate|]. intros (a & [= <-] & T' & _). congruence.
      * split; [discriminate|]. intros (e & [=]).
  - simpl. split; [reflexivity|]. split; [|split; [|split; [|discriminate]]].
    + split; [discriminate|]. intros (a & [=] & _).
    + split; [discriminate|]. intros (a & [=] & _).
    + split; [|reflexivity]. intros _. now exists e.
Qed.

Lemma get_analysis_outcomes_witness :
  status (snd (get_analysis SampleStore.sv0 7)) = 404 /\
  status (snd (get_analysis SampleStore.sv0 2)) = 200.
Proof.
  split.
  - apply (proj1 (proj2 (get_analysis_outcomes SampleStore.sv0 7))).
    exists VNone. split; reflexivity.
  - apply (proj1 (proj2 (proj2 (get_analysis_outcomes SampleStore.sv0 2)))).
    eexists. repeat split.
Defined.

(** ** How many queries a request costs *)

Lemma count_navigate_app (l l' : trace) :
  count_navigate (l ++ l')%list
  = (count_navigate l + count_navigate l')%nat.
Proof. unfold count_navigate. now rewrite filter_app, length_app. Qed.

Lemma count_navigate_none (l : trace) :
  forallb not_navigate l = true -> count_navigate l = 0%nat.
Proof.
  unfold count_navigate, not_navigate. induction l as [|ev l IH]; simpl.
  - reflexivity.
  - destruct (is_navigate ev); simpl; [discriminate | exact IH].
Qed.

Lemma at_most_silent {A : Type} (Q : A -> Prop) (m : M A) (n : nat) :
  emits not_navigate Q m -> queries_at_most n m.
Proof.
  intros H t. destruct (H t) as (l & E & Hl & _). exists l.
  split; [exact E|]. rewrite (count_navigate_none l Hl). lia.
Qed.

Lemma at_most_bind {A B : Type} (a b : nat) (m : M A) (k : A -> M B) :
  queries_at_most a m ->
  (forall x, queries_at_most b (k x)) ->
  queries_at_most (a + b) (bind m k).
Proof.
  intros Hm Hk t. destruct (Hm t) as (l & E & Hl).
  unfold bind. destruct (m t) as [t' [x|e]]; simpl in E; subst t'.
  - destruct (Hk x (t ++ l)%list) as (l' & E' & Hl').
    exists (l ++ l')%list. rewrite E', app_assoc, count_navigate_app.
    split; [reflexivity | lia].
  - exists l. split; [reflexivity | lia].
Qed.

Lemma at_most_try_catch {A : Type} (a b : nat) (m : M A) (h : exn -> M A) :
  queries_at_most a m ->
  (forall e, queries_at_most b (h e)) ->
  queries_at_most (a + b) (try_catch m h).
Proof.
  intros Hm Hh t. destruct (Hm t) as (l & E & Hl).
  unfold try_catch. destruct (m t) as [t' [x|e]]; simpl in E; subst t'.
  - exists l. split; [reflexivity | lia].
  - destruct (Hh e (t ++ l)%list) as (l' & E' & Hl').
    exists (l ++ l')%list. rewrite E', app_assoc, count_navigate_app.
    split; [reflexivity | lia].
Qed.

Lemma at_most_for_each {A S : Type} (l : list A) (body : A -> S -> M S) :
  (forall x s, queries_at_most 1 (body x s)) ->
  forall s, queries_at_most (List.length l) (for_each l body s).
Proof.
  intros Hb. induction l as [|x l IH]; intros s; simpl.
  - intros t. exists []. rewrite app_nil_r.
    split; [reflexivity | unfold count_navigate; simpl; lia].
  - apply (at_most_bind 1 (List.length l)); [apply Hb | apply IH].
Qed.

Lemma web_research_step_at_most (w : world) (data : dict) (iq : Z * string)
    (cd : dict) :
  queries_at_most 1 (web_research_step w data iq cd).
Proof.
  destruct iq as [i query]. unfold web_research_step.
  apply (at_most_bind 1 0).
  - intros t. eexists. split; [reflexivity|]. unfold count_navigate. simpl. lia.
  - intros web_result. apply (at_most_silent (fun _ => True)).
    emits_any; reflexivity.
Qed.

Lemma enumerate_from_length {A : Type} (l : list A) (i : Z) :
  List.length (enumerate_from i l) = List.length l.
Proof. revert i. induction l; intros i; simpl; [reflexivity | now rewrite IHl]. Qed.

Lemma collector_at_most_ten (rt : runtime) (w : world) (data : dict)
    (sid : value) :
  queries_at_most 10 (_collect_ultra_comprehensive_real_data rt w data sid).
Proof.
  unfold _collect_ultra_comprehensive_real_data.
  apply (at_most_bind 0 10).
  - apply (at_most_silent (fun _ => True)).
    apply attachments_phase_emits. intros ev H. unfold not_navigate.
    now rewrite H.
  - intros cd. apply (at_most_bind 10 0).
    + unfold web_research_phase. apply (at_most_bind 0 10).
      * apply (at_most_silent (fun _ => True)). emits_any; reflexivity.
      * intros available. destruct (truthy available).
        -- pose proof (at_most_for_each
                         (enumerate_from 0
                            (_generate_ultra_comprehensive_real_queries rt data))
                         (web_research_step w data)
                         (web_research_step_at_most w data) cd) as H.
           now rewrite enumerate_from_length in H.
        -- apply (at_most_silent (fun _ => True)). emits_any.
    + intros cd'. apply (at_most_silent (fun _ => True)). emits_any.
Qed.

(** X6. Whatever the collaborators answer, one call of the route issues
    at most ten web-research queries: the query generator always yields
    ten queries (its cut at twelve never applies), the collector runs
    them once, and no other stage queries the agent. *)
Theorem at_most_ten_queries_per_request
    (rt : runtime) (w : world) (get_json : result value) (t : trace) :
  (forall data,
     List.length (_generate_ultra_comprehensive_real_queries rt data) = 10%nat) /\
  exists l,
    fst (analyze_market rt w get_json t) = (t ++ l)%list /\
    (count_navigate l <= 10)%nat.
Proof.
  split; [reflexivity|].
  assert (H : queries_at_most 10 (analyze_market rt w get_json)).
  { unfold analyze_market. apply (at_most_try_catch 10 0).
    - apply (at_most_bind 0 10);
        [apply (at_most_silent (fun _ => True)); emits_any|].
      intros request_json.
      destruct (negb (truthy request_json)).
      + apply (at_most_silent (fun _ => True)). emits_any.
      + apply (at_most_bind 0 10).
        * apply (at_most_silent (fun _ => True)). emits_any.
        * intros segmento. destruct (negb (truthy segmento)).
          -- apply (at_most_silent (fun _ => True)). emits_any.
          -- destruct request_json;
               try solve [apply (at_most_silent (fun _ => True)); emits_any].
             unfold run_analysis. cbv zeta.
             apply (at_most_bind 10 0).
             ++ unfold generate_ultra_comprehensive_analysis.
                apply (at_most_bind 0 10).
                ** apply (at_most_silent (fun _ => True)). emits_any; reflexivity.
                ** intros start. apply (at_most_try_catch 10 0).
                   --- unfold analysis_pipeline.
                       apply (at_most_bind 10 0);
                         [apply collector_at_most_ten|].
                       intros cd. apply (at_most_bind 0 0).
                       +++ apply (at_most_silent (fun _ => True)).
                           apply run_multi_emits. intros ev H.
                           unfold not_navigate. now rewrite H.
                       +++ intros ai. apply (at_most_silent (fun _ => True)).
                           emits_any; reflexivity.
                   --- intros e. apply (at_most_silent (fun _ => True)).
                       unfold _generate_emergency_ultra_real_fallback.
                       emits_any; reflexivity.
             ++ intros doc. apply (at_most_bind 0 0).
                ** apply (at_most_silent (fun _ => True)).
                   apply returns_emits.
                   eapply returns_weaken;
                     [| |apply (save_analysis_returns not_navigate)];
                     [auto | auto | reflexivity].
                ** intros doc'. apply (at_most_silent (fun _ => True)).
                   emits_any.
    - intros e. apply (at_most_silent (fun _ => True)).
      unfold internal_error. emits_any; reflexivity. }
  exact (H t).
Qed.

(** ** Counters of the collector *)

Lemma lookup_dict_add_same (k : string) (n z : Z) (d : dict) :
  lookup k d = Some (VInt z) ->
  lookup k (dict_add k n d) = Some (VInt (z + n)).
Proof.
  intros H. unfold dict_add. rewrite H. apply lookup_dict_set_same.
Qed.

Lemma process_attachments_frame (rt : runtime) (attachments : value)
    (cd cd' : dict) (k : string) :
  String.eqb k "attachments" = false ->
  String.eqb k "total_content_length" = false ->
  String.eqb k "real_data_sources" = false ->
  process_attachments rt attachments cd = Ok cd' ->
  lookup k cd' = lookup k cd.
Proof.
  intros H1 H2 H3. unfold process_attachments. intros H.
  apply rbind_ok in H as (atts & _ & H).
  apply rbind_ok in H as ([combined analysis] & _ & H).
  apply rbind_ok in H as (count & _ & H).
  injection H as <-.
  rewrite !lookup_dict_add_neq by assumption.
  now rewrite lookup_dict_set_neq by assumption.
Qed.

Lemma attachments_phase_frame (rt : runtime) (w : world) (sid : value)
    (cd cd' : dict) (t t' : trace) (k : string) :
  String.eqb k "attachments" = false ->
  String.eqb k "total_content_length" = false ->
  String.eqb k "real_data_sources" = false ->
  attachments_phase rt w sid cd t = (t', Ok cd') ->
  lookup k cd' = lookup k cd.
Proof.
  intros H1 H2 H3. unfold attachments_phase, bind, call, lift, ret.
  destruct (truthy sid); [|now intros [= _ <-]].
  destruct (get_session_attachments w t sid) as [attachments|e];
    [|discriminate].
  destruct (truthy attachments); [|now intros [= _ <-]].
  intros [= _ H]. eapply process_attachments_frame; eassumption.
Qed.

Lemma local_heuristics_frame (rt : runtime) (data cd cd' : dict) (k : string) :
  String.eqb k "market_intelligence" = false ->
  String.eqb k "competitor_analysis" = false ->
  String.eqb k "trend_analysis" = false ->
  local_heuristics rt data cd = Ok cd' ->
  lookup k cd' = lookup k cd.
Proof.
  intros H1 H2 H3. unfold local_heuristics. intros H.
  apply rbind_ok in H as (mi & _ & H).
  apply rbind_ok in H as (ta & _ & H).
  injection H as <-. now rewrite !lookup_dict_set_neq by assumption.
Qed.

Lemma record_web_result_iterations (i z : Z) (web_result : value)
    (cd cd' : dict) :
  lookup "research_iterations" cd = Some (VInt z) ->
  record_web_result i web_result cd = Ok cd' ->
  lookup "research_iterations" cd' = Some (VInt (z + 1)).
Proof.
  intros Hz. unfold record_web_result. intros H.
  apply rbind_ok in H as (wr & _ & H).
  apply rbind_ok in H as (sources & _ & H).
  apply rbind_ok in H as (new_sources & _ & H).
  apply rbind_ok in H as (n_sources & _ & H).
  apply rbind_ok in H as (summary & _ & H).
  apply rbind_ok in H as (content & _ & H).
  apply rbind_ok in H as (n_content & _ & H).
  injection H as <-.
  rewrite !lookup_dict_add_neq by reflexivity.
  apply lookup_dict_add_same.
  now rewrite !lookup_dict_set_neq by reflexivity.
Qed.

(** A loop over an enumerated list, with an invariant indexed by the
    position. *)
Lemma for_each_enumerate_inv {A S : Type} (J : Z -> S -> Prop)
    (body : Z * A -> S -> M S) :
  (forall i x s, J i s -> emits any_event (J (i + 1)) (body (i, x) s)) ->
  forall (l : list A) i s,
    J i s ->
    emits any_event (J (i + Z.of_nat (List.length l)))
      (for_each (enumerate_from i l) body s).
Proof.
  intros Hb. induction l as [|x l IH]; intros i s Hs.
  - simpl. rewrite Z.add_0_r. now apply emits_ret.
  - cbn [enumerate_from for_each]. eapply emits_bind; [now apply Hb|].
    intros s' Hs'.
    replace (i + Z.of_nat (List.length (x :: l)))
      with (i + 1 + Z.of_nat (List.length l))
      by (cbn [List.length]; lia).
    now apply IH.
Qed.

Lemma web_research_phase_iterations (rt : runtime) (w : world)
    (data cd : dict) :
  lookup "research_iterations" cd = Some (VInt 0) ->
  emits any_event
    (fun cd' => lookup "research_iterations" cd' = Some (VInt 0) \/
                lookup "research_iterations" cd' = Some (VInt 10))
    (web_research_phase rt w data cd).
Proof.
  intros H0. unfold web_research_phase.
  eapply emits_bind with (Q := fun _ => True); [apply emits_call; auto|].
  intros available _. destruct (truthy available).
  - eapply emits_weaken;
      [| |apply (for_each_enumerate_inv
                  (fun i s => lookup "research_iterations" s = Some (VInt i))
                  (web_research_step w data))
           with (l := _generate_ultra_comprehensive_real_queries rt data)
                (i := 0) (s := cd)].
    + auto.
    + intros cd' H. right. exact H.
    + intros i query s Hs. unfold web_research_step.
      eapply emits_bind with (Q := fun _ => True); [apply emits_call; auto|].
      intros web_result _.
      eapply emits_bind
        with (Q := fun s' => lookup "research_iterations" s'
                             = Some (VInt (i + 1))).
      * apply emits_lift. intros s' E.
        now apply (record_web_result_iterations i i web_result s s').
      * intros s' Hs'.
        eapply emits_bind with (Q := fun _ => True);
          [apply emits_call; auto|].
        intros _ _. now apply emits_ret.
    + exact H0.
  - apply emits_ret. now left.
Qed.

(** X7. The aggregate of the collector reports either no research
    iteration or all ten: a query that raises ends the collector (claim
    C2), so research that stopped half-way never reaches the synthesizer
    or the report; and the [research_iterations] of the metadata is 0 or
    10 as well. *)
Theorem research_is_all_or_nothing
    (rt : runtime) (w : world) (data : dict) (sid : value) :
  (forall t t' cd,
     _collect_ultra_comprehensive_real_data rt w data sid t = (t', Ok cd) ->
     lookup "research_iterations" cd = Some (VInt 0) \/
     lookup "research_iterations" cd = Some (VInt 10)) /\
  (forall start t t' out,
     analysis_pipeline rt w data sid start t = (t', Ok out) ->
     exists md,
       lookup "metadata_ultra_detalhado" out = Some (VDict md) /\
       (lookup "research_iterations" md = Some (VInt 0) \/
        lookup "research_iterations" md = Some (VInt 10))).
Proof.
  assert (C : forall t t' cd,
             _collect_ultra_comprehensive_real_data rt w data sid t
               = (t', Ok cd) ->
             lookup "research_iterations" cd = Some (VInt 0) \/
             lookup "research_iterations" cd = Some (VInt 10)).
  { intros t t' cd.
    unfold _collect_ultra_comprehensive_real_data, bind, lift. intros H.
    destruct (attachments_phase rt w sid initial_comprehensive_data t)
      as [t1 [cd1|e]] eqn:E1; [|discriminate].
    apply attachments_phase_frame with (k := "research_iterations") in E1;
      try reflexivity.
    destruct (web_research_phase rt w data cd1 t1) as [t2 [cd2|e]] eqn:E2;
      [|discriminate].
    apply (emits_ok _ _ _ _ _ _
             (web_research_phase_iterations rt w data cd1 E1)) in E2 as [K _].
    injection H as _ H.
    apply local_heuristics_frame with (k := "research_iterations") in H;
      try reflexivity.
    now rewrite H. }
  split; [exact C|].
  intros start t t' out H.
  apply pipeline_ok in H
    as (t1 & cd & t2 & ai & final & n & q & m & g & el & Hc & _ & _ & _ & _ & ->).
  apply C in Hc. eexists. rewrite lookup_dict_set_same.
  unfold analysis_metadata. split; [reflexivity|].
  cbn [lookup String.eqb Ascii.eqb Bool.eqb]. unfold get_default.
  destruct Hc as [-> | ->]; [now left | now right].
Qed.

Lemma research_is_all_or_nothing_witness :
  exists t' cd,
    _collect_ultra_comprehensive_real_data Sample.rt0 Sample.w_offline
      Sample.request_saude VNone [] = (t', Ok cd) /\
    (lookup "research_iterations" cd = Some (VInt 0) \/
     lookup "research_iterations" cd = Some (VInt 10)).
Proof.
  assert (E : exists t' cd,
             _collect_ultra_comprehensive_real_data Sample.rt0 Sample.w_offline
               Sample.request_saude VNone [] = (t', Ok cd)).
  { eexists. eexists. vm_compute. reflexivity. }
  destruct E as (t' & cd & E). exists t', cd. split; [exact E|].
  exact (proj1 (research_is_all_or_nothing Sample.rt0 Sample.w_offline
                  Sample.request_saude VNone) [] t' cd E).
Defined.

(** ** Attachments *)

Lemma utf8_len_nonneg (s : string) : 0 <= utf8_len s.
Proof.
  induction s as [|c s IH]; simpl; [lia|]. destruct (is_cont c); lia.
Qed.

Lemma utf8_len_take (s : string) (n : Z) :
  0 <= n -> utf8_len (utf8_take n s) = Z.min n (utf8_len s).
Proof.
  revert n. induction s as [|c s IH]; intros n Hn; cbn [utf8_take utf8_len].
  - lia.
  - pose proof (utf8_len_nonneg s) as P.
    destruct (is_cont c) eqn:C.
    + cbn [utf8_len]. rewrite C, IH by lia. lia.
    + destruct (n <=? 0) eqn:Z0.
      * cbn [utf8_len]. apply Z.leb_le in Z0. lia.
      * apply Z.leb_gt in Z0. cbn [utf8_len]. rewrite C, IH by lia. lia.
Qed.

Lemma utf8_take_all (s : string) (n : Z) :
  utf8_len s <= n -> utf8_take n s = s.
Proof.
  revert n. induction s as [|c s IH]; intros n; cbn [utf8_take utf8_len].
  - reflexivity.
  - pose proof (utf8_len_nonneg s) as P.
    destruct (is_cont c) eqn:C; intros Hn.
    + now rewrite IH by lia.
    + destruct (n <=? 0) eqn:Z0.
      * apply Z.leb_le in Z0. lia.
      * now rewrite IH by lia.
Qed.

Lemma string_app_assoc (a b c : string) : (a ++ b) ++ c = a ++ (b ++ c).
Proof. induction a as [|x a IH]; simpl; [reflexivity | now rewrite IH]. Qed.

Lemma string_app_nil_r (a : string) : a ++ EmptyString = a.
Proof. induction a as [|x a IH]; simpl; [reflexivity | now rewrite IH]. Qed.

Lemma attachment_step_text (rt : runtime) (att : value) (c0 c1 : string)
    (a0 a1 : dict) :
  attachment_step rt att (c0, a0) = Ok (c1, a1) ->
  c1 = c0 ++ extracted_text att.
Proof.
  unfold attachment_step. intros H.
  apply rbind_ok in H as (extracted & E & H).
  destruct att; try discriminate E. cbn [obj_get] in E. injection E as <-.
  unfold extracted_text, get.
  destruct (truthy (get_default d "extracted_content" VNone)) eqn:T.
  - apply rbind_ok in H as (piece & A & H).
    apply rbind_ok in H as (ct & _ & H).
    apply rbind_ok in H as (key & _ & H).
    apply rbind_ok in H as (fn & _ & H).
    injection H as <- _.
    destruct (get_default d "extracted_content" VNone); try discriminate A.
    destruct s; [discriminate T|]. now injection A as <-.
  - injection H as <- _.
    destruct (get_default d "extracted_content" VNone);
      try (now rewrite string_app_nil_r).
    destruct s; [now rewrite string_app_nil_r | discriminate T].
Qed.

Lemma attachments_loop_text (rt : runtime) (atts : list value)
    (c0 c1 : string) (a0 a1 : dict) :
  for_each_pure atts (attachment_step rt) (c0, a0) = Ok (c1, a1) ->
  c1 = c0 ++ combined_text atts.
Proof.
  unfold combined_text. revert c0 a0. induction atts as [|att atts IH]; intros c0 a0 H.
  - cbn in H. injection H as <- _. cbn. now rewrite string_app_nil_r.
  - cbn [for_each_pure] in H. apply rbind_ok in H as ([c a] & S & H).
    apply attachment_step_text in S. apply IH in H. subst c c1.
    rewrite string_app_assoc. f_equal.
    cbn [map]. generalize (extracted_text att) as p.
    generalize (map extracted_text atts) as ps. intros ps p.
    destruct ps as [|q ps]; cbn [String.concat].
    + now rewrite string_app_nil_r.
    + reflexivity.
Qed.

(** X8. When the attachments of a session are processed, the combined
    text is the extracted content of each attachment that has one (a
    non-empty string), in the order of the list, each followed by a blank
    line. The [combined_content] kept in the aggregate is its first
    20000 characters (all of it when it is shorter), while [total_length]
    and the rise of [total_content_length] are the length of the whole
    text; [count] and the rise of [real_data_sources] are the number of
    attachments handed over, with or without extracted text. *)
Theorem attachments_truncate_text_keep_counts
    (rt : runtime) (attachments : value) (cd cd' : dict) (length0 sources0 : Z) :
  lookup "total_content_length" cd = Some (VInt length0) ->
  lookup "real_data_sources" cd = Some (VInt sources0) ->
  process_attachments rt attachments cd = Ok cd' ->
  exists items types count,
    py_iter attachments = Ok items /\
    py_len attachments = Ok count /\
    (forall l, attachments = VList l ->
               items = l /\ count = Z.of_nat (List.length l)) /\
    lookup "attachments" cd'
      = Some (VDict [("count", VInt count);
                     ("combined_content",
                      VStr (utf8_take 20000 (combined_text items)));
                     ("types_analysis", VDict types);
                     ("total_length", VInt (utf8_len (combined_text items)))]) /\
    utf8_len (utf8_take 20000 (combined_text items))
      = Z.min 20000 (utf8_len (combined_text items)) /\
    (utf8_len (combined_text items) <= 20000 ->
     utf8_take 20000 (combined_text items) = combined_text items) /\
    lookup "total_content_length" cd'
      = Some (VInt (length0 + utf8_len (combined_text items))) /\
    lookup "real_data_sources" cd' = Some (VInt (sources0 + count)).
Proof.
  intros Hl Hs. unfold process_attachments. intros H.
  apply rbind_ok in H as (atts & Hi & H).
  apply rbind_ok in H as ([combined types] & Hloop & H).
  apply rbind_ok in H as (count & Hc & H).
  injection H as <-.
  apply attachments_loop_text in Hloop. cbn [append] in Hloop. subst combined.
  exists atts, types, count.
  split; [exact Hi|]. split; [exact Hc|]. split.
  { intros l ->. cbn in Hi, Hc. injection Hi as <-. injection Hc as <-.
    now split. }
  split.
  { rewrite !lookup_dict_add_neq by reflexivity. apply lookup_dict_set_same. }
  split; [apply utf8_len_take; lia|].
  split; [apply utf8_take_all|]. split.
  - rewrite lookup_dict_add_neq by reflexivity.
    apply lookup_dict_add_same.
    now rewrite lookup_dict_set_neq by reflexivity.
  - apply lookup_dict_add_same.
    rewrite lookup_dict_add_neq by reflexivity.
    now rewrite lookup_dict_set_neq by reflexivity.
Qed.

Lemma three_attachments_are_processed (rt : runtime) (text : string) :
  truthy (VStr text) = true ->
  exists cd',
    process_attachments rt
      (VList (SampleAttachments.three_attachments text))
      initial_comprehensive_data = Ok cd'.
Proof.
  intros T. unfold process_attachments, SampleAttachments.three_attachments.
  cbn [py_iter rbind for_each_pure]. unfold attachment_step.
  cbn [obj_get get_default lookup String.eqb Ascii.eqb Bool.eqb rbind].
  rewrite T. cbn. eexists. reflexivity.
Qed.

Lemma attachments_truncate_text_keep_counts_witness :
  exists types,
    lookup "attachments"
      match process_attachments Sample.rt0
              (VList (SampleAttachments.three_attachments
                        SampleAttachments.long_text))
              initial_comprehensive_data with
      | Ok cd' => cd'
      | Err _ => []
      end
    = Some (VDict [("count", VInt 3);
                   ("combined_content",
                    VStr (utf8_take 20000
                            (combined_text
                               (SampleAttachments.three_attachments
                                  SampleAttachments.long_text))));
                   ("types_analysis", VDict types);
                   ("total_length",
                    VInt (utf8_len
                            (combined_text
                               (SampleAttachments.three_attachments
                                  SampleAttachments.long_text))))]) /\
    utf8_len (combined_text
                (SampleAttachments.three_attachments
                   SampleAttachments.long_text)) = 25007 /\
    utf8_len
      (utf8_take 20000
         (combined_text
            (SampleAttachments.three_attachments SampleAttachments.long_text)))
    = 20000.
Proof.
  destruct (three_attachments_are_processed Sample.rt0
              SampleAttachments.long_text eq_refl) as (cd' & P).
  rewrite P.
  pose proof (attachments_truncate_text_keep_counts Sample.rt0
                (VList (SampleAttachments.three_attachments
                          SampleAttachments.long_text))
                initial_comprehensive_data cd' 0 0 eq_refl eq_refl P)
    as (items & types & count & _ & _ & Hv & Ha & Hm & _).
  destruct (Hv _ eq_refl) as [Hi Hc]. subst items count.
  exists types. split; [exact Ha|].
  assert (L : utf8_len (combined_text
                          (SampleAttachments.three_attachments
                             SampleAttachments.long_text)) = 25007)
    by (vm_compute; reflexivity).
  split; [exact L|]. rewrite Hm, L. reflexivity.
Defined.

(** ** The synthesizer *)

Lemma prefix_app_self (p rest : string) :
  String.prefix p (p ++ rest) = true.
Proof.
  induction p as [|a p IH]; simpl.
  - now destruct rest.
  - destruct (ascii_dec a a); [exact IH | contradiction].
Qed.

Lemma prefix_app (p a b : string) :
  String.prefix p a = true -> String.prefix p (a ++ b) = true.
Proof.
  revert p. induction a as [|c a IH]; intros p.
  - destruct p; [|discriminate]. intros _. now destruct b.
  - destruct p as [|x p]; [reflexivity|]. simpl.
    destruct (ascii_dec x c); [apply IH | discriminate].
Qed.

Lemma search_context_step_prefix (rt : runtime) (kv : string * value)
    (ctx ctx' : string) :
  (ctx = EmptyString \/ String.prefix "PESQUISA REAL " ctx = true) ->
  search_context_step rt kv ctx = Ok ctx' ->
  String.prefix "PESQUISA REAL " ctx' = true.
Proof.
  intros Hc. destruct kv as [key web_result]. unfold search_context_step.
  intros H.
  apply rbind_ok in H as (summary & _ & H).
  apply rbind_ok in H as (combined & _ & H).
  apply rbind_ok in H as (insights & _ & H).
  assert (P : forall rest,
             String.prefix "PESQUISA REAL " (ctx ++ "PESQUISA REAL " ++ rest)
             = true).
  { intros rest. destruct Hc as [-> | Hp].
    - apply (prefix_app_self "PESQUISA REAL " rest).
    - now apply prefix_app. }
  destruct (truthy insights).
  - apply rbind_ok in H as (joined & _ & H). injection H as <-.
    apply prefix_app, P.
  - injection H as <-. apply P.
Qed.

Lemma build_search_context_prefix (rt : runtime) (cd : dict) (ctx : string) :
  build_search_context rt cd = Ok ctx ->
  (truthy (get cd "web_research") = false /\ ctx = EmptyString) \/
  (truthy (get cd "web_research") = true /\
   String.prefix "PESQUISA REAL " ctx = true).
Proof.
  unfold build_search_context.
  destruct (truthy (get cd "web_research")) eqn:T.
  - destruct (get cd "web_research") as [| | | | | |items]; try discriminate.
    destruct items as [|kv items]; [discriminate T|].
    cbn [for_each_pure]. intros H. apply rbind_ok in H as (ctx1 & E1 & H).
    right. split; [reflexivity|].
    apply search_context_step_prefix in E1; [|now left].
    revert H. apply for_each_pure_inv
      with (I := fun c => String.prefix "PESQUISA REAL " c = true);
      [|exact E1].
    intros x s s' Hs Hx. apply (search_context_step_prefix rt x s s'); auto.
  - intros [= <-]. now left.
Qed.

(** X9. The research context the synthesizer hands to the primary LLM is
    [None] exactly when the aggregate holds no web research; otherwise it
    is the first 20000 characters of a text that starts with
    "PESQUISA REAL ", so a text of between 1 and 20000 characters. *)
Theorem search_context_is_none_or_capped
    (rt : runtime) (cd : dict) (ctx : string) :
  build_search_context rt cd = Ok ctx ->
  (truthy (get cd "web_research") = false ->
   search_context_arg ctx = VNone) /\
  (truthy (get cd "web_research") = true ->
   String.prefix "PESQUISA REAL " ctx = true /\
   search_context_arg ctx = VStr (utf8_take 20000 ctx) /\
   1 <= utf8_len (utf8_take 20000 ctx) <= 20000).
Proof.
  intros H. apply build_search_context_prefix in H.
  destruct H as [[T ->] | [T P]]; rewrite T; split; try discriminate.
  - intros _. reflexivity.
  - intros _. split; [exact P|].
    destruct ctx as [|c ctx]; [simpl in P; discriminate P|].
    cbn [String.prefix] in P.
    destruct (ascii_dec "P" c) as [<-|]; [|discriminate P].
    split; [reflexivity|].
    rewrite utf8_len_take by lia.
    pose proof (utf8_len_nonneg ctx). cbn [utf8_len].
    change (is_cont "P") with false. lia.
Qed.

Lemma search_context_is_none_or_capped_witness :
  search_context_arg
    match build_search_context Sample.rt0
            [("web_research",
              VDict [("query_1",
                      VDict [("research_summary",
                              VDict [("combined_content", VStr "dados")])])])]
    with Ok ctx => ctx | Err _ => EmptyString end
  = VStr (utf8_take 20000
            match build_search_context Sample.rt0
                    [("web_research",
                      VDict [("query_1",
                              VDict [("research_summary",
                                      VDict [("combined_content",
                                              VStr "dados")])])])]
            with Ok ctx => ctx | Err _ => EmptyString end).
Proof.
  apply (search_context_is_none_or_capped Sample.rt0
           [("web_research",
             VDict [("query_1",
                     VDict [("research_summary",
                             VDict [("combined_content", VStr "dados")])])])]);
    reflexivity.
Defined.

(** The synthesizer's result is one of four shapes. *)
Lemma run_multi_shapes (rt : runtime) (w : world) (data cd : dict) :
  returns any_event
    (fun ai =>
       (gemini_client_present w = false /\
        (ai = [] \/ exists hf, ai = [("huggingface_ultra_real", hf)])) \/
       (gemini_client_present w = true /\
        exists g,
          ai = [("gemini_ultra_real", g)] \/
          exists hf,
            ai = [("gemini_ultra_real", g); ("huggingface_ultra_real", hf);
                  ("cross_validation_real",
                   _perform_cross_ai_real_analysis
                     [("gemini_ultra_real", g);
                      ("huggingface_ultra_real", hf)])]))
    (_run_multi_ai_ultra_real_analysis rt w data cd).
Proof.
  unfold _run_multi_ai_ultra_real_analysis.
  eapply returns_bind
    with (Q := fun ai1 =>
                 (gemini_client_present w = false /\ ai1 = []) \/
                 (gemini_client_present w = true /\
                  exists g, ai1 = [("gemini_ultra_real", g)])).
  - unfold primary_analysis. destruct (gemini_client_present w).
    + apply returns_try_catch.
      * eapply emits_bind with (Q := fun _ => True);
          [apply emits_lift; auto|]. intros ctx _.
        eapply emits_bind with (Q := fun _ => True);
          [apply emits_call; auto|]. intros g _.
        apply emits_ret. right. split; [reflexivity|]. now exists g.
      * intros e. apply returns_ret. right. split; [reflexivity|].
        eexists. reflexivity.
    + apply returns_ret. now left.
  - intros ai1 H1.
    eapply returns_bind
      with (Q := fun ai2 =>
                   ai2 = ai1 \/
                   exists hf,
                     ai2 = dict_set "huggingface_ultra_real" hf ai1).
    + unfold secondary_analysis. apply returns_try_catch.
      * eapply emits_bind with (Q := fun _ => True);
          [apply emits_call; auto|]. intros _ _.
        eapply emits_bind with (Q := fun _ => True);
          [apply emits_call; auto|]. intros available _.
        destruct (truthy available); [|apply emits_ret; now left].
        eapply emits_bind with (Q := fun _ => True);
          [apply emits_call; auto|]. intros hf _.
        destruct (truthy hf); [|apply emits_ret; now left].
        apply emits_ret. right. eexists. reflexivity.
      * intros e. apply returns_ret. now left.
    + intros ai2 H2. apply returns_ret.
      destruct H1 as [[Hp ->] | [Hp (g & ->)]];
        destruct H2 as [-> | (hf & ->)]; cbn.
      * left. split; [exact Hp | now left].
      * left. split; [exact Hp|]. right. eexists. reflexivity.
      * right. split; [exact Hp|]. exists g. now left.
      * right. split; [exact Hp|]. exists g. right. eexists. reflexivity.
Qed.

(** X10. The synthesizer never raises, whatever its collaborators do. Its
    result has an entry [gemini_ultra_real] exactly when an LLM client is
    configured (the client's answer, or the local template when the call
    raises), a [cross_validation_real] entry exactly when it has both
    the LLM's and the secondary client's entries, and so zero, one or
    three entries, never two: [ai_models_used] counts the cross analysis
    as a model. *)
Theorem synthesizer_never_raises
    (rt : runtime) (w : world) (data cd : dict) (t : trace) :
  exists t' ai,
    _run_multi_ai_ultra_real_analysis rt w data cd t = (t', Ok ai) /\
    has_key "gemini_ultra_real" ai = gemini_client_present w /\
    has_key "cross_validation_real" ai
      = has_key "gemini_ultra_real" ai && has_key "huggingface_ultra_real" ai /\
    (List.length ai = 0 \/ List.length ai = 1 \/ List.length ai = 3)%nat.
Proof.
  destruct (run_multi_shapes rt w data cd t) as (l & ai & E & _ & H).
  exists (t ++ l)%list, ai. split; [exact E|].
  destruct H as [[-> [-> | (hf & ->)]] | [-> (g & [-> | (hf & ->)])]];
    cbn; auto.
Qed.

(** ** Persistence *)

(** X11. The persistence block never changes the outcome of a request:
    it always returns. For an empty document, or one with a top-level
    [error] key, it calls nothing and returns the document as it is. For
    any other document it calls the data store exactly once, with the
    record built from the request and the document, and returns the
    document with [database_id] set to the [id] of the record the store
    returned; when the store raises, returns an empty value or returns a
    record without [id], the document is returned as it was. *)
Theorem persistence_never_fails_the_request
    (rt : runtime) (w : world) (data result : dict) (t : trace) :
  exists l result',
    save_analysis rt w data result t = ((t ++ l)%list, Ok result') /\
    (result = [] \/ has_key "error" result = true ->
     l = [] /\ result' = result) /\
    (result <> [] -> has_key "error" result = false ->
     l = [EvDbCreateAnalysis (analysis_record rt data result)] /\
     (forall record id,
        create_analysis w t (analysis_record rt data result) = Ok record ->
        truthy record = true ->
        obj_getitem record "id" = Ok id ->
        result' = dict_set "database_id" id result) /\
     (forall record,
        create_analysis w t (analysis_record rt data result) = Ok record ->
        truthy record = false \/ (exists e, obj_getitem record "id" = Err e) ->
        result' = result) /\
     (forall e,
        create_analysis w t (analysis_record rt data result) = Err e ->
        result' = result)).
Proof.
  unfold save_analysis.
  destruct (truthy (VDict result) && negb (has_key "error" result)) eqn:G.
  - apply andb_true_iff in G as [G1 G2]. apply negb_true_iff in G2.
    assert (A : ~ (result = [] \/ has_key "error" result = true)).
    { intros [-> | H]; [discriminate G1 | congruence]. }
    unfold try_catch, bind, call, lift, ret.
    destruct (create_analysis w t (analysis_record rt data result))
      as [record|e] eqn:C.
    + destruct (truthy record) eqn:T.
      * destruct (obj_getitem record "id") as [id|e] eqn:I.
        -- exists [EvDbCreateAnalysis (analysis_record rt data result)].
           eexists. split; [reflexivity|].
           split; [intros H; now elim A|]. intros _ _.
           split; [reflexivity|]. split; [|split].
           ++ intros r i [= <-] _ I'. rewrite I in I'. now injection I' as <-.
           ++ intros r [= <-] [T' | (e & I')]; congruence.
           ++ intros; discriminate.
        -- exists [EvDbCreateAnalysis (analysis_record rt data result)], result.
           split; [reflexivity|].
           split; [intros H; now elim A|]. intros _ _.
           split; [reflexivity|]. split; [|split].
           ++ intros r i [= <-] _ I'. congruence.
           ++ reflexivity.
           ++ reflexivity.
      * exists [EvDbCreateAnalysis (analysis_record rt data result)], result.
        split; [reflexivity|].
        split; [intros H; now elim A|]. intros _ _.
        split; [reflexivity|]. split; [|split].
        -- intros r i [= <-] T'. congruence.
        -- reflexivity.
        -- reflexivity.
    + exists [EvDbCreateAnalysis (analysis_record rt data result)], result.
      split; [reflexivity|].
      split; [intros H; now elim A|]. intros _ _.
      split; [reflexivity|]. split; [|split].
      * intros; discriminate.
      * intros; discriminate.
      * reflexivity.
  - exists [], result. unfold ret. rewrite app_nil_r.
    split; [reflexivity|]. split; [auto|].
    intros N E. exfalso.
    apply andb_false_iff in G as [G | G].
    + destruct result; [now elim N | discriminate G].
    + rewrite E in G. discriminate G.
Qed.

Lemma persistence_never_fails_the_request_witness :
  save_analysis Sample.rt0 Sample.w_llm_raises Sample.request_saude
    [("avatar_ultra_detalhado", VStr "x")] []
  = ([EvDbCreateAnalysis
        (analysis_record Sample.rt0 Sample.request_saude
           [("avatar_ultra_detalhado", VStr "x")])],
     Ok [("avatar_ultra_detalhado", VStr "x"); ("database_id", VInt 1)]).
Proof.
  destruct (persistence_never_fails_the_request Sample.rt0 Sample.w_llm_raises
              Sample.request_saude [("avatar_ultra_detalhado", VStr "x")] [])
    as (l & result' & E & _ & H).
  destruct (H ltac:(discriminate) eq_refl) as (-> & Hid & _).
  rewrite (Hid (VDict [("id", VInt 1)]) (VInt 1) eq_refl eq_refl eq_refl) in E.
  exact E.
Defined.

(** ** Requests that always end in the fallback document *)

Lemma fallback_when_pipeline_raises (rt : runtime) (w : world) (data : dict)
    (t : trace) :
  truthy (get data "segmento") = true ->
  (forall sid start t0 t' doc,
     analysis_pipeline rt w (normalize_numeric_fields rt data) sid start t0
     <> (t', Ok doc)) ->
  exists t' doc md,
    analyze_market rt w (Ok (VDict data)) t
      = (t', Ok {| status := 200; body := VDict doc |}) /\
    lookup "metadata_ultra_detalhado" doc = Some (VDict md) /\
    lookup "emergency_mode" md = Some (VBool true) /\
    lookup "plano_implementacao_real_completo" doc = None.
Proof.
  intros Hseg Hp.
  rewrite (analyze_market_validated rt w data t Hseg).
  pose proof (generate_unfold rt w (normalize_numeric_fields rt data)
                (if truthy (get (normalize_numeric_fields rt data) "session_id")
                 then get (normalize_numeric_fields rt data) "session_id"
                 else flask_session_id w) t) as G.
  destruct (analysis_pipeline rt w (normalize_numeric_fields rt data)
              (if truthy (get (normalize_numeric_fields rt data) "session_id")
               then get (normalize_numeric_fields rt data) "session_id"
               else flask_session_id w) (time_time w t) (t ++ [EvTime])%list)
    as [t1 [out|e]] eqn:E.
  - exfalso. exact (Hp _ _ _ _ _ E).
  - destruct (run_analysis_unfold rt w data t _ _ G) as (t2 & doc & R & F).
    assert (Hm : lookup "metadata_ultra_detalhado" doc
                 = Some (emergency_metadata (exn_text e)
                           (utcnow_isoformat w t1))).
    { rewrite F by reflexivity. unfold emergency_document. cbv zeta.
      apply lookup_dict_set_same. }
    assert (Hn : lookup "plano_implementacao_real_completo" doc = None).
    { rewrite F by reflexivity. unfold emergency_document. cbv zeta.
      now rewrite !lookup_dict_set_neq by reflexivity. }
    unfold emergency_metadata in Hm.
    exists t2, doc. eexists. split; [exact R|]. split; [exact Hm|].
    split; [reflexivity | exact Hn].
Qed.

Lemma money_of_non_number (v : value) (c : float) :
  is_number v = false -> exists e, money v c = Err e.
Proof.
  destruct v; try discriminate; intros _; eexists; reflexivity.
Qed.

(** X12. A validated request whose [objetivo_receita] or
    [orcamento_marketing] is present and is not a JSON number (a string,
    numeric or not, as a form sends it; null; a list; a mapping) is
    always answered with the emergency fallback document: normalization
    leaves the field as it was sent, the templates multiply it by a
    float, and the exception ends the pipeline. The response has status
    200, [emergency_mode] true and no implementation plan. *)
Theorem text_amounts_end_in_fallback
    (rt : runtime) (w : world) (data : dict) (v : value) (t : trace) :
  truthy (get data "segmento") = true ->
  lookup "objetivo_receita" data = Some v \/
  lookup "orcamento_marketing" data = Some v ->
  is_number v = false ->
  exists t' doc md,
    analyze_market rt w (Ok (VDict data)) t
      = (t', Ok {| status := 200; body := VDict doc |}) /\
    lookup "metadata_ultra_detalhado" doc = Some (VDict md) /\
    lookup "emergency_mode" md = Some (VBool true) /\
    lookup "plano_implementacao_real_completo" doc = None.
Proof.
  intros Hseg Hv Hn. apply fallback_when_pipeline_raises; [exact Hseg|].
  intros sid start t0 t' doc E.
  apply pipeline_ok in E
    as (t1 & cd & t2 & ai & final & n & q & m & g & el & _ & _ & C & _).
  apply consolidate_ok in C
    as (base & i & p & me & ti & mo & _ & _ & P & _ & _ & Mo & _).
  destruct Hv as [Hv | Hv].
  - unfold _create_complete_real_implementation_plan, get_default in P.
    rewrite (lookup_normalized_other rt data "objetivo_receita") in P
      by reflexivity.
    rewrite Hv in P. cbv zeta in P.
    destruct (money_of_non_number v 0.15 Hn) as [e Me].
    rewrite Me in P. discriminate P.
  - unfold _create_real_monitoring_system, get_default in Mo.
    rewrite (lookup_normalized_other rt data "orcamento_marketing") in Mo
      by reflexivity.
    rewrite Hv in Mo.
    destruct (money_of_non_number v 0.4 Hn) as [e Me].
    rewrite Me in Mo. discriminate Mo.
Qed.

Lemma text_amounts_end_in_fallback_witness :
  exists t' doc md,
    analyze_market Sample.rt0 Sample.w_offline
      (Ok (VDict [("segmento", VStr "moda"); ("orcamento_marketing", VStr "8000")]))
      []
      = (t', Ok {| status := 200; body := VDict doc |}) /\
    lookup "metadata_ultra_detalhado" doc = Some (VDict md) /\
    lookup "emergency_mode" md = Some (VBool true) /\
    lookup "plano_implementacao_real_completo" doc = None.
Proof.
  apply (text_amounts_end_in_fallback Sample.rt0 Sample.w_offline
           [("segmento", VStr "moda"); ("orcamento_marketing", VStr "8000")]
           (VStr "8000") []).
  - reflexivity.
  - right. reflexivity.
  - reflexivity.
Defined.

Lemma collector_ok_segmento (rt : runtime) (w : world) (data : dict)
    (sid : value) (t t' : trace) (cd : dict) :
  _collect_ultra_comprehensive_real_data rt w data sid t = (t', Ok cd) ->
  exists s, get_default data "segmento" (VStr EmptyString) = VStr s.
Proof.
  unfold _collect_ultra_comprehensive_real_data, bind, lift. intros H.
  destruct (attachments_phase rt w sid initial_comprehensive_data t)
    as [t1 [cd1|e]]; [|discriminate].
  destruct (web_research_phase rt w data cd1 t1) as [t2 [cd2|e]];
    [|discriminate].
  injection H as _ H. unfold local_heuristics in H.
  apply rbind_ok in H as (mi & G & _).
  unfold _gather_ultra_real_market_intelligence in G.
  apply rbind_ok in G as (s & L & _).
  destruct (get_default data "segmento" (VStr EmptyString)); try discriminate L.
  eauto.
Qed.

(** X13. A validated request whose [segmento] is not a string (a number,
    [true], a list, a mapping) is always answered with the emergency
    fallback document: validation only asks for a true value, and the
    local lookups call [lower] on it. *)
Theorem non_text_segment_ends_in_fallback
    (rt : runtime) (w : world) (data : dict) (v : value) (t : trace) :
  lookup "segmento" data = Some v ->
  truthy v = true ->
  (forall s, v <> VStr s) ->
  exists t' doc md,
    analyze_market rt w (Ok (VDict data)) t
      = (t', Ok {| status := 200; body := VDict doc |}) /\
    lookup "metadata_ultra_detalhado" doc = Some (VDict md) /\
    lookup "emergency_mode" md = Some (VBool true) /\
    lookup "plano_implementacao_real_completo" doc = None.
Proof.
  intros Hv Ht Hs. apply fallback_when_pipeline_raises.
  - unfold get, get_default. now rewrite Hv.
  - intros sid start t0 t' doc E.
    apply pipeline_ok in E
      as (t1 & cd & t2 & ai & final & n & q & m & g & el & C & _).
    apply collector_ok_segmento in C as (s & C).
    unfold get_default in C.
    rewrite (lookup_normalized_other rt data "segmento") in C by reflexivity.
    rewrite Hv in C. exact (Hs s C).
Qed.

Lemma non_text_segment_ends_in_fallback_witness :
  exists t' doc md,
    analyze_market Sample.rt0 Sample.w_offline
      (Ok (VDict [("segmento", VInt 42)])) []
      = (t', Ok {| status := 200; body := VDict doc |}) /\
    lookup "metadata_ultra_detalhado" doc = Some (VDict md) /\
    lookup "emergency_mode" md = Some (VBool true) /\
    lookup "plano_implementacao_real_completo" doc = None.
Proof.
  apply (non_text_segment_ends_in_fallback Sample.rt0 Sample.w_offline
           [("segmento", VInt 42)] (VInt 42) []).
  - reflexivity.
  - reflexivity.
  - intros s. discriminate.
Defined.

(** ** What the route answers *)

(** X14. The route always answers, and its status is decided by the
    request alone: 500 when the body cannot be parsed
    ([request.get_json()] raises, as it does for an absent body), 400
    for a parsed body that is empty or a mapping whose [segmento] is
    missing or empty, 500 for a non-empty body that is not a mapping,
    and 200 for every mapping with a [segmento], whatever the
    collaborators do: no failure of theirs reaches the client as an error
    status. *)
Theorem analyze_market_status
    (rt : runtime) (w : world) (get_json : result value) (t : trace) :
  exists t' r,
    analyze_market rt w get_json t = (t', Ok r) /\
    status r =
      match get_json with
      | Err _ => 500
      | Ok request_json =>
          if negb (truthy request_json) then 400
          else match request_json with
               | VDict data =>
                   if truthy (get data "segmento") then 200 else 400
               | _ => 500
               end
      end.
Proof.
  destruct get_json as [request_json | e].
  2: { eexists. eexists. split; reflexivity. }
  destruct (truthy request_json) eqn:T; cbn [negb].
  - destruct request_json as [| b | z | f | s | l | data];
      try (unfold analyze_market, try_catch, bind, lift; cbn beta iota;
           rewrite T; cbn [negb obj_get];
           unfold internal_error, bind, call, ret;
           eexists; eexists; split; reflexivity).
    destruct (truthy (get data "segmento")) eqn:S.
    + destruct (validated_request_is_answered rt w data t S)
        as (t' & doc & E).
      exists t'. eexists. split; [exact E | reflexivity].
    + unfold analyze_market, try_catch, bind, lift. cbn beta iota.
      rewrite T. cbn [negb obj_get]. unfold get in S. rewrite S. cbn [negb].
      eexists. eexists. split; reflexivity.
  - unfold analyze_market, try_catch, bind, lift. cbn beta iota.
    rewrite T. cbn [negb].
    eexists. eexists. split; reflexivity.
Qed.

(** ** Scores of a locally based document *)

Lemma local_base_scores (rt : runtime) (data cd ai doc base : dict) :
  _consolidate_ultra_real_analysis rt data cd ai = Ok doc ->
  main_analysis_of rt data ai = VDict base ->
  _calculate_ultra_quality_score doc = _calculate_ultra_quality_score base /\
  _calculate_completeness_score doc = _calculate_completeness_score base.
Proof.
  intros C B.
  unfold _calculate_ultra_quality_score, _calculate_completeness_score,
    section_points, completed_sections, required_sections, sections_to_check,
    present_and_truthy, has_key, get_default.
  cbn [fold_left].
  rewrite !(fun k => consolidated_lookup_base rt data cd ai doc base k C B)
    by reflexivity.
  split; reflexivity.
Qed.

(** X15. The scores of a document built on a local template do not depend
    on the request or on what was collected: the scorer looks for section
    names the consolidator never writes, so only the template's own
    sections count. With no primary LLM configured every document the
    pipeline returns has quality 13.34 and completeness 20; when the LLM
    is configured and its call raises they are 6.67 and 10. Both are
    below the 35 and 25 that the fallback document reports. *)
Theorem local_documents_have_fixed_scores
    (rt : runtime) (w : world) (data : dict) (sid : value) (start : float)
    (t t' : trace) (out : dict) :
  analysis_pipeline rt w data sid start t = (t', Ok out) ->
  exists md,
    lookup "metadata_ultra_detalhado" out = Some (VDict md) /\
    (gemini_client_present w = false ->
     lookup "quality_score" md = Some (VFloat 13.34) /\
     lookup "completeness_score" md = Some (VFloat 20)) /\
    (gemini_client_present w = true ->
     (forall t0 d c, exists e, generate_ultra_detailed_analysis w t0 d c = Err e) ->
     lookup "quality_score" md = Some (VFloat 6.67) /\
     lookup "completeness_score" md = Some (VFloat 10)) /\
    (forall error generated_at emd,
       emergency_metadata error generated_at = VDict emd ->
       lookup "quality_score" emd = Some (VFloat 35) /\
       lookup "completeness_score" emd = Some (VFloat 25)).
Proof.
  intros E.
  apply pipeline_ok in E
    as (t1 & cd & t2 & ai & final & n & q & m & g & el & _ & R & C & Q & _ & ->).
  eexists. split; [apply lookup_dict_set_same|].
  unfold analysis_metadata. cbn [lookup String.eqb Ascii.eqb Bool.eqb].
  split; [|split; [|intros error ts emd [= <-]; split; reflexivity]].
  - intros Hp.
    pose proof (returns_ok _ _ _ _ _ _ (run_multi_without_llm rt w data cd Hp) R)
      as L.
    apply (proj1 (main_analysis_local rt data ai)) in L.
    destruct (local_base_scores rt data cd ai final _ C L) as [Hq Hc].
    rewrite Hq in Q. rewrite Hc.
    vm_compute in Q. injection Q as <-. split; reflexivity.
  - intros Hp Hr.
    pose proof (returns_ok _ _ _ _ _ _
                  (run_multi_substitutes rt w data cd Hp Hr) R) as L.
    apply (proj2 (main_analysis_local rt data ai)) in L.
    destruct (local_base_scores rt data cd ai final _ C L) as [Hq Hc].
    rewrite Hq in Q. rewrite Hc.
    vm_compute in Q. injection Q as <-. split; reflexivity.
Qed.

Lemma local_documents_have_fixed_scores_witness :
  exists md,
    lookup "metadata_ultra_detalhado"
      (match snd (analysis_pipeline Sample.rt0 Sample.w_llm_raises
                    Sample.request_saude (VStr "s") 0 []) with
       | Ok out => out
       | Err _ => []
       end) = Some (VDict md) /\
    lookup "quality_score" md = Some (VFloat 6.67) /\
    lookup "completeness_score" md = Some (VFloat 10).
Proof.
  destruct (analysis_pipeline Sample.rt0 Sample.w_llm_raises
              Sample.request_saude (VStr "s") 0 []) as [t' [out|e]] eqn:E.
  - destruct (local_documents_have_fixed_scores _ _ _ _ _ _ _ _ E)
      as (md & M & _ & A & _).
    exists md. split; [exact M|]. apply A; [reflexivity|].
    intros t0 d c. eexists. reflexivity.
  - vm_compute in E. discriminate E.
Defined.

(** ** What is handed to the data store *)

Lemma pipeline_local_base (rt : runtime) (w : world) (data : dict)
    (sid : value) (start : float) (t t' : trace) (out : dict) :
  gemini_client_present w = false \/
  (gemini_client_present w = true /\
   forall t0 d c, exists e, generate_ultra_detailed_analysis w t0 d c = Err e) ->
  analysis_pipeline rt w data sid start t = (t', Ok out) ->
  exists cd ai final base md,
    _consolidate_ultra_real_analysis rt data cd ai = Ok final /\
    main_analysis_of rt data ai = VDict base /\
    (base = _generate_basic_real_analysis rt data \/
     base = _generate_basic_real_gemini_analysis rt data) /\
    out = dict_set "metadata_ultra_detalhado" md final.
Proof.
  intros Hw E.
  apply pipeline_ok in E
    as (t1 & cd & t2 & ai & final & n & q & m & g & el & _ & R & C & _ & _ & ->).
  destruct Hw as [Hp | [Hp Hr]].
  - pose proof (returns_ok _ _ _ _ _ _ (run_multi_without_llm rt w data cd Hp) R)
      as L.
    apply (proj1 (main_analysis_local rt data ai)) in L.
    exists cd, ai, final. do 2 eexists.
    split; [exact C|]. split; [exact L|]. split; [now left | reflexivity].
  - pose proof (returns_ok _ _ _ _ _ _
                  (run_multi_substitutes rt w data cd Hp Hr) R) as L.
    apply (proj2 (main_analysis_local rt data ai)) in L.
    exists cd, ai, final. do 2 eexists.
    split; [exact C|]. split; [exact L|]. split; [now right | reflexivity].
Qed.

(** X16. The record handed to the data store reads the document under
    [escopo], [analise_concorrencia_detalhada] and
    [metricas_performance_detalhadas], names that neither a local
    template nor the consolidator writes. So for every document the
    pipeline builds without a working primary LLM, and for every fallback
    document, whatever the request, the columns [positioning_data],
    [competition_data] and [metrics_data] hold the serialization of an
    empty mapping, while [comprehensive_analysis] holds the whole
    document. The numeric columns hold the parsed amount when the field
    was sent with a true value, and otherwise whatever the client sent
    under [<field>_float]. *)
Theorem stored_record_columns (rt : runtime) :
  (forall w data sid start t t' out req,
     gemini_client_present w = false \/
     (gemini_client_present w = true /\
      forall t0 d c, exists e,
        generate_ultra_detailed_analysis w t0 d c = Err e) ->
     analysis_pipeline rt w data sid start t = (t', Ok out) ->
     lookup "positioning_data" (analysis_record rt req out)
       = Some (VStr (json_dumps rt (VDict []))) /\
     lookup "competition_data" (analysis_record rt req out)
       = Some (VStr (json_dumps rt (VDict []))) /\
     lookup "metrics_data" (analysis_record rt req out)
       = Some (VStr (json_dumps rt (VDict []))) /\
     lookup "comprehensive_analysis" (analysis_record rt req out)
       = Some (VStr (json_dumps rt (VDict out)))) /\
  (forall data error generated_at req,
     lookup "positioning_data"
       (analysis_record rt req
          (emergency_document rt data error generated_at))
       = Some (VStr (json_dumps rt (VDict []))) /\
     lookup "competition_data"
       (analysis_record rt req
          (emergency_document rt data error generated_at))
       = Some (VStr (json_dumps rt (VDict []))) /\
     lookup "metrics_data"
       (analysis_record rt req
          (emergency_document rt data error generated_at))
       = Some (VStr (json_dumps rt (VDict []))) /\
     lookup "comprehensive_analysis"
       (analysis_record rt req
          (emergency_document rt data error generated_at))
       = Some (VStr (json_dumps rt
                       (VDict (emergency_document rt data error
                                 generated_at))))) /\
  (forall req doc field,
     In field numeric_fields ->
     lookup field (analysis_record rt (normalize_numeric_fields rt req) doc)
     = Some (if present_and_truthy field req
             then VFloat (float_or_zero rt (get req field))
             else get req (field ++ "_float"))).
Proof.
  split; [|split].
  - intros w data sid start t t' out req Hw E.
    destruct (pipeline_local_base rt w data sid start t t' out Hw E)
      as (cd & ai & final & base & md & C & B & Hb & ->).
    unfold analysis_record, get_default.
    cbn [lookup String.eqb Ascii.eqb Bool.eqb].
    rewrite !lookup_dict_set_neq by reflexivity.
    rewrite !(fun k => consolidated_lookup_base rt data cd ai final base k C B)
      by reflexivity.
    destruct Hb as [-> | ->]; repeat split; reflexivity.
  - intros data error generated_at req.
    unfold analysis_record, get_default, emergency_document. cbv zeta.
    cbn [lookup String.eqb Ascii.eqb Bool.eqb].
    rewrite !lookup_dict_set_neq by reflexivity.
    repeat split; reflexivity.
  - intros req doc field Hf.
    assert (G : get (normalize_numeric_fields rt req) (field ++ "_float")
                = if present_and_truthy field req
                  then VFloat (float_or_zero rt (get req field))
                  else get req (field ++ "_float")).
    { unfold get, get_default. rewrite (lookup_normalized rt req field Hf).
      now destruct (present_and_truthy field req). }
    unfold numeric_fields in Hf.
    destruct Hf as [<- | [<- | [<- | []]]]; rewrite <- G; reflexivity.
Qed.

Lemma stored_record_columns_witness :
  lookup "positioning_data"
    (analysis_record Sample.rt0 Sample.request_saude
       (match snd (analysis_pipeline Sample.rt0 Sample.w_llm_raises
                     Sample.request_saude (VStr "s") 0 []) with
        | Ok out => out
        | Err _ => []
        end))
  = Some (VStr (json_dumps Sample.rt0 (VDict []))) /\
  lookup "metrics_data"
    (analysis_record Sample.rt0 Sample.request_moda
       (emergency_document Sample.rt0
          (normalize_numeric_fields Sample.rt0 Sample.request_moda)
          "can't multiply sequence by non-int of type 'float'"
          "2024-01-01T00:00:00"))
  = Some (VStr (json_dumps Sample.rt0 (VDict []))) /\
  lookup "preco"
    (analysis_record Sample.rt0
       (normalize_numeric_fields Sample.rt0
          [("segmento", VStr "moda"); ("preco_float", VStr "grátis")])
       [])
  = Some (VStr "grátis").
Proof.
  destruct (stored_record_columns Sample.rt0) as (A & B & C).
  split; [|split].
  - destruct (analysis_pipeline Sample.rt0 Sample.w_llm_raises
                Sample.request_saude (VStr "s") 0 []) as [t' [out|e]] eqn:E.
    + apply (A Sample.w_llm_raises Sample.request_saude (VStr "s") 0%float
               [] t' out Sample.request_saude); [|exact E].
      right. split; [reflexivity|]. intros t0 d c. eexists. reflexivity.
    + vm_compute in E. discriminate E.
  - apply B.
  - apply (C [("segmento", VStr "moda"); ("preco_float", VStr "grátis")]
             [] "preco"). now left.
Defined.

(** ** Trends and market intelligence *)



(** ** Requests that are analysed in full *)

Lemma returns_lift_ok {A : Type} P (Q : A -> Prop) (r : result A) (a : A) :
  r = Ok a -> Q a -> returns P Q (lift r).
Proof. intros -> H. now apply returns_ret. Qed.

Lemma templates_with_default_amounts (rt : runtime) (data : dict) :
  lookup "preco" data = None ->
  lookup "objetivo_receita" data = None ->
  lookup "orcamento_marketing" data = None ->
  (exists plan, _create_complete_real_implementation_plan rt data = Ok plan) /\
  (exists metrics, _create_advanced_real_success_metrics rt data = Ok metrics) /\
  (exists timeline, _create_real_365_day_timeline data = Ok timeline) /\
  (exists monitoring, _create_real_monitoring_system data = Ok monitoring).
Proof.
  intros Hp Hr Hm.
  unfold _create_complete_real_implementation_plan,
    _create_advanced_real_success_metrics, _create_real_365_day_timeline,
    _create_real_monitoring_system, get_default.
  rewrite Hp, Hr, Hm.
  repeat split; vm_compute; eexists; reflexivity.
Qed.

Lemma local_heuristics_on_text_segment (rt : runtime) (data cd : dict)
    (s : string) :
  lookup "segmento" data = Some (VStr s) ->
  exists cd',
    local_heuristics rt data cd = Ok cd' /\
    lookup "sources" cd' = lookup "sources" cd.
Proof.
  intros Hs.
  unfold local_heuristics, _gather_ultra_real_market_intelligence,
    _analyze_real_market_trends, get_default.
  rewrite Hs. cbn [str_lower_of rbind].
  destruct (contains_sub "medicina" (str_lower rt s)
            || contains_sub "saúde" (str_lower rt s));
    [|destruct (contains_sub "digital" (str_lower rt s)
                || contains_sub "online" (str_lower rt s))];
    cbn [rbind]; eexists; (split; [reflexivity|]);
    now rewrite !lookup_dict_set_neq by reflexivity.
Qed.

Lemma consolidate_on_local_base (rt : runtime) (data cd ai base : dict) :
  lookup "preco" data = None ->
  lookup "objetivo_receita" data = None ->
  lookup "orcamento_marketing" data = None ->
  lookup "sources" cd = Some (VList []) ->
  main_analysis_of rt data ai = VDict base ->
  exists final, _consolidate_ultra_real_analysis rt data cd ai = Ok final.
Proof.
  intros Hp Hr Hm Hs B.
  destruct (templates_with_default_amounts rt data Hp Hr Hm)
    as ((p & P) & (me & Me) & (ti & Ti) & (mo & Mo)).
  unfold _consolidate_ultra_real_analysis. rewrite B.
  cbn [obj_copy rbind].
  do 4 (rewrite attach_if_present_dict; cbn [rbind]).
  unfold _generate_ultra_exclusive_real_insights, len_str, get_default.
  rewrite Hs. cbn [py_len rbind obj_setitem].
  rewrite P. cbn [rbind obj_setitem].
  rewrite Me. cbn [rbind obj_setitem].
  rewrite Ti. cbn [rbind obj_setitem].
  rewrite Mo. cbn [rbind obj_setitem].
  eexists. reflexivity.
Qed.

Lemma pipeline_returns_on_minimal_request (rt : runtime) (w : world)
    (data : dict) (sid : value) (start : float) (s : string) :
  lookup "segmento" data = Some (VStr s) ->
  lookup "preco" data = None ->
  lookup "objetivo_receita" data = None ->
  lookup "orcamento_marketing" data = None ->
  truthy sid = false ->
  (forall t, exists v, websailor_is_available w t = Ok v /\ truthy v = false) ->
  gemini_client_present w = false \/
  (gemini_client_present w = true /\
   forall t0 d c, exists e, generate_ultra_detailed_analysis w t0 d c = Err e) ->
  returns any_event (fun _ => True) (analysis_pipeline rt w data sid start).
Proof.
  intros Hs Hp Hr Hm Hsid Hweb Hw. unfold analysis_pipeline.
  eapply returns_bind
    with (Q := fun cd => lookup "sources" cd = Some (VList [])).
  { unfold _collect_ultra_comprehensive_real_data, attachments_phase.
    rewrite Hsid.
    eapply returns_bind with (Q := fun cd => cd = initial_comprehensive_data);
      [now apply returns_ret|]. intros cd ->.
    eapply returns_bind with (Q := fun cd => cd = initial_comprehensive_data).
    - unfold web_research_phase.
      eapply returns_bind with (Q := fun v => truthy v = false);
        [apply returns_call; [reflexivity | exact Hweb]|].
      intros v ->. now apply returns_ret.
    - intros cd ->.
      destruct (local_heuristics_on_text_segment rt data
                  initial_comprehensive_data s Hs) as (cd' & L & S).
      eapply returns_lift_ok; [exact L | exact S]. }
  intros cd Hsrc.
  eapply returns_bind
    with (Q := fun ai => exists base,
                 main_analysis_of rt data ai = VDict base /\
                 (base = _generate_basic_real_analysis rt data \/
                  base = _generate_basic_real_gemini_analysis rt data)).
  { destruct Hw as [Hg | [Hg Hf]].
    - eapply returns_weaken; [| |apply (run_multi_without_llm rt w data cd Hg)];
        [auto|].
      intros ai L. apply (proj1 (main_analysis_local rt data ai)) in L.
      eexists. split; [exact L | now left].
    - eapply returns_weaken;
        [| |apply (run_multi_substitutes rt w data cd Hg Hf)]; [auto|].
      intros ai L. apply (proj2 (main_analysis_local rt data ai)) in L.
      eexists. split; [exact L | now right]. }
  intros ai (base & B & Hb).
  destruct (consolidate_on_local_base rt data cd ai base Hp Hr Hm Hsrc B)
    as (final & C).
  eapply returns_bind with (Q := fun f => f = final);
    [eapply returns_lift_ok; [exact C | reflexivity]|]. intros f ->.
  eapply returns_bind with (Q := fun _ => True);
    [apply returns_call; [reflexivity|]; intros t; eexists; split;
       [reflexivity | exact I]|]. intros end_time _.
  eapply returns_bind with (Q := fun _ => True).
  { unfold get_default. rewrite Hsrc.
    eapply returns_lift_ok; [reflexivity | exact I]. }
  intros n _.
  eapply returns_bind with (Q := fun _ => True);
    [apply returns_call; [reflexivity|]; intros t; eexists; split;
       [reflexivity | exact I]|]. intros generated_at _.
  assert (Q : exists q, _calculate_ultra_quality_score final = Ok q).
  { unfold _calculate_ultra_quality_score, section_points, required_sections,
      present_and_truthy, has_key, get_default.
    cbn [fold_left].
    rewrite !(fun k => consolidated_lookup_base rt data cd ai final base k C B)
      by reflexivity.
    destruct Hb as [-> | ->]; vm_compute; eexists; reflexivity. }
  destruct Q as (q & Q).
  eapply returns_bind with (Q := fun _ => True);
    [eapply returns_lift_ok; [exact Q | exact I]|]. intros q' _.
  eapply returns_bind with (Q := fun _ => True).
  { unfold get_default.
    rewrite (consolidated_lookup_base rt data cd ai final base
               "insights_exclusivos_ultra" C B) by reflexivity.
    destruct Hb as [-> | ->];
      (eapply returns_lift_ok; [reflexivity | exact I]). }
  intros m _. now apply returns_ret.
Qed.

(** X18. A request that names its segment as text, sends no amounts
    ([preco], [objetivo_receita], [orcamento_marketing]) and has no
    session is analysed in full whenever web research reports itself
    unavailable and the primary LLM is not configured or its call raises,
    whatever the other collaborators do: the answer has status 200, its
    metadata says [real_data_guarantee] true and has no [emergency_mode],
    and the document carries the insights, the plan, the metrics, the
    timeline and the monitoring system. *)
Theorem minimal_request_is_analysed
    (rt : runtime) (w : world) (data : dict) (s : string) (t : trace) :
  lookup "segmento" data = Some (VStr s) ->
  s <> EmptyString ->
  lookup "preco" data = None ->
  lookup "objetivo_receita" data = None ->
  lookup "orcamento_marketing" data = None ->
  truthy (get data "session_id") = false ->
  truthy (flask_session_id w) = false ->
  (forall t0, exists v, websailor_is_available w t0 = Ok v /\ truthy v = false) ->
  gemini_client_present w = false \/
  (gemini_client_present w = true /\
   forall t0 d c, exists e, generate_ultra_detailed_analysis w t0 d c = Err e) ->
  exists t' doc md,
    analyze_market rt w (Ok (VDict data)) t
      = (t', Ok {| status := 200; body := VDict doc |}) /\
    lookup "metadata_ultra_detalhado" doc = Some (VDict md) /\
    lookup "emergency_mode" md = None /\
    lookup "real_data_guarantee" md = Some (VBool true) /\
    has_key "insights_exclusivos_real_ultra" doc = true /\
    has_key "plano_implementacao_real_completo" doc = true /\
    has_key "metricas_sucesso_real_avancadas" doc = true /\
    has_key "cronograma_real_365_dias" doc = true /\
    has_key "sistema_monitoramento_real" doc = true.
Proof.
  intros Hs Hne Hp Hr Hm Hsid Hflask Hweb Hw.
  assert (Hseg : truthy (get data "segmento") = true).
  { unfold get, get_default. rewrite Hs. destruct s; [now elim Hne | reflexivity]. }
  rewrite (analyze_market_validated rt w data t Hseg).
  set (data' := normalize_numeric_fields rt data).
  set (sid := if truthy (get data' "session_id") then get data' "session_id"
              else flask_session_id w).
  assert (L : forall k, String.eqb k "preco_float" = false ->
                        String.eqb k "objetivo_receita_float" = false ->
                        String.eqb k "orcamento_marketing_float" = false ->
                        lookup k data' = lookup k data).
  { intros k. apply lookup_normalized_other. }
  assert (Hsid' : truthy sid = false).
  { unfold sid, get, get_default. rewrite (L "session_id") by reflexivity.
    unfold get, get_default in Hsid. now rewrite Hsid. }
  assert (R : returns any_event (fun _ => True)
                (analysis_pipeline rt w data' sid (time_time w t))).
  { apply (pipeline_returns_on_minimal_request rt w data' sid _ s);
      try rewrite L by reflexivity; assumption. }
  destruct (R (t ++ [EvTime])%list) as (l & out & E & _ & _).
  pose proof (generate_unfold rt w data' sid t) as G. rewrite E in G.
  destruct (run_analysis_unfold rt w data t _ _ G) as (t2 & doc & Run & F).
  apply pipeline_ok in E
    as (t1 & cd & t3 & ai & final & n & q & m & g & el & _ & _ & C & _ & _ & ->).
  apply consolidate_ok in C
    as (base & i & p & me & ti & mo & _ & _ & _ & _ & _ & _ & ->).
  exists t2, doc. eexists. split; [exact Run|].
  split; [rewrite F by reflexivity; apply lookup_dict_set_same|].
  split; [reflexivity|]. split; [reflexivity|].
  repeat split;
    (erewrite has_key_lookup; [|apply F; reflexivity]);
    rewrite !has_key_dict_set; reflexivity.
Qed.

Lemma minimal_request_is_analysed_witness :
  exists t' doc md,
    analyze_market Sample.rt0 Sample.w_llm_raises
      (Ok (VDict Sample.request_saude)) []
      = (t', Ok {| status := 200; body := VDict doc |}) /\
    lookup "metadata_ultra_detalhado" doc = Some (VDict md) /\
    lookup "emergency_mode" md = None /\
    lookup "real_data_guarantee" md = Some (VBool true) /\
    has_key "insights_exclusivos_real_ultra" doc = true /\
    has_key "plano_implementacao_real_completo" doc = true /\
    has_key "metricas_sucesso_real_avancadas" doc = true /\
    has_key "cronograma_real_365_dias" doc = true /\
    has_key "sistema_monitoramento_real" doc = true.
Proof.
  apply (minimal_request_is_analysed Sample.rt0 Sample.w_llm_raises
           Sample.request_saude "saúde digital" []); try reflexivity.
  - discriminate.
  - intros t0. eexists. split; reflexivity.
  - right. split; [reflexivity|]. intros t0 d c. eexists. reflexivity.
Defined.

(** ** Numeric fields sent as text (claim C7) *)




(** ** Web research unavailable (claim C9) *)






